(** * Auerswald Config Manager: a shallow embedding of the PBX client

    The repository holds two near-duplicate command-line clients,
    [auer_cfg_mgr.py] and [auer_cfg_switch.py].  Both define a class
    [AuerswaldCfgMgr] whose methods talk to the appliance over HTTPS.
    The transport, the three mutating actions and [main] are textually
    the same in both files; the identity accessors and the header of
    [show_configurations] differ, and live in [Module Mgr] and
    [Module Switch] below.

    Conventions of the embedding.
    - A Python value decoded from JSON is a [json].  Numbers are Python
      ints; floating point is not modelled.
    - A Python [str] is a Rocq [string], one character per code point;
      code points above 255 are not modelled.
    - A Python dict is an association list in insertion order; when a
      key occurs twice the first binding is the dict's.
    - Methods run in the monad [M]: explicit state (the object [self],
      the appliance, the trace of effects so far) and exceptions. *)

From Stdlib Require Import Ascii.
From stdpp Require Import base strings list gmap pretty.

Set Warnings "-register-all".
Open Scope Z_scope.

(** ** Python values *)

Inductive json : Type :=
| JNull
| JBool (b : bool)
| JInt (n : Z)
| JStr (s : string)
| JArr (items : list json)
| JObj (fields : list (string * json)).

(** Exceptions the modelled code can raise.  [Unmodelled] marks a
    Python behaviour the embedding does not describe ([str] of a list
    or dict, which is their [repr]); it is not an exception of the
    program. *)
Inductive exn : Type :=
| KeyError
| IndexError
| TypeError
| AttributeError
| RequestException
| JSONDecodeError
| TunnelError
| SystemExit (code : Z)
| Unmodelled.

Inductive result (A : Type) : Type :=
| Ok (a : A)
| Raise (e : exn).
Arguments Ok {A} a.
Arguments Raise {A} e.

#[global] Instance result_ret : MRet result := λ A a, Ok a.
#[global] Instance result_bind : MBind result := λ A B f r,
  match r with
  | Ok a => f a
  | Raise e => Raise e
  end.

(** Status the interpreter exits with: 0 after a normal return, the
    code of a [SystemExit], 1 after any other uncaught exception. *)
Definition exit_status {A} (r : result A) : Z :=
  match r with
  | Ok _ => 0
  | Raise (SystemExit code) => code
  | Raise _ => 1
  end.

Module Py.

(** [bool(v)] *)
Definition truthy (v : json) : bool :=
  match v with
  | JNull => false
  | JBool b => b
  | JInt n => negb (n =? 0)
  | JStr s => negb (String.eqb s "")
  | JArr items => match items with [] => false | _ => true end
  | JObj fields => match fields with [] => false | _ => true end
  end.

(** [v is None] *)
Definition is_none (v : json) : bool :=
  match v with
  | JNull => true
  | _ => false
  end.

(** [d[k]] on a dict *)
Fixpoint lookup_field (k : string) (fields : list (string * json)) : option json :=
  match fields with
  | [] => None
  | (k', v) :: rest => if String.eqb k' k then Some v else lookup_field k rest
  end.

(** [v[k]] with a string key *)
Definition getitem_str (v : json) (k : string) : result json :=
  match v with
  | JObj fields =>
      match lookup_field k fields with
      | Some x => Ok x
      | None => Raise KeyError
      end
  | _ => Raise TypeError
  end.

(** the character at index [i] of a str, as a str of length one *)
Fixpoint char_at (s : string) (i : nat) : option string :=
  match s, i with
  | EmptyString, _ => None
  | String c _, O => Some (String c EmptyString)
  | String _ rest, S j => char_at rest j
  end.

(** [v[i]] with a non-negative integer literal index *)
Definition getitem_int (v : json) (i : nat) : result json :=
  match v with
  | JArr items =>
      match items !! i with
      | Some x => Ok x
      | None => Raise IndexError
      end
  | JStr s =>
      match char_at s i with
      | Some c => Ok (JStr c)
      | None => Raise IndexError
      end
  | JObj _ => Raise KeyError
  | _ => Raise TypeError
  end.

(** [v.get(k, default)]: only a dict has the method *)
Definition get (v : json) (k : string) (default : json) : result json :=
  match v with
  | JObj fields =>
      match lookup_field k fields with
      | Some x => Ok x
      | None => Ok default
      end
  | _ => Raise AttributeError
  end.

(** [v == s] where [s] is a str: values of another type are unequal *)
Definition eq_str (v : json) (s : string) : bool :=
  match v with
  | JStr t => String.eqb t s
  | _ => false
  end.

(** [str(v)], also what an f-string field without format spec gives *)
Definition str (v : json) : result string :=
  match v with
  | JNull => Ok "None"
  | JBool true => Ok "True"
  | JBool false => Ok "False"
  | JInt n => Ok (pretty n)
  | JStr s => Ok s
  | JArr _ | JObj _ => Raise Unmodelled
  end.

(** [str.isspace] on one code point below 256 *)
Definition is_space (c : ascii) : bool :=
  let n := N_of_ascii c in
  ((9 <=? n) && (n <=? 13) || (28 <=? n) && (n <=? 32)
   || (n =? 133) || (n =? 160))%N.

Fixpoint lstrip (s : string) : string :=
  match s with
  | EmptyString => EmptyString
  | String c rest => if is_space c then lstrip rest else s
  end.

Fixpoint rstrip (s : string) : string :=
  match s with
  | EmptyString => EmptyString
  | String c rest =>
      match rstrip rest with
      | EmptyString => if is_space c then EmptyString else String c EmptyString
      | kept => String c kept
      end
  end.

(** [s.strip()] *)
Definition strip (s : string) : string := rstrip (lstrip s).

(** [v.strip()]: only a str has the method *)
Definition strip_method (v : json) : result json :=
  match v with
  | JStr s => Ok (JStr (strip s))
  | _ => Raise AttributeError
  end.

(** keys of a dict in insertion order *)
Fixpoint keys (fields : list (string * json)) : list string :=
  match fields with
  | [] => []
  | (k, _) :: rest => k :: filter (λ k', k' ≠ k) (keys rest)
  end.

Fixpoint chars (s : string) : list string :=
  match s with
  | EmptyString => []
  | String c rest => String c EmptyString :: chars rest
  end.

(** the items a [for] loop over [v] visits *)
Definition iter (v : json) : result (list json) :=
  match v with
  | JArr items => Ok items
  | JObj fields => Ok (JStr <$> keys fields)
  | JStr s => Ok (JStr <$> chars s)
  | _ => Raise TypeError
  end.

End Py.

Example strip_firmware : Py.strip " 7.4A " = "7.4A".
Proof. reflexivity. Qed.

Example str_int : Py.str (JInt 20) = Ok "20".
Proof. reflexivity. Qed.

(** ** The appliance and the effects of the client *)

(** A form or query dict handed to [requests]: keys in insertion order. *)
Definition form : Type := list (string * json).

(** What [requests] hands back: [body] is the decoded JSON document,
    [None] when the body is not JSON ([.json()] then raises). *)
Record response : Type := { body : option json }.

(** The world outside the process: the network with the appliance
    behind it, and the SSH server.  [None] stands for the library
    raising (connection refused, authentication failure, ...). *)
Class Appliance : Type := {
  World : Type;
  session_get : string → World → option response * World;
  session_post : string → option form → option form → World → option response * World;
  tunnel_start : World → option Z * World;
  tunnel_stop : World → World
}.

(** Observable effects, in the order the process performs them. *)
Inductive event : Type :=
| EGet (url : string)
| EPost (url : string) (params data : option form)
| EPrint (line : string)
| ERender (texts : list string)
| ERenderTable (title : string) (rows : list (list json))
| ESleep (seconds : Z)
| ETunnelStart
| ETunnelStop
| EUsageError (message : string)
| EDebug.

Definition is_post (e : event) : bool :=
  match e with
  | EPost _ _ _ => true
  | _ => false
  end.

Definition is_get (e : event) : bool :=
  match e with
  | EGet _ => true
  | _ => false
  end.

(** Network writes and reads in a trace. *)
Definition posts (tr : list event) : list event := List.filter is_post tr.
Definition gets (tr : list event) : list event := List.filter is_get tr.

(** The object [self]: the settings loaded from the configuration
    file (the appliance address as a str, the tunnel flag as a bool),
    the tunnel once started (its local bind port), and in [attrs] the
    attributes the accessors create on demand.  The configuration
    file is taken to define none of the names the accessors probe
    with [hasattr]. *)
Record self_t : Type := {
  auer_address : string;
  ssh_tunnel : bool;
  tunnel : option Z;
  attrs : gmap string json
}.

Section Client.
Context `{Appliance}.

Record state : Type := {
  self : self_t;
  world : World;
  trace : list event
}.

Definition M (A : Type) : Type := state → result A * state.

#[global] Instance M_ret : MRet M := λ A a st, (Ok a, st).
#[global] Instance M_bind : MBind M := λ A B f m st,
  match m st with
  | (Ok a, st') => f a st'
  | (Raise e, st') => (Raise e, st')
  end.

Definition raise {A} (e : exn) : M A := λ st, (Raise e, st).

Definition lift {A} (r : result A) : M A := λ st, (r, st).

Definition emit (e : event) : M () := λ st,
  (Ok (), {| self := self st; world := world st; trace := trace st ++ [e] |}).

Definition get_self : M self_t := λ st, (Ok (self st), st).

Definition hasattr (name : string) : M bool := λ st,
  (Ok (bool_decide (is_Some (attrs (self st) !! name))), st).

Definition getattr (name : string) : M json := λ st,
  match attrs (self st) !! name with
  | Some v => (Ok v, st)
  | None => (Raise AttributeError, st)
  end.

Definition setattr (name : string) (v : json) : M () := λ st,
  (Ok (),
   {| self := {| auer_address := auer_address (self st);
                 ssh_tunnel := ssh_tunnel (self st);
                 tunnel := tunnel (self st);
                 attrs := <[name := v]> (attrs (self st)) |};
      world := world st; trace := trace st |}).

(** [self.tunnel.local_bind_port] *)
Definition local_bind_port : M Z := λ st,
  match tunnel (self st) with
  | Some port => (Ok port, st)
  | None => (Raise AttributeError, st)
  end.

(** [self.session.get(url)] *)
Definition session_get_m (url : string) : M response := λ st,
  let '(r, w) := session_get url (world st) in
  (match r with Some resp => Ok resp | None => Raise RequestException end,
   {| self := self st; world := w; trace := trace st ++ [EGet url] |}).

(** [self.session.post(url, params=..., data=...)] *)
Definition session_post_m (url : string) (params data : option form) : M response := λ st,
  let '(r, w) := session_post url params data (world st) in
  (match r with Some resp => Ok resp | None => Raise RequestException end,
   {| self := self st; world := w; trace := trace st ++ [EPost url params data] |}).

(** [r.json()] *)
Definition json_of (r : response) : M json :=
  match body r with
  | Some doc => mret doc
  | None => raise JSONDecodeError
  end.

(** *** Transport *)

Definition _connect_ssh_tunnel : M Z := λ st,
  let '(r, w) := tunnel_start (world st) in
  match r with
  | Some port =>
      (Ok port,
       {| self := {| auer_address := auer_address (self st);
                     ssh_tunnel := ssh_tunnel (self st);
                     tunnel := Some port;
                     attrs := attrs (self st) |};
          world := w; trace := trace st ++ [ETunnelStart] |})
  | None =>
      (Raise TunnelError,
       {| self := self st; world := w; trace := trace st ++ [ETunnelStart] |})
  end.

Definition _disconnect_ssh_tunnel : M () := λ st,
  match tunnel (self st) with
  | Some _ =>
      (Ok (),
       {| self := self st; world := tunnel_stop (world st);
          trace := trace st ++ [ETunnelStop] |})
  | None => (Raise AttributeError, st)
  end.

Definition _fetch (path : string) : M response :=
  s ← get_self;
  url ← (if ssh_tunnel s
         then port ← local_bind_port;
              mret ("https://127.0.0.1:" +:+ pretty port +:+ path)
         else mret ("https://" +:+ auer_address s +:+ path));
  session_get_m url.

(** The callers never pass [files] or [headers]; they stay [None]. *)
Definition _send (path : string) (params data : option form) : M response :=
  s ← get_self;
  url ← (if ssh_tunnel s
         then port ← local_bind_port;
              mret ("https://127.0.0.1:" +:+ pretty port +:+ path)
         else mret ("https://" +:+ auer_address s +:+ path));
  session_post_m url params data.

(** *** Query adapter: the fetchers common to both programs *)

Definition _fetch_autoswitch_state : M json :=
  r ← _fetch "/config_autoswitch_state"; json_of r.

Definition _fetch_cfg_state : M json :=
  r ← _fetch "/configs_state"; json_of r.

Definition _fetch_times_state : M json :=
  r ← _fetch "/configs_switchtimes_state"; json_of r.

(** *** Command actions (the same text in both programs) *)

Definition enable_autoswitch : M json :=
  current ← _fetch_autoswitch_state;
  cb ← lift (Py.getitem_str current "switchCfgCb");
  if Py.eq_str cb "1" then mret (JBool true)
  else
    name ← lift (Py.getitem_str current "switchSysRelaisName");
    let data := [("switchCfgCb", JStr "switchCfgCb");
                 ("switchSysRelais", JStr "switchSysRelais");
                 ("switchSysRelaisName", name)] in
    _ ← _send "/config_autoswitch_save" None (Some data);
    mret JNull.

Definition disable_autoswitch : M json :=
  current ← _fetch_autoswitch_state;
  cb ← lift (Py.getitem_str current "switchCfgCb");
  if Py.eq_str cb "0" then mret (JBool true)
  else
    name ← lift (Py.getitem_str current "switchSysRelaisName");
    let data := [("switchSysRelais", JStr "switchSysRelais");
                 ("switchSysRelaisName", name)] in
    _ ← _send "/config_autoswitch_save" None (Some data);
    mret JNull.

(** The body of the [for] loop of [switch_config], and the two
    statements after the loop once it runs out of entries. *)
Fixpoint switch_config_loop (cfg_number : json) (configs : list json) : M json :=
  match configs with
  | [] =>
      shown ← lift (Py.str cfg_number);
      _ ← emit (EPrint ("Identifikationsnummer " +:+ shown +:+ " not found"));
      raise (SystemExit 1)
  | config :: rest =>
      d ← lift (Py.getitem_str config "data");
      ident ← lift (Py.getitem_int d 1);
      wanted ← lift (Py.str cfg_number);
      if Py.eq_str ident wanted then
        userdata ← lift (Py.get config "userdata" (JObj []));
        active ← lift (Py.get userdata "active" JNull);
        if Py.truthy active then mret (JBool true)
        else
          i ← lift (Py.getitem_str config "id");
          configId ← lift (Py.str i);
          let params := [("configId", JStr configId)] in
          _ ← _send "/configs_set" (Some params) None;
          _ ← emit (ESleep 1);
          mret (JBool true)
      else switch_config_loop cfg_number rest
  end.

Definition switch_config (cfg_number : json) : M json :=
  doc ← _fetch_cfg_state;
  rows ← lift (Py.getitem_str doc "rows");
  configs ← lift (Py.iter rows);
  switch_config_loop cfg_number configs.

(** *** Presentation: the parts both programs share *)

Definition check_mark : string := "[green]:heavy_check_mark:".
Definition cross_mark : string := "[red]:heavy_multiplication_x:".

(** The two rows of the autoswitch panel. *)
Definition autoswitch_rows : M (list (list json)) :=
  autoswitch_state ← _fetch_autoswitch_state;
  cb ← lift (Py.getitem_str autoswitch_state "switchCfgCb");
  let row1 := [JStr "Automatische Konfigurationsumschaltung";
               JStr (if Py.truthy cb then check_mark else cross_mark)] in
  name ← lift (Py.getitem_str autoswitch_state "switchSysRelaisName");
  shown ← lift (Py.str name);
  relais ← lift (Py.getitem_str autoswitch_state "switchSysRelais");
  let row2 := [JStr ("Steuerbar mit Systemrelais: " +:+ shown);
               JStr (if Py.truthy relais then check_mark else cross_mark)] in
  mret [row1; row2].

(** The [for] loop that fills the table of configurations. *)
Fixpoint config_rows (configs : list json) : M (list (list json)) :=
  match configs with
  | [] => mret []
  | config :: rest =>
      userdata ← lift (Py.get config "userdata" (JObj []));
      active ← lift (Py.get userdata "active" JNull);
      d0 ← lift (Py.getitem_str config "data");
      name ← lift (Py.getitem_int d0 0);
      d1 ← lift (Py.getitem_str config "data");
      ident ← lift (Py.getitem_int d1 1);
      let row := if Py.truthy active then [name; ident; JStr check_mark]
                 else [name; ident] in
      more ← config_rows rest;
      mret (row :: more)
  end.

(** *** The command line *)

(** What [parser.parse_args()] returns: [number] is [JNull] when the
    optional positional is absent, else the int it was parsed to. *)
Record Namespace : Type := {
  command : string;
  number : json;
  debug : bool
}.

(** [parser.error(message)]: argparse prints the usage and the
    message to standard error and exits with status 2. *)
Definition parser_error {A} (message : string) : M A :=
  _ ← emit (EUsageError message);
  raise (SystemExit 2).

Definition _enable_debug : M () := emit EDebug.

(** [main] from the line [args = parser.parse_args()] on.  Its text
    is the same in both programs; [show_configurations] is the
    method of the program at hand. *)
Definition main_with (show_configurations : M ()) (args : Namespace) : M () :=
  _ ← (if String.eqb (command args) "select" && Py.is_none (number args)
       then parser_error "The 'select' command requires a number."
       else mret ());
  _ ← (if debug args then _enable_debug else mret ());
  s ← get_self;
  _ ← (if ssh_tunnel s then _ ← _connect_ssh_tunnel; mret () else mret ());
  _ ← (if String.eqb (command args) "show" then show_configurations
       else if String.eqb (command args) "enable" then
         _ ← enable_autoswitch; show_configurations
       else if String.eqb (command args) "disable" then
         _ ← disable_autoswitch; show_configurations
       else if String.eqb (command args) "select" then
         _ ← switch_config (number args); show_configurations
       else emit (EPrint "Unsupported command"));
  s ← get_self;
  if ssh_tunnel s then _disconnect_ssh_tunnel else mret ().

End Client.


(** The URL [_fetch] and [_send] request for [path], written once for
    the statements below ([_fetch_run] and [_send_run] tie it to the
    two methods). *)
Definition endpoint (s : self_t) (path : string) : result string :=
  if ssh_tunnel s then
    match tunnel s with
    | Some port => Ok ("https://127.0.0.1:" +:+ pretty port +:+ path)
    | None => Raise AttributeError
    end
  else Ok ("https://" +:+ auer_address s +:+ path).

Definition newline : string := String "010"%char EmptyString.

(** ** [auer_cfg_mgr.py] *)

Module Mgr.
Section Mgr.
Context `{Appliance}.

Definition _fetch_pbx_menu_tree : M json :=
  r ← _fetch "/tree"; json_of r.

Definition _fetch_pbx_about : M json :=
  r ← _fetch "/about_state"; json_of r.

Definition _fetch_pbx_logstatus : M json :=
  r ← _fetch "/logstatus_state"; json_of r.

Definition _pbx_user : M json :=
  cached ← hasattr "pbx_logstatus";
  _ ← (if negb cached
       then doc ← _fetch_pbx_logstatus; setattr "pbx_logstatus" doc
       else mret ());
  doc ← getattr "pbx_logstatus";
  lift (Py.getitem_str doc "logstatus").

(** The guard looks for [pbx_info]; the assignment creates [pbx_tree]. *)
Definition _pbx_product : M json :=
  cached ← hasattr "pbx_info";
  _ ← (if negb cached
       then doc ← _fetch_pbx_menu_tree; setattr "pbx_tree" doc
       else mret ());
  doc ← getattr "pbx_tree";
  first ← lift (Py.getitem_int doc 0);
  lift (Py.getitem_str first "pbx").

Definition _pbx_name : M json :=
  cached ← hasattr "pbx_info";
  _ ← (if negb cached
       then doc ← _fetch_pbx_menu_tree; setattr "pbx_tree" doc
       else mret ());
  doc ← getattr "pbx_tree";
  first ← lift (Py.getitem_int doc 0);
  lift (Py.getitem_str first "pbxEdit").

Definition _pbx_firmware : M json :=
  cached ← hasattr "pbx_about";
  _ ← (if negb cached
       then doc ← _fetch_pbx_about; setattr "pbx_about" doc
       else mret ());
  doc ← getattr "pbx_about";
  version ← lift (Py.getitem_str doc "version");
  lift (Py.strip_method version).

Definition _pbx_date : M json :=
  cached ← hasattr "pbx_about";
  _ ← (if negb cached
       then doc ← _fetch_pbx_about; setattr "pbx_about" doc
       else mret ());
  doc ← getattr "pbx_about";
  lift (Py.getitem_str doc "date").

Definition _pbx_serial : M json :=
  cached ← hasattr "pbx_about";
  _ ← (if negb cached
       then doc ← _fetch_pbx_about; setattr "pbx_about" doc
       else mret ());
  doc ← getattr "pbx_about";
  lift (Py.getitem_str doc "serial").

(** What [rich] prints is not modelled beyond the text and the cells
    handed to it. *)
Definition show_configurations : M () :=
  product ← _pbx_product; product ← lift (Py.str product);
  firmware ← _pbx_firmware; firmware ← lift (Py.str firmware);
  date ← _pbx_date; date ← lift (Py.str date);
  serial ← _pbx_serial; serial ← lift (Py.str serial);
  user ← _pbx_user; user ← lift (Py.str user);
  s ← get_self;
  name ← _pbx_name; name ← lift (Py.str name);
  _ ← emit (ERender
    ["[bold][blue]" +:+ product +:+ "[/blue] [black]Zeitsteuerung - Konfigurationen"
     +:+ newline +:+ firmware +:+ ", Datum " +:+ date +:+ ", SN " +:+ serial
     +:+ " | Angemeldet als: " +:+ user +:+ "@" +:+ auer_address s
     +:+ " | Anlagenname: " +:+ name +:+ "[/black][/bold]"]);
  _ ← emit (ERender []);
  rows ← autoswitch_rows;
  _ ← emit (ERenderTable "KONFIGURATIONSUMSCHALTUNG" rows);
  _ ← emit (EPrint "");
  configs ← _fetch_cfg_state;
  listed ← lift (Py.getitem_str configs "rows");
  items ← lift (Py.iter listed);
  rows ← config_rows items;
  emit (ERenderTable "KONFIGURATIONSNAMEN" rows).

Definition main : Namespace → M () := main_with show_configurations.

End Mgr.
End Mgr.

(** ** [auer_cfg_switch.py] *)

Module Switch.
Section Switch.
Context `{Appliance}.

Definition _fetch_pbx_info : M json :=
  r ← _fetch "/tree"; json_of r.

Definition _pbx_product : M json :=
  cached ← hasattr "pbx_info";
  _ ← (if negb cached
       then doc ← _fetch_pbx_info; setattr "pbx_info" doc
       else mret ());
  doc ← getattr "pbx_info";
  first ← lift (Py.getitem_int doc 0);
  lift (Py.getitem_str first "pbx").

Definition _pbx_name : M json :=
  cached ← hasattr "pbx_info";
  _ ← (if negb cached
       then doc ← _fetch_pbx_info; setattr "pbx_info" doc
       else mret ());
  doc ← getattr "pbx_info";
  first ← lift (Py.getitem_int doc 0);
  lift (Py.getitem_str first "pbxEdit").

Definition show_configurations : M () :=
  product ← _pbx_product; product ← lift (Py.str product);
  name ← _pbx_name; name ← lift (Py.str name);
  _ ← emit (ERender
    ["[white][bold]" +:+ product +:+ " | " +:+ name +:+ ":[/bold]";
     "Zeitsteuerung [magenta]/[/magenta] Konfigurationen"]);
  _ ← emit (ERender []);
  rows ← autoswitch_rows;
  _ ← emit (ERenderTable "Konfigurationsumschaltung" rows);
  _ ← emit (EPrint "");
  configs ← _fetch_cfg_state;
  listed ← lift (Py.getitem_str configs "rows");
  items ← lift (Py.iter listed);
  rows ← config_rows items;
  emit (ERenderTable "Konfigurationsnamen" rows).

Definition main : Namespace → M () := main_with show_configurations.

End Switch.
End Switch.

(** ** Statements about runs *)

Section Observers.
Context `{Appliance}.

(** The effects a run of [m] from [st] adds to the trace. *)
Definition events_of {A} (m : M A) (st : state) : list event :=
  drop (length (trace st)) (trace (m st).2).

(** [writes_le n m]: whatever the state, [m] only appends to the
    trace, and appends at most [n] POSTs. *)
Definition writes_le {A} (n : nat) (m : M A) : Prop :=
  ∀ st, ∃ evs, trace (m st).2 = trace st ++ evs ∧ (length (posts evs) ≤ n)%nat.

(** Two calls of [enable_autoswitch] in a row. *)
Definition enable_twice : M (json * json) :=
  r1 ← enable_autoswitch; r2 ← enable_autoswitch; mret (r1, r2).

End Observers.

(** The forms [enable_autoswitch] and [disable_autoswitch] post. *)
Definition enable_form (name : json) : form :=
  [("switchCfgCb", JStr "switchCfgCb");
   ("switchSysRelais", JStr "switchSysRelais");
   ("switchSysRelaisName", name)].

Definition disable_form (name : json) : form :=
  [("switchSysRelais", JStr "switchSysRelais");
   ("switchSysRelaisName", name)].

(** A configuration entry as the data model has it: a dict with a
    numeric [id], [data] holding the display name and then the
    identification number as a str, and [userdata], when present, a
    dict. *)
Definition entry_ok (c : json) : bool :=
  match c with
  | JObj fields =>
      match Py.lookup_field "data" fields, Py.lookup_field "id" fields with
      | Some (JArr (_ :: JStr _ :: _)), Some (JInt _) =>
          match Py.lookup_field "userdata" fields with
          | None | Some (JObj _) => true
          | Some _ => false
          end
      | _, _ => false
      end
  | _ => false
  end.

(** Identification number, id and active flag of an entry. *)
Definition entry_ident (c : json) : option json :=
  match Py.getitem_str c "data" ≫= λ d, Py.getitem_int d 1 with
  | Ok v => Some v
  | Raise _ => None
  end.

Definition entry_id (c : json) : option json :=
  match Py.getitem_str c "id" with
  | Ok v => Some v
  | Raise _ => None
  end.

Definition entry_active (c : json) : bool :=
  match Py.get c "userdata" (JObj []) ≫= λ u, Py.get u "active" JNull with
  | Ok v => Py.truthy v
  | Raise _ => false
  end.

(** The entry's identification number equals [str(n)]. *)
Definition ident_is (n : Z) (c : json) : bool :=
  match entry_ident c with
  | Some v => Py.eq_str v (pretty n)
  | None => false
  end.

(** The appliance, asked from [st], answers [/configs_state] with the
    list [rows]. *)
Definition lists_configs `{Appliance} (st : state) (rows : list json) : Prop :=
  ∃ url doc w1,
    endpoint (self st) "/configs_state" = Ok url
    ∧ session_get url (world st) = (Some {| body := Some doc |}, w1)
    ∧ Py.getitem_str doc "rows" = Ok (JArr rows).

(** The specification's sentence read over any entry: [switch_config],
    on the fetched list [rows], writes exactly when SOME entry of
    [rows] carries the wanted identification number and is not
    active. *)
Definition writes_iff_some_inactive_match `{Appliance}
    (n : Z) (rows : list json) (st : state) : Prop :=
  lists_configs st rows →
  ((∃ e, posts (events_of (switch_config (JInt n)) st) = [e])
   ↔ (∃ c, In c rows ∧ ident_is n c = true ∧ entry_active c = false)).

(** [out] is [raw] without its leading and trailing whitespace. *)
Definition all_space (s : string) : Prop :=
  Forall (λ c, Py.is_space c = true) (String.list_ascii_of_string s).

Definition stripped_of (raw out : string) : Prop :=
  (∃ lead trail, raw = lead +:+ out +:+ trail ∧ all_space lead ∧ all_space trail)
  ∧ (∀ c rest, out = String c rest → Py.is_space c = false)
  ∧ (∀ c front, out = front +:+ String c EmptyString → Py.is_space c = false).

(** ** A simulated appliance, to run the client on concrete inputs *)

Module Sim.

Record profile : Type := {
  p_id : Z;
  p_name : string;
  p_ident : string;
  p_active : bool
}.

Record pbx : Type := {
  cfg_cb : json;
  relais_name : string;
  version : string;
  profiles : list profile
}.

Definition profile_json (p : profile) : json :=
  JObj ([("id", JInt (p_id p)); ("data", JArr [JStr (p_name p); JStr (p_ident p)])]
        ++ (if p_active p then [("userdata", JObj [("active", JBool true)])] else [])).

Fixpoint from_slash (s : string) : string :=
  match s with
  | EmptyString => EmptyString
  | String c rest => if Ascii.eqb c "/"%char then s else from_slash rest
  end.

(** the path of [https://host/path] *)
Definition path_of (url : string) : string :=
  from_slash (String.substring 8 (String.length url) url).

Definition document (path : string) (w : pbx) : option json :=
  if String.eqb path "/tree" then
    Some (JArr [JObj [("pbx", JStr "COMpact 5200"); ("pbxEdit", JStr "Zentrale")]])
  else if String.eqb path "/about_state" then
    Some (JObj [("version", JStr (version w)); ("date", JStr "01.02.2023");
                ("serial", JStr "1234567890")])
  else if String.eqb path "/logstatus_state" then
    Some (JObj [("logstatus", JStr "admin")])
  else if String.eqb path "/config_autoswitch_state" then
    Some (JObj [("switchCfgCb", cfg_cb w); ("switchSysRelais", JStr "1");
                ("switchSysRelaisName", JStr (relais_name w))])
  else if String.eqb path "/configs_state" then
    Some (JObj [("rows", JArr (profile_json <$> profiles w))])
  else None.

Definition get (url : string) (w : pbx) : option response * pbx :=
  (Some {| body := document (path_of url) w |}, w).

Definition has_key (k : string) (f : option form) : bool :=
  match f with
  | Some fields => match Py.lookup_field k fields with Some _ => true | None => false end
  | None => false
  end.

Definition activate (configId : json) (p : profile) : profile :=
  {| p_id := p_id p; p_name := p_name p; p_ident := p_ident p;
     p_active := Py.eq_str configId (pretty (p_id p)) |}.

Definition post (url : string) (params data : option form) (w : pbx)
  : option response * pbx :=
  if String.eqb (path_of url) "/config_autoswitch_save" then
    (Some {| body := None |},
     {| cfg_cb := JStr (if has_key "switchCfgCb" data then "1" else "0");
        relais_name := relais_name w; version := version w;
        profiles := profiles w |})
  else if String.eqb (path_of url) "/configs_set" then
    match params ≫= Py.lookup_field "configId" with
    | Some configId =>
        (Some {| body := None |},
         {| cfg_cb := cfg_cb w; relais_name := relais_name w; version := version w;
            profiles := activate configId <$> profiles w |})
    | None => (Some {| body := None |}, w)
    end
  else (Some {| body := None |}, w).

Definition appliance : Appliance := {|
  World := pbx;
  session_get := get;
  session_post := post;
  tunnel_start := λ w, (Some 40022, w);
  tunnel_stop := λ w, w
|}.

(** The configuration list of the example in the specification. *)
Definition day_night : list profile :=
  [ {| p_id := 1; p_name := "Day"; p_ident := "10"; p_active := true |};
    {| p_id := 2; p_name := "Night"; p_ident := "20"; p_active := false |} ].

(** Two entries with the same identification number. *)
Definition twins : list profile :=
  [ {| p_id := 1; p_name := "Day"; p_ident := "10"; p_active := true |};
    {| p_id := 2; p_name := "Night"; p_ident := "10"; p_active := false |} ].

Definition day : json :=
  profile_json {| p_id := 1; p_name := "Day"; p_ident := "10"; p_active := true |}.
Definition night20 : json :=
  profile_json {| p_id := 2; p_name := "Night"; p_ident := "20"; p_active := false |}.
Definition night10 : json :=
  profile_json {| p_id := 2; p_name := "Night"; p_ident := "10"; p_active := false |}.

Definition box (cb : json) (ps : list profile) : pbx :=
  {| cfg_cb := cb; relais_name := "Relais 1"; version := " 7.4A "; profiles := ps |}.

(** A freshly constructed client talking to the appliance directly. *)
Definition fresh (w : pbx) : @state appliance :=
  {| self := {| auer_address := "pbx.example"; ssh_tunnel := false;
                tunnel := None; attrs := ∅ |};
     world := (w : @World appliance); trace := [] |}.

(** The same with the SSH tunnel configured. *)
Definition fresh_tunnelled (w : pbx) : @state appliance :=
  {| self := {| auer_address := "pbx.example"; ssh_tunnel := true;
                tunnel := None; attrs := ∅ |};
     world := (w : @World appliance); trace := [] |}.

End Sim.

(** ** Further vocabulary for statements *)

(** The settings a request depends on. *)
Definition same_settings (s s' : self_t) : Prop :=
  auer_address s' = auer_address s
  ∧ ssh_tunnel s' = ssh_tunnel s
  ∧ tunnel s' = tunnel s.

(** An effect of a method that works inside the session [s] has set
    up: a request goes to the URL [s] gives some path, and the tunnel
    is neither started nor stopped. *)
Definition in_session (s : self_t) (e : event) : Prop :=
  match e with
  | EGet url | EPost url _ _ => ∃ path, endpoint s path = Ok url
  | ETunnelStart | ETunnelStop => False
  | _ => True
  end.

(** Effects that neither reach the network nor touch the tunnel. *)
Definition is_local (e : event) : bool :=
  match e with
  | EGet _ | EPost _ _ _ | ETunnelStart | ETunnelStop => false
  | _ => true
  end.

(** [s] with the document [v] stored as attribute [name]. *)
Definition with_attr (s : self_t) (name : string) (v : json) : self_t :=
  {| auer_address := auer_address s; ssh_tunnel := ssh_tunnel s;
     tunnel := tunnel s; attrs := <[name := v]> (attrs s) |}.

Section Steps.
Context `{Appliance}.

(** The state after a request of [url] the appliance left in [w]. *)
Definition got (st : state) (url : string) (w : World) : state :=
  {| self := self st; world := w; trace := trace st ++ [EGet url] |}.

Definition posted (st : state) (url : string) (params data : option form)
    (w : World) : state :=
  {| self := self st; world := w; trace := trace st ++ [EPost url params data] |}.

(** The state after an accessor fetched [doc] and stored it as [name]. *)
Definition kept (st : state) (name : string) (doc : json) (url : string)
    (w : World) : state :=
  {| self := with_attr (self st) name doc; world := w;
     trace := trace st ++ [EGet url] |}.

(** [run_inv_at R P m st]: run from [st], [m] takes the object [self]
    to one related by [R], only appends to the trace, and what it
    appends satisfies [P] at the [self] it started from. *)
Definition run_inv_at {A} (R : self_t → self_t → Prop) (P : self_t → event → Prop)
    (m : M A) (st : state) : Prop :=
  R (self st) (self (m st).2)
  ∧ ∃ evs, trace (m st).2 = trace st ++ evs ∧ Forall (P (self st)) evs.

Definition run_inv {A} (R : self_t → self_t → Prop) (P : self_t → event → Prop)
    (m : M A) : Prop :=
  ∀ st, run_inv_at R P m st.

End Steps.

(** The shapes a run of the selection can take in the session of
    [s]: what it returns or raises, and the effects after the fetch.
    A POST goes to [/configs_set] and carries one query parameter,
    [configId], and no form. *)
Inductive select_shape (s : self_t) : result json → list event → Prop :=
| shape_noop : select_shape s (Ok (JBool true)) []
| shape_raise e : select_shape s (Raise e) []
| shape_not_found line : select_shape s (Raise (SystemExit 1)) [EPrint line]
| shape_post_failed url configId :
    endpoint s "/configs_set" = Ok url →
    select_shape s (Raise RequestException)
      [EPost url (Some [("configId", JStr configId)]) None]
| shape_selected url configId :
    endpoint s "/configs_set" = Ok url →
    select_shape s (Ok (JBool true))
      [EPost url (Some [("configId", JStr configId)]) None; ESleep 1].

(** Requests that go straight to the appliance at [addr], with no
    tunnel started or stopped. *)
Definition direct_only (addr : string) (e : event) : Prop :=
  match e with
  | EGet url | EPost url _ _ => ∃ path, url = "https://" +:+ addr +:+ path
  | ETunnelStart | ETunnelStop => False
  | _ => True
  end.

(** Requests that go through the local end of the tunnel at [port]. *)
Definition tunnelled_only (port : Z) (e : event) : Prop :=
  match e with
  | EGet url | EPost url _ _ =>
      ∃ path, url = "https://127.0.0.1:" +:+ pretty port +:+ path
  | ETunnelStart | ETunnelStop => False
  | _ => True
  end.

Section Dispatch.
Context `{Appliance}.

(** The [if]/[elif] chain of [main] that runs the command. *)
Definition dispatch (show_configurations : M ()) (args : Namespace) : M () :=
  if String.eqb (command args) "show" then show_configurations
  else if String.eqb (command args) "enable" then
    _ ← enable_autoswitch; show_configurations
  else if String.eqb (command args) "disable" then
    _ ← disable_autoswitch; show_configurations
  else if String.eqb (command args) "select" then
    _ ← switch_config (number args); show_configurations
  else emit (EPrint "Unsupported command").

(** [self] once the tunnel is up on [port]. *)
Definition with_tunnel (s : self_t) (port : Z) : self_t :=
  {| auer_address := auer_address s; ssh_tunnel := ssh_tunnel s;
     tunnel := Some port; attrs := attrs s |}.

End Dispatch.

(** Display name of an entry, and the table row [show_configurations]
    makes of it. *)
Definition entry_name (c : json) : option json :=
  match Py.getitem_str c "data" ≫= λ d, Py.getitem_int d 0 with
  | Ok v => Some v
  | Raise _ => None
  end.


(** An appliance that answers every GET with one and the same
    document and accepts every POST; it has no SSH server. *)
Module Canned.

Definition appliance (doc : json) : Appliance := {|
  World := unit;
  session_get := λ _ w, (Some {| body := Some doc |}, w);
  session_post := λ _ _ _ w, (Some {| body := None |}, w);
  tunnel_start := λ w, (None, w);
  tunnel_stop := λ w, w
|}.

Definition fresh (doc : json) : @state (appliance doc) :=
  {| self := {| auer_address := "pbx.example"; ssh_tunnel := false;
                tunnel := None; attrs := ∅ |};
     world := (tt : @World (appliance doc)); trace := [] |}.

(** The same client with the tunnel flag set. *)
Definition fresh_tunnelled (doc : json) : @state (appliance doc) :=
  {| self := {| auer_address := "pbx.example"; ssh_tunnel := true;
                tunnel := None; attrs := ∅ |};
     world := (tt : @World (appliance doc)); trace := [] |}.

(** A list whose first entry has no [data]. *)
Definition broken_first : json :=
  JObj [("rows", JArr [JObj [("id", JInt 1)]; Sim.night20])].

(** A list whose identification numbers are JSON numbers. *)
Definition numeric_ident : json :=
  JObj [("rows", JArr [JObj [("id", JInt 1); ("data", JArr [JStr "Day"; JInt 10])]])].

(** A document whose [rows] is a str. *)
Definition rows_as_text : json := JObj [("rows", JStr "none")].

End Canned.

(** ** Construction of the client: [__init__] and [_load_config]

    The two programs have the same constructor.  The configuration
    file is read through [fs]; the value [yaml.safe_load] returns is
    taken to be a [json] (YAML's further types and non-str keys are
    not modelled).  Attributes are instance attributes only. *)

Module Init.

(** What opening and parsing a file gives. *)
Inductive config_file : Type :=
| Unreadable
| Malformed
| Loaded (data : json).

(** Exceptions of the constructor: [open] failing, [yaml.safe_load]
    failing, [data.items] on a value that is no dict, and a setting
    the constructor reads but the file did not define. *)
Inductive init_exn : Type :=
| OSError
| YAMLError
| NoItems
| NoSetting (name : string).

(** An attribute value: a value from the configuration file or one of
    the constructor's defaults, or the session object. *)
Inductive value : Type :=
| Plain (v : json)
| Session (auth_user auth_pass : value) (verify : bool).

(** The constructed object, and whether urllib3's warnings were
    switched off on the way. *)
Record object : Type := {
  attributes : gmap string value;
  warnings_disabled : bool
}.

(** [data.items()] on a dict: each key once, with its value. *)
Definition items (fields : list (string * json)) : list (string * json) :=
  (λ k, (k, default JNull (Py.lookup_field k fields))) <$> Py.keys fields.

(** The loop [for key, value in data.items(): setattr(self, key, value)]. *)
Definition set_all (kvs : list (string * json)) (attrs : gmap string value)
    : gmap string value :=
  foldl (λ m kv, <[kv.1 := Plain kv.2]> m) attrs kvs.

(** [_load_config]; [script_dir] is what [self.script_dir] holds, a
    str since the constructor has just set it. *)
Definition _load_config (script_dir : string) (fs : string → config_file)
    (attrs : gmap string value) : init_exn + gmap string value :=
  match fs (script_dir +:+ "/auerswald.cfg.yaml") with
  | Unreadable => inl OSError
  | Malformed => inl YAMLError
  | Loaded (JObj fields) => inr (set_all (items fields) attrs)
  | Loaded _ => inl NoItems
  end.

Definition getattr (attrs : gmap string value) (name : string) : init_exn + value :=
  match attrs !! name with
  | Some v => inr v
  | None => inl (NoSetting name)
  end.

Definition truthy (v : value) : bool :=
  match v with
  | Plain j => Py.truthy j
  | Session _ _ _ => true
  end.

(** The attributes the constructor sets before it loads the file. *)
Definition defaults (script_dir : string) : gmap string value :=
  <["uuid" := Plain JNull]>
    (<["ssl_verify" := Plain (JBool false)]>
       (<["script_dir" := Plain (JStr script_dir)]> ∅)).

(** [__init__], given the directory of the script. *)
Definition __init__ (script_dir : string) (fs : string → config_file)
    : init_exn + object :=
  match _load_config script_dir fs (defaults script_dir) with
  | inl e => inl e
  | inr attrs1 =>
      match getattr attrs1 "auer_admin_user" with
      | inl e => inl e
      | inr user =>
          match getattr attrs1 "auer_admin_pass" with
          | inl e => inl e
          | inr pass =>
              let attrs2 := <["session" := Session user pass false]> attrs1 in
              match getattr attrs2 "ssl_verify" with
              | inl e => inl e
              | inr flag =>
                  inr {| attributes := attrs2;
                         warnings_disabled := negb (truthy flag) |}
              end
          end
      end
  end.

(** A file system holding [data] as the configuration next to the
    script in [dir], and nothing else. *)
Definition only_config (dir : string) (data : json) (path : string) : config_file :=
  if String.eqb path (dir +:+ "/auerswald.cfg.yaml") then Loaded data else Unreadable.

(** A configuration that asks for certificate verification. *)
Definition strict : json :=
  JObj [("auer_address", JStr "pbx.example"); ("auer_admin_user", JStr "admin");
        ("auer_admin_pass", JStr "secret"); ("ssh_tunnel", JBool false);
        ("ssl_verify", JBool true)].

End Init.


(** ** Reasoning about runs *)

Section Runs.
Context `{Appliance}.

Lemma bind_run {A B} (m : M A) (f : A → M B) st :
  (m ≫= f) st =
  match m st with
  | (Ok a, st') => f a st'
  | (Raise e, st') => (Raise e, st')
  end.
Proof. reflexivity. Qed.

Lemma bind_lift_ok {A B} (a : A) (f : A → M B) st :
  (lift (Ok a) ≫= f) st = f a st.
Proof. reflexivity. Qed.

Lemma bind_lift_raise {A B} e (f : A → M B) st :
  (lift (Raise e) ≫= f) st = (Raise e, st).
Proof. reflexivity. Qed.

Lemma _fetch_run path st url :
  endpoint (self st) path = Ok url →
  _fetch path st = session_get_m url st.
Proof.
  unfold endpoint, _fetch. rewrite bind_run. simpl.
  destruct (ssh_tunnel (self st)).
  - rewrite !bind_run. unfold local_bind_port.
    destruct (tunnel (self st)); [|discriminate].
    intros [= <-]. reflexivity.
  - intros [= <-]. reflexivity.
Qed.

Lemma _fetch_no_endpoint path st e :
  endpoint (self st) path = Raise e →
  _fetch path st = (Raise e, st).
Proof.
  unfold endpoint, _fetch. rewrite bind_run. simpl.
  destruct (ssh_tunnel (self st)); [|discriminate].
  rewrite !bind_run. unfold local_bind_port.
  destruct (tunnel (self st)); [discriminate|].
  intros [= <-]. reflexivity.
Qed.

Lemma _send_run path params data st url :
  endpoint (self st) path = Ok url →
  _send path params data st = session_post_m url params data st.
Proof.
  unfold endpoint, _send. rewrite bind_run. simpl.
  destruct (ssh_tunnel (self st)).
  - rewrite !bind_run. unfold local_bind_port.
    destruct (tunnel (self st)); [|discriminate].
    intros [= <-]. reflexivity.
  - intros [= <-]. reflexivity.
Qed.

Lemma _send_no_endpoint path params data st e :
  endpoint (self st) path = Raise e →
  _send path params data st = (Raise e, st).
Proof.
  unfold endpoint, _send. rewrite bind_run. simpl.
  destruct (ssh_tunnel (self st)); [|discriminate].
  rewrite !bind_run. unfold local_bind_port.
  destruct (tunnel (self st)); [discriminate|].
  intros [= <-]. reflexivity.
Qed.

Lemma posts_app tr1 tr2 : posts (tr1 ++ tr2) = posts tr1 ++ posts tr2.
Proof. apply List.filter_app. Qed.

Lemma writes_le_mono {A} (m : M A) n n' :
  (n ≤ n')%nat → writes_le n m → writes_le n' m.
Proof. intros Hle Hm st. destruct (Hm st) as (evs & ? & ?). exists evs. split; [done|lia]. Qed.

Lemma writes_le_ret {A} (a : A) : writes_le 0 (mret a : M A).
Proof. intros st. exists []. by rewrite app_nil_r. Qed.

Lemma writes_le_raise {A} e : writes_le 0 (raise e : M A).
Proof. intros st. exists []. by rewrite app_nil_r. Qed.

Lemma writes_le_lift {A} (r : result A) : writes_le 0 (lift r).
Proof. intros st. exists []. by rewrite app_nil_r. Qed.

Lemma writes_le_emit e : is_post e = false → writes_le 0 (emit e).
Proof. intros He st. exists [e]. simpl. unfold posts. simpl. by rewrite He. Qed.

Lemma writes_le_bind {A B} (m : M A) (f : A → M B) n1 n2 :
  writes_le n1 m → (∀ a, writes_le n2 (f a)) → writes_le (n1 + n2) (m ≫= f).
Proof.
  intros Hm Hf st. rewrite bind_run.
  destruct (Hm st) as (evs1 & Htr1 & Hn1).
  destruct (m st) as [[a|e] st1]; simpl in *.
  - destruct (Hf a st1) as (evs2 & Htr2 & Hn2).
    exists (evs1 ++ evs2). rewrite Htr2, Htr1, posts_app, length_app, app_assoc.
    split; [done|lia].
  - exists evs1. split; [done|lia].
Qed.

Lemma writes_le_fetch path : writes_le 0 (_fetch path).
Proof.
  intros st. destruct (endpoint (self st) path) as [url|e] eqn:Hurl.
  - rewrite (_fetch_run _ _ _ Hurl). unfold session_get_m.
    destruct (session_get url (world st)) as [r w]. by exists [EGet url].
  - rewrite (_fetch_no_endpoint _ _ _ Hurl). exists []. by rewrite app_nil_r.
Qed.

Lemma writes_le_send path params data : writes_le 1 (_send path params data).
Proof.
  intros st. destruct (endpoint (self st) path) as [url|e] eqn:Hurl.
  - rewrite (_send_run _ _ _ _ _ Hurl). unfold session_post_m.
    destruct (session_post url params data (world st)) as [r w].
    by exists [EPost url params data].
  - rewrite (_send_no_endpoint _ _ _ _ _ Hurl). exists []. rewrite app_nil_r.
    split; [done|simpl; lia].
Qed.

Lemma writes_le_json_of r : writes_le 0 (json_of r).
Proof. unfold json_of. destruct (body r); [apply writes_le_ret|apply writes_le_raise]. Qed.

Lemma writes_le_fetch_json path : writes_le 0 (r ← _fetch path; json_of r).
Proof.
  apply (writes_le_bind _ _ 0 0); [apply writes_le_fetch|apply writes_le_json_of].
Qed.

End Runs.

Section Writes.
Context `{Appliance}.

Lemma writes_le_bind_l {A B} (m : M A) (f : A → M B) n :
  writes_le 0 m → (∀ a, writes_le n (f a)) → writes_le n (m ≫= f).
Proof. intros Hm Hf. apply (writes_le_bind m f 0 n); done. Qed.

Lemma writes_le_bind_r {A B} (m : M A) (f : A → M B) n :
  writes_le n m → (∀ a, writes_le 0 (f a)) → writes_le n (m ≫= f).
Proof.
  intros Hm Hf. apply (writes_le_mono _ (n + 0)); [lia|].
  apply writes_le_bind; done.
Qed.

Lemma writes_le_ret1 {A} (a : A) : writes_le 1 (mret a : M A).
Proof. apply (writes_le_mono _ 0); [lia|apply writes_le_ret]. Qed.

Lemma writes_le_send_then {A} path params data (k : M A) :
  writes_le 0 k → writes_le 1 (_ ← _send path params data; k).
Proof. intros Hk. apply writes_le_bind_r; [apply writes_le_send|done]. Qed.

Lemma writes_le_enable : writes_le 1 enable_autoswitch.
Proof.
  unfold enable_autoswitch, _fetch_autoswitch_state.
  apply writes_le_bind_l; [apply writes_le_fetch_json|]. intros current.
  apply writes_le_bind_l; [apply writes_le_lift|]. intros cb.
  destruct (Py.eq_str cb "1"); [apply writes_le_ret1|].
  apply writes_le_bind_l; [apply writes_le_lift|]. intros name.
  apply writes_le_send_then, writes_le_ret.
Qed.

Lemma writes_le_disable : writes_le 1 disable_autoswitch.
Proof.
  unfold disable_autoswitch, _fetch_autoswitch_state.
  apply writes_le_bind_l; [apply writes_le_fetch_json|]. intros current.
  apply writes_le_bind_l; [apply writes_le_lift|]. intros cb.
  destruct (Py.eq_str cb "0"); [apply writes_le_ret1|].
  apply writes_le_bind_l; [apply writes_le_lift|]. intros name.
  apply writes_le_send_then, writes_le_ret.
Qed.

Lemma writes_le_switch_loop cfg_number configs :
  writes_le 1 (switch_config_loop cfg_number configs).
Proof.
  induction configs as [|config rest IH]; simpl.
  - apply writes_le_bind_l; [apply writes_le_lift|]. intros shown.
    apply writes_le_bind_l; [by apply writes_le_emit|]. intros _.
    apply (writes_le_mono _ 0); [lia|apply writes_le_raise].
  - apply writes_le_bind_l; [apply writes_le_lift|]. intros d.
    apply writes_le_bind_l; [apply writes_le_lift|]. intros ident.
    apply writes_le_bind_l; [apply writes_le_lift|]. intros wanted.
    destruct (Py.eq_str ident wanted); [|exact IH].
    apply writes_le_bind_l; [apply writes_le_lift|]. intros userdata.
    apply writes_le_bind_l; [apply writes_le_lift|]. intros active.
    destruct (Py.truthy active); [apply writes_le_ret1|].
    apply writes_le_bind_l; [apply writes_le_lift|]. intros i.
    apply writes_le_bind_l; [apply writes_le_lift|]. intros configId.
    apply writes_le_send_then.
    apply writes_le_bind_l; [by apply writes_le_emit|]. intros _.
    apply writes_le_ret.
Qed.

Lemma writes_le_switch cfg_number : writes_le 1 (switch_config cfg_number).
Proof.
  unfold switch_config, _fetch_cfg_state.
  apply writes_le_bind_l; [apply writes_le_fetch_json|]. intros doc.
  apply writes_le_bind_l; [apply writes_le_lift|]. intros rows.
  apply writes_le_bind_l; [apply writes_le_lift|]. intros configs.
  apply writes_le_switch_loop.
Qed.

End Writes.

Section Traces.
Context `{Appliance}.

Lemma events_of_app {A} (m : M A) st evs :
  trace (m st).2 = trace st ++ evs → events_of m st = evs.
Proof. unfold events_of. intros ->. apply drop_app_length. Qed.

Lemma endpoint_other s path url path' :
  endpoint s path = Ok url → ∃ url', endpoint s path' = Ok url'.
Proof.
  unfold endpoint. destruct (ssh_tunnel s); [|by eauto].
  destruct (tunnel s); [by eauto|discriminate].
Qed.

Lemma eq_str_true v s : Py.eq_str v s = true ↔ v = JStr s.
Proof.
  destruct v; simpl; try (split; [discriminate|congruence]).
  rewrite String.eqb_eq. split; congruence.
Qed.

Lemma eq_str_false v s : v ≠ JStr s → Py.eq_str v s = false.
Proof.
  intros Hne. destruct (Py.eq_str v s) eqn:E; [|done].
  by apply eq_str_true in E.
Qed.

(** A fetch the appliance answers with the JSON document [doc]. *)
Lemma fetch_json_run path st url doc w1 :
  endpoint (self st) path = Ok url →
  session_get url (world st) = (Some {| body := Some doc |}, w1) →
  (r ← _fetch path; json_of r) st =
  (Ok doc, {| self := self st; world := w1; trace := trace st ++ [EGet url] |}).
Proof.
  intros Hurl Hget. rewrite bind_run, (_fetch_run _ _ _ Hurl).
  unfold session_get_m. rewrite Hget. reflexivity.
Qed.

(** A send, whatever the appliance answers. *)
Lemma send_run {A} path params data (k : M A) st url :
  endpoint (self st) path = Ok url →
  ∃ w2,
    (_ ← _send path params data; k) st =
    (let st2 := {| self := self st; world := w2;
                   trace := trace st ++ [EPost url params data] |} in
     match (session_post url params data (world st)).1 with
     | Some _ => k st2
     | None => (Raise RequestException, st2)
     end).
Proof.
  intros Hurl. rewrite bind_run, (_send_run _ _ _ _ _ Hurl).
  unfold session_post_m.
  destruct (session_post url params data (world st)) as [[resp|] w2];
    exists w2; reflexivity.
Qed.

Lemma enable_noop st url doc w1 :
  endpoint (self st) "/config_autoswitch_state" = Ok url →
  session_get url (world st) = (Some {| body := Some doc |}, w1) →
  Py.getitem_str doc "switchCfgCb" = Ok (JStr "1") →
  enable_autoswitch st =
  (Ok (JBool true), {| self := self st; world := w1; trace := trace st ++ [EGet url] |}).
Proof.
  intros Hurl Hget Hcb. unfold enable_autoswitch, _fetch_autoswitch_state.
  rewrite bind_run, (fetch_json_run _ _ _ _ _ Hurl Hget), Hcb.
  reflexivity.
Qed.

Lemma enable_write st url doc w1 cb name :
  endpoint (self st) "/config_autoswitch_state" = Ok url →
  session_get url (world st) = (Some {| body := Some doc |}, w1) →
  Py.getitem_str doc "switchCfgCb" = Ok cb →
  cb ≠ JStr "1" →
  Py.getitem_str doc "switchSysRelaisName" = Ok name →
  ∃ url_save w2,
    endpoint (self st) "/config_autoswitch_save" = Ok url_save
    ∧ enable_autoswitch st =
      (match (session_post url_save None (Some (enable_form name)) w1).1 with
       | Some _ => Ok JNull
       | None => Raise RequestException
       end,
       {| self := self st; world := w2;
          trace := trace st ++ [EGet url; EPost url_save None (Some (enable_form name))] |}).
Proof.
  intros Hurl Hget Hcb Hne Hname.
  destruct (endpoint_other _ _ _ "/config_autoswitch_save" Hurl) as [url_save Hsave].
  unfold enable_autoswitch, _fetch_autoswitch_state.
  rewrite bind_run, (fetch_json_run _ _ _ _ _ Hurl Hget), Hcb, bind_lift_ok.
  rewrite (eq_str_false _ _ Hne), Hname, bind_lift_ok.
  destruct (send_run "/config_autoswitch_save" None (Some (enable_form name))
              (mret JNull : M json)
              {| self := self st; world := w1; trace := trace st ++ [EGet url] |}
              url_save Hsave) as [w2 Hrun].
  exists url_save, w2. split; [done|].
  etrans; [exact Hrun|]. simpl. rewrite <- app_assoc. simpl.
  destruct (session_post _ _ _ _).1; reflexivity.
Qed.

Lemma disable_noop st url doc w1 :
  endpoint (self st) "/config_autoswitch_state" = Ok url →
  session_get url (world st) = (Some {| body := Some doc |}, w1) →
  Py.getitem_str doc "switchCfgCb" = Ok (JStr "0") →
  disable_autoswitch st =
  (Ok (JBool true), {| self := self st; world := w1; trace := trace st ++ [EGet url] |}).
Proof.
  intros Hurl Hget Hcb. unfold disable_autoswitch, _fetch_autoswitch_state.
  rewrite bind_run, (fetch_json_run _ _ _ _ _ Hurl Hget), Hcb.
  reflexivity.
Qed.

Lemma disable_write st url doc w1 cb name :
  endpoint (self st) "/config_autoswitch_state" = Ok url →
  session_get url (world st) = (Some {| body := Some doc |}, w1) →
  Py.getitem_str doc "switchCfgCb" = Ok cb →
  cb ≠ JStr "0" →
  Py.getitem_str doc "switchSysRelaisName" = Ok name →
  ∃ url_save w2,
    endpoint (self st) "/config_autoswitch_save" = Ok url_save
    ∧ disable_autoswitch st =
      (match (session_post url_save None (Some (disable_form name)) w1).1 with
       | Some _ => Ok JNull
       | None => Raise RequestException
       end,
       {| self := self st; world := w2;
          trace := trace st ++ [EGet url; EPost url_save None (Some (disable_form name))] |}).
Proof.
  intros Hurl Hget Hcb Hne Hname.
  destruct (endpoint_other _ _ _ "/config_autoswitch_save" Hurl) as [url_save Hsave].
  unfold disable_autoswitch, _fetch_autoswitch_state.
  rewrite bind_run, (fetch_json_run _ _ _ _ _ Hurl Hget), Hcb, bind_lift_ok.
  rewrite (eq_str_false _ _ Hne), Hname, bind_lift_ok.
  destruct (send_run "/config_autoswitch_save" None (Some (disable_form name))
              (mret JNull : M json)
              {| self := self st; world := w1; trace := trace st ++ [EGet url] |}
              url_save Hsave) as [w2 Hrun].
  exists url_save, w2. split; [done|].
  etrans; [exact Hrun|]. simpl. rewrite <- app_assoc. simpl.
  destruct (session_post _ _ _ _).1; reflexivity.
Qed.

End Traces.

Section Autoswitch.
Context `{Appliance}.

Lemma events_of_nil {A} (m : M A) st :
  trace (m st).2 = trace st → events_of m st = [].
Proof. intros Htr. apply events_of_app. by rewrite app_nil_r. Qed.

Lemma disable_events st :
  match endpoint (self st) "/config_autoswitch_state" with
  | Raise _ => events_of disable_autoswitch st = []
  | Ok url =>
      match (session_get url (world st)).1 with
      | Some {| body := Some doc |} =>
          match Py.getitem_str doc "switchCfgCb",
                Py.getitem_str doc "switchSysRelaisName" with
          | Ok cb, Ok name =>
              if Py.eq_str cb "0" then events_of disable_autoswitch st = [EGet url]
              else ∃ url_save,
                  endpoint (self st) "/config_autoswitch_save" = Ok url_save
                  ∧ events_of disable_autoswitch st =
                    [EGet url; EPost url_save None (Some (disable_form name))]
          | _, _ => events_of disable_autoswitch st = [EGet url]
          end
      | _ => events_of disable_autoswitch st = [EGet url]
      end
  end.
Proof.
  destruct (endpoint (self st) "/config_autoswitch_state") as [url|e] eqn:Hurl.
  2: { apply events_of_nil. unfold disable_autoswitch, _fetch_autoswitch_state.
       by rewrite !bind_run, (_fetch_no_endpoint _ _ _ Hurl). }
  destruct (session_get url (world st)) as [r w1] eqn:Hget. simpl.
  destruct r as [[[doc|]]|].
  - destruct (Py.getitem_str doc "switchCfgCb") as [cb|e] eqn:Hcb.
    + destruct (Py.eq_str cb "0") eqn:Hz.
      * apply eq_str_true in Hz. subst cb.
        destruct (Py.getitem_str doc "switchSysRelaisName");
          apply events_of_app; by rewrite (disable_noop _ _ _ _ Hurl Hget Hcb).
      * assert (cb ≠ JStr "0") as Hne.
        { intros Heq. apply eq_str_true in Heq. congruence. }
        destruct (Py.getitem_str doc "switchSysRelaisName") as [name|e] eqn:Hname.
        -- destruct (disable_write _ _ _ _ _ _ Hurl Hget Hcb Hne Hname)
             as (url_save & w2 & Hsave & Hrun).
           exists url_save. split; [done|]. apply events_of_app. by rewrite Hrun.
        -- apply events_of_app. unfold disable_autoswitch, _fetch_autoswitch_state.
           rewrite bind_run, (fetch_json_run _ _ _ _ _ Hurl Hget), Hcb, bind_lift_ok.
           by rewrite Hz, Hname.
    + apply events_of_app. unfold disable_autoswitch, _fetch_autoswitch_state.
      by rewrite bind_run, (fetch_json_run _ _ _ _ _ Hurl Hget), Hcb.
  - apply events_of_app. unfold disable_autoswitch, _fetch_autoswitch_state.
    rewrite !bind_run, (_fetch_run _ _ _ Hurl). unfold session_get_m.
    by rewrite Hget.
  - apply events_of_app. unfold disable_autoswitch, _fetch_autoswitch_state.
    rewrite !bind_run, (_fetch_run _ _ _ Hurl). unfold session_get_m.
    by rewrite Hget.
Qed.

(** C3. Whenever [disable_autoswitch] performs a POST, the run is
    the fetch of [/config_autoswitch_state] followed by that POST to
    [/config_autoswitch_save]; the posted form carries
    [switchSysRelais] and, as [switchSysRelaisName], the value of the
    document just fetched, and it has no [switchCfgCb] field. *)
Theorem disable_posts_fetched_relay_name st url params data :
  In (EPost url params data) (events_of disable_autoswitch st) →
  ∃ url_state doc w1 name,
    endpoint (self st) "/config_autoswitch_state" = Ok url_state
    ∧ session_get url_state (world st) = (Some {| body := Some doc |}, w1)
    ∧ Py.getitem_str doc "switchSysRelaisName" = Ok name
    ∧ events_of disable_autoswitch st = [EGet url_state; EPost url params data]
    ∧ endpoint (self st) "/config_autoswitch_save" = Ok url
    ∧ params = None
    ∧ data = Some [("switchSysRelais", JStr "switchSysRelais");
                   ("switchSysRelaisName", name)]
    ∧ (data ≫= Py.lookup_field "switchCfgCb") = None.
Proof.
  intros Hin. pose proof (disable_events st) as Hev.
  destruct (endpoint (self st) "/config_autoswitch_state") as [url_state|e] eqn:Hurl.
  2: { rewrite Hev in Hin. destruct Hin. }
  destruct (session_get url_state (world st)) as [r w1] eqn:Hget. simpl in Hev.
  assert (∀ l, l = [EGet url_state] → ¬ In (EPost url params data) l) as Hno.
  { intros l -> [?|[]]. discriminate. }
  destruct r as [[[doc|]]|]; try (exfalso; by eapply Hno).
  destruct (Py.getitem_str doc "switchCfgCb") as [cb|]; [|exfalso; by eapply Hno].
  destruct (Py.getitem_str doc "switchSysRelaisName") as [name|] eqn:Hname;
    [|exfalso; by eapply Hno].
  destruct (Py.eq_str cb "0"); [exfalso; by eapply Hno|].
  destruct Hev as (url_save & Hsave & Hev). rewrite Hev in Hin.
  destruct Hin as [?|[Heq|[]]]; [discriminate|].
  injection Heq as <- <- <-.
  exists url_state, doc, w1, name. by rewrite Hev.
Qed.

End Autoswitch.

Section Guards.
Context `{Appliance}.

(** C10. When the fetched [switchCfgCb] is neither the str ["1"] nor
    the str ["0"], [enable_autoswitch] and [disable_autoswitch] both
    go on to POST to [/config_autoswitch_save], whatever the value
    means. *)
Theorem guards_compare_exact_strings st url doc w1 cb name :
  endpoint (self st) "/config_autoswitch_state" = Ok url →
  session_get url (world st) = (Some {| body := Some doc |}, w1) →
  Py.getitem_str doc "switchCfgCb" = Ok cb →
  Py.getitem_str doc "switchSysRelaisName" = Ok name →
  cb ≠ JStr "1" →
  cb ≠ JStr "0" →
  ∃ url_save,
    endpoint (self st) "/config_autoswitch_save" = Ok url_save
    ∧ events_of enable_autoswitch st =
      [EGet url; EPost url_save None (Some (enable_form name))]
    ∧ events_of disable_autoswitch st =
      [EGet url; EPost url_save None (Some (disable_form name))].
Proof.
  intros Hurl Hget Hcb Hname Hne1 Hne0.
  destruct (enable_write _ _ _ _ _ _ Hurl Hget Hcb Hne1 Hname)
    as (url_save & w2 & Hsave & Hen).
  destruct (disable_write _ _ _ _ _ _ Hurl Hget Hcb Hne0 Hname)
    as (url_save' & w2' & Hsave' & Hdis).
  assert (url_save' = url_save) as -> by congruence.
  exists url_save. split; [done|].
  split; apply events_of_app; [by rewrite Hen|by rewrite Hdis].
Qed.

(** C2, as amended. Let the first fetch of [enable_autoswitch] see
    the document [doc1], and let the appliance, asked again after
    the first call, report [switchCfgCb] as ["1"].  Then the two
    calls together POST once if [doc1] did not carry ["1"], the POST
    being the first call's, and not at all if it did; the second
    call is a no-op returning [True]. *)
Theorem enable_twice_writes_once_unless_enabled st url doc1 w1 cb1 name1 doc2 w2 :
  endpoint (self st) "/config_autoswitch_state" = Ok url →
  session_get url (world st) = (Some {| body := Some doc1 |}, w1) →
  Py.getitem_str doc1 "switchCfgCb" = Ok cb1 →
  Py.getitem_str doc1 "switchSysRelaisName" = Ok name1 →
  session_get url (world (enable_autoswitch st).2)
    = (Some {| body := Some doc2 |}, w2) →
  Py.getitem_str doc2 "switchCfgCb" = Ok (JStr "1") →
  ∃ url_save,
    endpoint (self st) "/config_autoswitch_save" = Ok url_save
    ∧ posts (events_of enable_autoswitch st) =
      (if Py.eq_str cb1 "1" then []
       else [EPost url_save None (Some (enable_form name1))])
    ∧ posts (events_of enable_twice st) = posts (events_of enable_autoswitch st)
    ∧ (∀ v1, (enable_autoswitch st).1 = Ok v1 →
         v1 = (if Py.eq_str cb1 "1" then JBool true else JNull)
         ∧ (enable_twice st).1 = Ok (v1, JBool true)
         ∧ events_of enable_autoswitch (enable_autoswitch st).2 = [EGet url]).
Proof.
  intros Hurl Hget Hcb Hname Hget2 Hcb2.
  destruct (endpoint_other _ _ _ "/config_autoswitch_save" Hurl) as [url_save Hsave].
  exists url_save. split; [done|].
  destruct (Py.eq_str cb1 "1") eqn:Hone.
  - apply eq_str_true in Hone. subst cb1.
    pose proof (enable_noop _ _ _ _ Hurl Hget Hcb) as Hrun1.
    rewrite Hrun1 in Hget2. simpl in Hget2.
    pose proof (enable_noop {| self := self st; world := w1;
                               trace := trace st ++ [EGet url] |}
                  _ _ _ Hurl Hget2 Hcb2) as Hrun2.
    assert (enable_twice st =
            (Ok (JBool true, JBool true),
             {| self := self st; world := w2;
                trace := trace st ++ [EGet url; EGet url] |})) as Htwice.
    { unfold enable_twice. rewrite bind_run, Hrun1, bind_run, Hrun2. simpl.
      by rewrite <- app_assoc. }
    rewrite (events_of_app enable_autoswitch st [EGet url]) by (by rewrite Hrun1).
    rewrite (events_of_app enable_twice st [EGet url; EGet url])
      by (by rewrite Htwice).
    split; [done|]. split; [done|].
    intros v1. rewrite Hrun1, Htwice. simpl. intros [= <-].
    repeat split. apply events_of_app. by rewrite Hrun2.
  - assert (cb1 ≠ JStr "1") as Hne.
    { intros Heq. apply eq_str_true in Heq. congruence. }
    destruct (enable_write _ _ _ _ _ _ Hurl Hget Hcb Hne Hname)
      as (url_save' & w1' & Hsave' & Hrun1).
    assert (url_save' = url_save) as -> by congruence.
    rewrite Hrun1 in Hget2. simpl in Hget2.
    set (tr1 := trace st ++ [EGet url; EPost url_save None (Some (enable_form name1))])
      in *.
    pose proof (enable_noop {| self := self st; world := w1'; trace := tr1 |}
                  _ _ _ Hurl Hget2 Hcb2) as Hrun2.
    rewrite (events_of_app enable_autoswitch st
               [EGet url; EPost url_save None (Some (enable_form name1))])
      by (by rewrite Hrun1).
    split; [done|].
    destruct (session_post url_save None (Some (enable_form name1)) w1).1.
    + assert (enable_twice st =
              (Ok (JNull, JBool true),
               {| self := self st; world := w2; trace := tr1 ++ [EGet url] |}))
        as Htwice.
      { unfold enable_twice. by rewrite bind_run, Hrun1, bind_run, Hrun2. }
      rewrite (events_of_app enable_twice st
                 [EGet url; EPost url_save None (Some (enable_form name1)); EGet url]).
      2: { rewrite Htwice. unfold tr1. by rewrite <- app_assoc. }
      split; [done|]. intros v1. rewrite Hrun1, Htwice. simpl. intros [= <-].
      repeat split. apply events_of_app. by rewrite Hrun2.
    + assert (enable_twice st =
              (Raise RequestException,
               {| self := self st; world := w1'; trace := tr1 |})) as Htwice.
      { unfold enable_twice. by rewrite bind_run, Hrun1. }
      rewrite (events_of_app enable_twice st
                 [EGet url; EPost url_save None (Some (enable_form name1))])
        by (by rewrite Htwice).
      split; [done|]. intros v1. rewrite Hrun1. discriminate.
Qed.

End Guards.

Section Select.
Context `{Appliance}.

Lemma entry_ok_inv c :
  entry_ok c = true →
  ∃ fields name ident more i,
    c = JObj fields
    ∧ Py.lookup_field "data" fields = Some (JArr (name :: JStr ident :: more))
    ∧ Py.lookup_field "id" fields = Some (JInt i)
    ∧ (Py.lookup_field "userdata" fields = None
       ∨ ∃ u, Py.lookup_field "userdata" fields = Some (JObj u)).
Proof.
  destruct c as [| | | | |fields]; try discriminate. simpl.
  destruct (Py.lookup_field "data" fields)
    as [[| | | |[|name [|[| | |ident| |] more]]|]|] eqn:Hd; try discriminate.
  destruct (Py.lookup_field "id" fields) as [[| |i| | |]|] eqn:Hi; try discriminate.
  intros Hu. exists fields, name, ident, more, i. do 3 (split; [done|]).
  destruct (Py.lookup_field "userdata" fields) as [[| | | | |u]|];
    try discriminate; eauto.
Qed.

Lemma entry_ok_ident c : entry_ok c = true → is_Some (entry_ident c).
Proof.
  intros (fields & name & ident & more & i & -> & Hd & _)%entry_ok_inv.
  unfold entry_ident. simpl. rewrite Hd. simpl. eauto.
Qed.

(** An entry with another identification number is passed over. *)
Lemma loop_miss n c rest st :
  is_Some (entry_ident c) → ident_is n c = false →
  switch_config_loop (JInt n) (c :: rest) st = switch_config_loop (JInt n) rest st.
Proof.
  unfold ident_is, entry_ident. intros [v Hv] Hmiss. simpl.
  destruct (Py.getitem_str c "data") as [d|]; [|simpl in Hv; discriminate].
  rewrite bind_lift_ok. simpl in *.
  destruct (Py.getitem_int d 1) as [ident|]; [|discriminate].
  repeat (rewrite bind_lift_ok; simpl). by rewrite Hmiss.
Qed.

Lemma loop_skip n pre rest st :
  Forall (λ c, is_Some (entry_ident c) ∧ ident_is n c = false) pre →
  switch_config_loop (JInt n) (pre ++ rest) st = switch_config_loop (JInt n) rest st.
Proof.
  induction 1 as [|c pre [Hsome Hmiss] _ IH]; [done|].
  rewrite <- app_comm_cons, loop_miss; done.
Qed.

(** The first entry with the wanted number decides the outcome. *)
Lemma loop_hit n c rest st :
  entry_ok c = true → ident_is n c = true →
  ∃ i, entry_id c = Some (JInt i)
    ∧ switch_config_loop (JInt n) (c :: rest) st =
      if entry_active c then (Ok (JBool true), st)
      else (_ ← _send "/configs_set" (Some [("configId", JStr (pretty i))]) None;
            _ ← emit (ESleep 1);
            mret (JBool true)) st.
Proof.
  intros (fields & name & ident & more & i & -> & Hd & Hi & Hu)%entry_ok_inv.
  unfold ident_is, entry_ident, entry_id, entry_active. simpl.
  rewrite Hd, Hi. simpl. intros Hhit. exists i. split; [done|].
  repeat (rewrite bind_lift_ok; simpl). rewrite Hhit.
  destruct Hu as [Hu|[u Hu]]; rewrite Hu; simpl.
  - by repeat (rewrite bind_lift_ok; simpl).
  - repeat (rewrite bind_lift_ok; simpl).
    destruct (Py.lookup_field "active" u) as [a|]; repeat (rewrite bind_lift_ok; simpl);
      [destruct (Py.truthy a)|]; by repeat (rewrite bind_lift_ok; simpl).
Qed.

Lemma loop_none n st :
  switch_config_loop (JInt n) [] st =
  (Raise (SystemExit 1),
   {| self := self st; world := world st;
      trace := trace st ++ [EPrint ("Identifikationsnummer " +:+ pretty n +:+ " not found")] |}).
Proof. reflexivity. Qed.

Lemma find_split (f : json → bool) rows c :
  List.find f rows = Some c →
  ∃ pre post, rows = pre ++ c :: post ∧ f c = true ∧ Forall (λ c', f c' = false) pre.
Proof.
  induction rows as [|x rows IH]; [discriminate|]. simpl.
  destruct (f x) eqn:Hx.
  - intros [= ->]. exists [], rows. by repeat split.
  - intros (pre & post & -> & Hc & Hpre)%IH.
    exists (x :: pre), post. repeat split; [done|]. by constructor.
Qed.

Lemma find_none (f : json → bool) rows :
  List.find f rows = None → Forall (λ c', f c' = false) rows.
Proof.
  induction rows as [|x rows IH]; [by constructor|]. simpl.
  destruct (f x) eqn:Hx; [discriminate|]. intros ?%IH. by constructor.
Qed.

(** The run of [switch_config] once the list is fetched. *)
Lemma switch_config_fetched st n url doc rows w1 :
  endpoint (self st) "/configs_state" = Ok url →
  session_get url (world st) = (Some {| body := Some doc |}, w1) →
  Py.getitem_str doc "rows" = Ok (JArr rows) →
  switch_config (JInt n) st =
  switch_config_loop (JInt n) rows
    {| self := self st; world := w1; trace := trace st ++ [EGet url] |}.
Proof.
  intros Hurl Hget Hrows. unfold switch_config, _fetch_cfg_state.
  by rewrite bind_run, (fetch_json_run _ _ _ _ _ Hurl Hget), Hrows.
Qed.

(** What a hit does, seen from the trace. *)
Lemma hit_events st n url doc pre c post w1 :
  endpoint (self st) "/configs_state" = Ok url →
  session_get url (world st) = (Some {| body := Some doc |}, w1) →
  Py.getitem_str doc "rows" = Ok (JArr (pre ++ c :: post)) →
  Forall (λ c', is_Some (entry_ident c') ∧ ident_is n c' = false) pre →
  entry_ok c = true →
  ident_is n c = true →
  ∃ url_set i,
    endpoint (self st) "/configs_set" = Ok url_set
    ∧ entry_id c = Some (JInt i)
    ∧ switch_config (JInt n) st =
      switch_config_loop (JInt n) [c]
        {| self := self st; world := w1; trace := trace st ++ [EGet url] |}
    ∧ posts (events_of (switch_config (JInt n)) st) =
      (if entry_active c then []
       else [EPost url_set (Some [("configId", JStr (pretty i))]) None])
    ∧ (entry_active c = true →
       events_of (switch_config (JInt n)) st = [EGet url]
       ∧ (switch_config (JInt n) st).1 = Ok (JBool true))
    ∧ ((switch_config (JInt n) st).1 = Ok (JBool true)
       ∨ (switch_config (JInt n) st).1 = Raise RequestException).
Proof.
  intros Hurl Hget Hrows Hpre Hok Hhit.
  destruct (endpoint_other _ _ _ "/configs_set" Hurl) as [url_set Hset].
  set (st1 := {| self := self st; world := w1; trace := trace st ++ [EGet url] |}).
  pose proof (switch_config_fetched _ n _ _ _ _ Hurl Hget Hrows) as Hrun.
  fold st1 in Hrun. rewrite loop_skip in Hrun by done.
  destruct (loop_hit n c post st1 Hok Hhit) as (i & Hid & Hpost).
  destruct (loop_hit n c [] st1 Hok Hhit) as (i' & Hid' & Hone).
  assert (i' = i) as -> by congruence.
  exists url_set, i. split; [done|]. split; [done|].
  split; [by rewrite Hrun, Hpost, Hone|].
  clear Hone Hid'.
  destruct (entry_active c) eqn:Hact.
  - assert (switch_config (JInt n) st = (Ok (JBool true), st1)) as Hfull
      by (by rewrite Hrun, Hpost).
    rewrite (events_of_app _ st [EGet url]) by (by rewrite Hfull).
    rewrite Hfull. repeat split; eauto.
  - destruct (send_run "/configs_set" (Some [("configId", JStr (pretty i))]) None
                (_ ← emit (ESleep 1); mret (JBool true) : M json) st1 url_set Hset)
      as [w2 Hsend].
    rewrite <- Hpost, <- Hrun in Hsend. simpl in Hsend.
    destruct (session_post url_set (Some [("configId", JStr (pretty i))]) None w1).1.
    + rewrite (events_of_app _ st
                 [EGet url; EPost url_set (Some [("configId", JStr (pretty i))]) None;
                  ESleep 1]).
      2: { rewrite Hsend. simpl. by rewrite <- !app_assoc. }
      rewrite Hsend. repeat split; eauto; discriminate.
    + rewrite (events_of_app _ st
                 [EGet url; EPost url_set (Some [("configId", JStr (pretty i))]) None]).
      2: { rewrite Hsend. simpl. by rewrite <- !app_assoc. }
      rewrite Hsend. repeat split; eauto; discriminate.
Qed.

(** C1, as amended. On a list of well-formed entries the FIRST
    entry whose identification number equals [str(n)] decides what
    [switch_config n] does: if it is active nothing is written and
    the call returns [True]; if it is not, exactly one POST goes to
    [/configs_set] with [configId] the [str] of that entry's id.
    When no entry has the number, nothing is written, the message
    names the number, and the process exits with status 1. *)
Theorem switch_config_acts_on_first_match st n url doc rows w1 :
  endpoint (self st) "/configs_state" = Ok url →
  session_get url (world st) = (Some {| body := Some doc |}, w1) →
  Py.getitem_str doc "rows" = Ok (JArr rows) →
  Forall (λ c, entry_ok c = true) rows →
  match List.find (ident_is n) rows with
  | Some c =>
      ∃ url_set i,
        endpoint (self st) "/configs_set" = Ok url_set
        ∧ entry_id c = Some (JInt i)
        ∧ posts (events_of (switch_config (JInt n)) st) =
          (if entry_active c then []
           else [EPost url_set (Some [("configId", JStr (pretty i))]) None])
        ∧ (entry_active c = true →
           events_of (switch_config (JInt n)) st = [EGet url]
           ∧ (switch_config (JInt n) st).1 = Ok (JBool true))
        ∧ ((switch_config (JInt n) st).1 = Ok (JBool true)
           ∨ (switch_config (JInt n) st).1 = Raise RequestException)
  | None =>
      events_of (switch_config (JInt n)) st =
        [EGet url; EPrint ("Identifikationsnummer " +:+ pretty n +:+ " not found")]
      ∧ (switch_config (JInt n) st).1 = Raise (SystemExit 1)
      ∧ exit_status (switch_config (JInt n) st).1 = 1
  end.
Proof.
  intros Hurl Hget Hrows Hok.
  destruct (List.find (ident_is n) rows) as [c|] eqn:Hfind.
  - destruct (find_split _ _ _ Hfind) as (pre & post & -> & Hhit & Hpre).
    apply Forall_app in Hok as [Hokpre Hokc]. inversion_clear Hokc as [|? ? Hc _].
    assert (Forall (λ c', is_Some (entry_ident c') ∧ ident_is n c' = false) pre) as Hmiss.
    { rewrite Forall_forall in *. intros c' Hin. split; [|by apply Hpre].
      by apply entry_ok_ident, Hokpre. }
    destruct (hit_events _ _ _ _ _ _ _ _ Hurl Hget Hrows Hmiss Hc Hhit)
      as (url_set & i & ? & ? & _ & ? & ? & ?).
    by exists url_set, i.
  - apply find_none in Hfind.
    assert (Forall (λ c', is_Some (entry_ident c') ∧ ident_is n c' = false) rows) as Hmiss.
    { rewrite Forall_forall in *. intros c' Hin. split; [|by apply Hfind].
      by apply entry_ok_ident, Hok. }
    pose proof (switch_config_fetched _ n _ _ _ _ Hurl Hget Hrows) as Hrun.
    rewrite <- (app_nil_r rows), loop_skip, loop_none in Hrun by done.
    rewrite (events_of_app _ st
               [EGet url; EPrint ("Identifikationsnummer " +:+ pretty n +:+ " not found")]).
    2: { rewrite Hrun. simpl. by rewrite <- app_assoc. }
    by rewrite Hrun.
Qed.

(** C9. If the fetched list is [pre ++ c :: post], no entry of [pre]
    has the wanted number and [c] has it, then [switch_config] runs
    as it would on the list [[c]] alone: [c]'s active flag alone
    decides whether a POST happens, the posted [configId] is [c]'s
    id, and [post], which may hold further entries with the same
    number or anything else, is never looked at. *)
Theorem switch_config_stops_at_first_match st n url doc pre c post w1 :
  endpoint (self st) "/configs_state" = Ok url →
  session_get url (world st) = (Some {| body := Some doc |}, w1) →
  Py.getitem_str doc "rows" = Ok (JArr (pre ++ c :: post)) →
  Forall (λ c', is_Some (entry_ident c') ∧ ident_is n c' = false) pre →
  entry_ok c = true →
  ident_is n c = true →
  ∃ url_set i,
    endpoint (self st) "/configs_set" = Ok url_set
    ∧ entry_id c = Some (JInt i)
    ∧ switch_config (JInt n) st =
      switch_config_loop (JInt n) [c]
        {| self := self st; world := w1; trace := trace st ++ [EGet url] |}
    ∧ posts (events_of (switch_config (JInt n)) st) =
      (if entry_active c then []
       else [EPost url_set (Some [("configId", JStr (pretty i))]) None]).
Proof.
  intros Hurl Hget Hrows Hpre Hok Hhit.
  destruct (hit_events _ _ _ _ _ _ _ _ Hurl Hget Hrows Hpre Hok Hhit)
    as (url_set & i & ? & ? & ? & ? & _).
  by exists url_set, i.
Qed.

End Select.

Section Transport.
Context `{Appliance}.

Lemma fetch_events path st url :
  endpoint (self st) path = Ok url → events_of (_fetch path) st = [EGet url].
Proof.
  intros Hurl. apply events_of_app. rewrite (_fetch_run _ _ _ Hurl).
  unfold session_get_m. by destruct (session_get url (world st)).
Qed.

Lemma send_events path params data st url :
  endpoint (self st) path = Ok url →
  events_of (_send path params data) st = [EPost url params data].
Proof.
  intros Hurl. apply events_of_app. rewrite (_send_run _ _ _ _ _ Hurl).
  unfold session_post_m. by destruct (session_post url params data (world st)).
Qed.

(** C6. With the tunnel flag off, [_fetch] and [_send] request
    [https://<auer_address><path>]; with the flag on and the tunnel
    started on local port [port], they request
    [https://127.0.0.1:<port><path>]. *)
Theorem urls_follow_tunnel_flag addr port tun cache w tr path params data :
  let direct :=
    {| self := {| auer_address := addr; ssh_tunnel := false;
                  tunnel := tun; attrs := cache |};
       world := w; trace := tr |} in
  let tunnelled :=
    {| self := {| auer_address := addr; ssh_tunnel := true;
                  tunnel := Some port; attrs := cache |};
       world := w; trace := tr |} in
  events_of (_fetch path) direct = [EGet ("https://" +:+ addr +:+ path)]
  ∧ events_of (_send path params data) direct =
    [EPost ("https://" +:+ addr +:+ path) params data]
  ∧ events_of (_fetch path) tunnelled =
    [EGet ("https://127.0.0.1:" +:+ pretty port +:+ path)]
  ∧ events_of (_send path params data) tunnelled =
    [EPost ("https://127.0.0.1:" +:+ pretty port +:+ path) params data].
Proof.
  intros direct tunnelled.
  split; [by apply fetch_events|].
  split; [by apply send_events|].
  split; [by apply fetch_events|by apply send_events].
Qed.

End Transport.

Section CommandLine.
Context `{Appliance}.

(** C5, as amended. [select] without a number ends the invocation
    in [parser.error]: the usage message is the only effect, no
    tunnel is started and nothing is requested, and the exit status
    is 2, the status argparse gives a usage error. *)
Theorem select_without_number_is_usage_error dbg st :
  let args := {| command := "select"; number := JNull; debug := dbg |} in
  let stopped :=
    (Raise (SystemExit 2) : result (),
     {| self := self st; world := world st;
        trace := trace st ++ [EUsageError "The 'select' command requires a number."] |}) in
  Mgr.main args st = stopped
  ∧ Switch.main args st = stopped
  ∧ exit_status stopped.1 = 2.
Proof. by repeat split. Qed.

End CommandLine.

(** ** [str.strip] *)

Section Strip.

Lemma append_cons c a b : String c a +:+ b = String c (a +:+ b).
Proof. reflexivity. Qed.

Lemma append_nil b : EmptyString +:+ b = b.
Proof. reflexivity. Qed.

Lemma lstrip_split s : ∃ lead, s = lead +:+ Py.lstrip s ∧ all_space lead.
Proof.
  induction s as [|c rest (lead & Heq & Hsp)]; simpl.
  - exists EmptyString. split; [done|constructor].
  - destruct (Py.is_space c) eqn:Hc.
    + exists (String c lead). rewrite append_cons. split; [by f_equal|by constructor].
    + exists EmptyString. split; [done|constructor].
Qed.

Lemma lstrip_head s c rest : Py.lstrip s = String c rest → Py.is_space c = false.
Proof.
  induction s as [|a s IH]; simpl; [discriminate|].
  destruct (Py.is_space a) eqn:Ha; [done|]. by intros [= <- _].
Qed.

Lemma rstrip_split s : ∃ trail, s = Py.rstrip s +:+ trail ∧ all_space trail.
Proof.
  induction s as [|c rest (trail & Heq & Hsp)]; simpl.
  - exists EmptyString. split; [done|constructor].
  - destruct (Py.rstrip rest) as [|k kept].
    + destruct (Py.is_space c) eqn:Hc.
      * exists (String c trail). rewrite append_nil in *.
        split; [by f_equal|by constructor].
      * exists trail. rewrite append_nil in Heq. rewrite append_cons, append_nil.
        split; [by f_equal|done].
    + exists trail. rewrite !append_cons in *. split; [by f_equal|done].
Qed.

Lemma rstrip_head s c rest : Py.rstrip s = String c rest → ∃ rest', s = String c rest'.
Proof.
  destruct s as [|a s]; simpl; [discriminate|].
  destruct (Py.rstrip s); [destruct (Py.is_space a)|]; intros [= <- _]; eauto.
Qed.

Lemma rstrip_last s c front :
  Py.rstrip s = front +:+ String c EmptyString → Py.is_space c = false.
Proof.
  revert front. induction s as [|a s IH]; intros front; simpl.
  - destruct front; discriminate.
  - destruct (Py.rstrip s) as [|k kept].
    + destruct (Py.is_space a) eqn:Ha; [destruct front; discriminate|].
      destruct front as [|x [|y front]]; simpl; try discriminate.
      by intros [= <-].
    + destruct front as [|x front]; simpl; [discriminate|].
      intros [= _ Hrest]. by apply (IH front).
Qed.

Lemma strip_spec raw : stripped_of raw (Py.strip raw).
Proof.
  unfold Py.strip.
  destruct (lstrip_split raw) as (lead & Hlead & Hsp1).
  destruct (rstrip_split (Py.lstrip raw)) as (trail & Htrail & Hsp2).
  split; [|split].
  - exists lead, trail. by rewrite <- Htrail.
  - intros c rest [rest' Hhead]%rstrip_head. by apply lstrip_head in Hhead.
  - intros c front. apply rstrip_last.
Qed.

(** The specification's phrase fixes the result: a string that
    starts or ends with whitespace is not the stripped one. *)
Lemma stripped_of_unique raw out : stripped_of raw out → out = Py.strip raw.
Proof.
  intros ((lead & trail & -> & Hlead & Htrail) & Hhead & Hlast).
  unfold Py.strip.
  assert (Py.lstrip (lead +:+ out +:+ trail) = Py.lstrip (out +:+ trail)) as ->.
  { clear -Hlead. induction lead as [|c lead IH]; [done|].
    inversion_clear Hlead as [|? ? Hc Hrest]. simpl. rewrite Hc. by apply IH. }
  destruct out as [|c out].
  - rewrite append_nil. clear -Htrail.
    assert (Py.lstrip trail = EmptyString) as ->; [|done].
    induction trail as [|c trail IH]; [done|].
    inversion_clear Htrail as [|? ? Hc Hrest]. simpl. rewrite Hc. by apply IH.
  - rewrite append_cons. simpl. rewrite (Hhead c out eq_refl).
    clear Hhead Hlead lead. revert c Hlast.
    induction out as [|k out IH]; intros c Hlast.
    + rewrite append_nil. simpl.
      assert (Py.rstrip trail = EmptyString) as ->.
      { clear -Htrail. induction trail as [|a trail IH]; [done|].
        inversion_clear Htrail as [|? ? Ha Hrest]. simpl.
        by rewrite (IH Hrest), Ha. }
      by rewrite (Hlast c EmptyString eq_refl).
    + rewrite append_cons.
      change (Py.rstrip (String c (String k (out +:+ trail))))
        with (match Py.rstrip (String k (out +:+ trail)) with
              | EmptyString =>
                  if Py.is_space c then EmptyString else String c EmptyString
              | kept => String c kept
              end).
      rewrite <- (IH k); [done|].
      intros a front Heq. apply (Hlast a (String c front)).
      by rewrite append_cons, Heq.
Qed.

End Strip.

Section Accessors.
Context `{Appliance}.

Lemma hasattr_cached name st v :
  attrs (self st) !! name = Some v → hasattr name st = (Ok true, st).
Proof.
  intros Hv. unfold hasattr. rewrite bool_decide_eq_true_2; [done|by eexists].
Qed.

Lemma hasattr_missing name st :
  attrs (self st) !! name = None → hasattr name st = (Ok false, st).
Proof.
  intros Hv. unfold hasattr. rewrite bool_decide_eq_false_2; [done|].
  rewrite Hv. by intros [? ?].
Qed.

Lemma firmware_cached st doc :
  attrs (self st) !! "pbx_about" = Some doc →
  Mgr._pbx_firmware st =
  (Py.getitem_str doc "version" ≫= Py.strip_method, st).
Proof.
  intros Hdoc. unfold Mgr._pbx_firmware.
  rewrite bind_run, (hasattr_cached _ _ _ Hdoc). simpl.
  rewrite bind_run. simpl. rewrite bind_run. unfold getattr. rewrite Hdoc.
  destruct (Py.getitem_str doc "version") as [version|e]; [|done].
  by repeat (rewrite bind_lift_ok; simpl).
Qed.

Lemma firmware_fetched st url doc w1 :
  attrs (self st) !! "pbx_about" = None →
  endpoint (self st) "/about_state" = Ok url →
  session_get url (world st) = (Some {| body := Some doc |}, w1) →
  (Mgr._pbx_firmware st).1 = (Py.getitem_str doc "version" ≫= Py.strip_method)
  ∧ attrs (self (Mgr._pbx_firmware st).2) !! "pbx_about" = Some doc
  ∧ trace (Mgr._pbx_firmware st).2 = trace st ++ [EGet url].
Proof.
  intros Hnone Hurl Hget. unfold Mgr._pbx_firmware, Mgr._fetch_pbx_about.
  rewrite bind_run, (hasattr_missing _ _ Hnone). simpl.
  rewrite bind_run, bind_run, (fetch_json_run _ _ _ _ _ Hurl Hget). simpl.
  rewrite bind_run. unfold getattr. simpl. rewrite lookup_insert_eq.
  destruct (Py.getitem_str doc "version") as [version|e];
    [|by rewrite bind_lift_raise; simpl; rewrite lookup_insert_eq].
  repeat (rewrite bind_lift_ok; simpl). unfold lift. simpl.
  by rewrite lookup_insert_eq.
Qed.

(** C7. The firmware accessor returns the [version] field of its
    backing document, cached or fetched on this call, without the
    whitespace around it: for a raw str [raw] the result is
    [raw.strip()], which is [raw] less a leading and a trailing run
    of whitespace and neither starts nor ends with whitespace. *)
Theorem firmware_is_stripped st doc raw :
  (attrs (self st) !! "pbx_about" = Some doc
   ∨ (attrs (self st) !! "pbx_about" = None
      ∧ ∃ url w1,
          endpoint (self st) "/about_state" = Ok url
          ∧ session_get url (world st) = (Some {| body := Some doc |}, w1))) →
  Py.getitem_str doc "version" = Ok (JStr raw) →
  ∃ out,
    (Mgr._pbx_firmware st).1 = Ok (JStr out)
    ∧ stripped_of raw out
    ∧ (∀ out', stripped_of raw out' → out' = out).
Proof.
  intros Hdoc Hraw. exists (Py.strip raw).
  split; [|split; [apply strip_spec|apply stripped_of_unique]].
  destruct Hdoc as [Hdoc|(Hnone & url & w1 & Hurl & Hget)].
  - by rewrite (firmware_cached _ _ Hdoc), Hraw.
  - destruct (firmware_fetched _ _ _ _ Hnone Hurl Hget) as (-> & _).
    by rewrite Hraw.
Qed.

(** In [auer_cfg_mgr.py] a call of [_pbx_product] that finds no
    [pbx_info] fetches [/tree] and leaves [pbx_info] unset, so the
    next call is in the same position. *)
Lemma mgr_product_guard_stays_unset st url :
  attrs (self st) !! "pbx_info" = None →
  endpoint (self st) "/tree" = Ok url →
  events_of Mgr._pbx_product st = [EGet url]
  ∧ attrs (self (Mgr._pbx_product st).2) !! "pbx_info" = None.
Proof.
  intros Hnone Hurl. unfold events_of, Mgr._pbx_product, Mgr._fetch_pbx_menu_tree.
  rewrite bind_run, (hasattr_missing _ _ Hnone). simpl.
  rewrite !bind_run, (_fetch_run _ _ _ Hurl). unfold session_get_m.
  destruct (session_get url (world st)) as [[[[doc|]]|] w1]; simpl.
  - rewrite bind_run. unfold getattr. simpl. rewrite lookup_insert_eq.
    assert ((<["pbx_tree" := doc]> (attrs (self st)) : gmap string json) !! "pbx_info"
            = None) as Hkept by (rewrite lookup_insert_ne; [done|discriminate]).
    destruct (Py.getitem_int doc 0) as [first|e].
    + rewrite bind_lift_ok. unfold lift. simpl. by rewrite drop_app_length.
    + rewrite bind_lift_raise. simpl. by rewrite drop_app_length.
  - by rewrite drop_app_length.
  - by rewrite drop_app_length.
Qed.

End Accessors.

(** ** Writes of a whole invocation *)

Section Invocation.
Context `{Appliance}.

Lemma writes_le_hasattr name : writes_le 0 (hasattr name).
Proof. intros st. exists []. by rewrite app_nil_r. Qed.

Lemma writes_le_getattr name : writes_le 0 (getattr name).
Proof.
  intros st. exists []. unfold getattr.
  destruct (attrs (self st) !! name); by rewrite app_nil_r.
Qed.

Lemma writes_le_setattr name v : writes_le 0 (setattr name v).
Proof. intros st. exists []. by rewrite app_nil_r. Qed.

Lemma writes_le_get_self : writes_le 0 get_self.
Proof. intros st. exists []. by rewrite app_nil_r. Qed.

Lemma writes_le_connect : writes_le 0 _connect_ssh_tunnel.
Proof.
  intros st. exists [ETunnelStart]. unfold _connect_ssh_tunnel.
  by destruct (tunnel_start (world st)) as [[port|] w].
Qed.

Lemma writes_le_disconnect : writes_le 0 _disconnect_ssh_tunnel.
Proof.
  intros st. unfold _disconnect_ssh_tunnel. destruct (tunnel (self st)).
  - by exists [ETunnelStop].
  - exists []. by rewrite app_nil_r.
Qed.

Ltac no_writes :=
  repeat first
    [ apply writes_le_ret | apply writes_le_raise | apply writes_le_lift
    | apply writes_le_emit; reflexivity
    | apply writes_le_fetch_json
    | apply writes_le_hasattr | apply writes_le_getattr | apply writes_le_setattr
    | apply writes_le_get_self
    | apply writes_le_connect | apply writes_le_disconnect
    | apply writes_le_bind_l; [|intros ?]
    | match goal with
      | |- writes_le _ (if ?b then _ else _) => destruct b
      end ].

Lemma writes_le_autoswitch_rows : writes_le 0 autoswitch_rows.
Proof. unfold autoswitch_rows, _fetch_autoswitch_state. no_writes. Qed.

Lemma writes_le_config_rows configs : writes_le 0 (config_rows configs).
Proof.
  induction configs as [|config rest IH]; simpl; [apply writes_le_ret|].
  do 6 (apply writes_le_bind_l; [apply writes_le_lift|intros ?]).
  apply writes_le_bind_l; [exact IH|intros ?]. apply writes_le_ret.
Qed.

Lemma writes_le_mgr_show : writes_le 0 Mgr.show_configurations.
Proof.
  unfold Mgr.show_configurations, Mgr._pbx_product, Mgr._pbx_firmware,
    Mgr._pbx_date, Mgr._pbx_serial, Mgr._pbx_user, Mgr._pbx_name,
    Mgr._fetch_pbx_menu_tree, Mgr._fetch_pbx_about, Mgr._fetch_pbx_logstatus,
    _fetch_cfg_state.
  no_writes; try apply writes_le_autoswitch_rows; try apply writes_le_config_rows.
Qed.

Lemma writes_le_switch_show : writes_le 0 Switch.show_configurations.
Proof.
  unfold Switch.show_configurations, Switch._pbx_product, Switch._pbx_name,
    Switch._fetch_pbx_info, _fetch_cfg_state.
  no_writes; try apply writes_le_autoswitch_rows; try apply writes_le_config_rows.
Qed.

Lemma writes_le_then_show {A} (action : M A) (show : M ()) :
  writes_le 1 action → writes_le 0 show → writes_le 1 (_ ← action; show).
Proof. intros Ha Hs. by apply writes_le_bind_r. Qed.

Lemma writes_le_main show args :
  writes_le 0 show → writes_le 1 (main_with show args).
Proof.
  intros Hshow. unfold main_with, parser_error, _enable_debug.
  apply writes_le_bind_l; [no_writes|intros _].
  apply writes_le_bind_l; [no_writes|intros _].
  apply writes_le_bind_l; [no_writes|intros s].
  apply writes_le_bind_l; [no_writes|intros _].
  apply writes_le_bind_r; [|intros _; no_writes].
  destruct (String.eqb (command args) "show").
  { by apply (writes_le_mono _ 0); [lia|]. }
  destruct (String.eqb (command args) "enable").
  { apply writes_le_then_show; [apply writes_le_enable|done]. }
  destruct (String.eqb (command args) "disable").
  { apply writes_le_then_show; [apply writes_le_disable|done]. }
  destruct (String.eqb (command args) "select").
  { apply writes_le_then_show; [apply writes_le_switch|done]. }
  apply (writes_le_mono _ 0); [lia|]. by apply writes_le_emit.
Qed.

(** C8. Whatever the state of the client and of the appliance, and
    whatever is fetched, each of [enable_autoswitch],
    [disable_autoswitch] and [switch_config] adds at most one POST to
    the trace, and so does a whole invocation of either program,
    whatever its command line. *)
Theorem actions_write_at_most_once :
  writes_le 1 enable_autoswitch
  ∧ writes_le 1 disable_autoswitch
  ∧ (∀ cfg_number, writes_le 1 (switch_config cfg_number))
  ∧ (∀ args, writes_le 1 (Mgr.main args))
  ∧ (∀ args, writes_le 1 (Switch.main args)).
Proof.
  split; [apply writes_le_enable|].
  split; [apply writes_le_disable|].
  split; [apply writes_le_switch|].
  split; intros args; apply writes_le_main;
    [apply writes_le_mgr_show|apply writes_le_switch_show].
Qed.

End Invocation.

(** ** The theorems at work on the simulated appliance *)

Section OnTheSimulator.
#[local] Existing Instance Sim.appliance.

(** The example of the specification: selecting 20 on the list
    Day/10 (active), Night/20 writes once, with [configId=2]. *)
Lemma switch_config_acts_on_first_match_witness :
  ∃ url_set i,
    endpoint (self (Sim.fresh (Sim.box (JStr "0") Sim.day_night))) "/configs_set"
      = Ok url_set
    ∧ entry_id Sim.night20 = Some (JInt i)
    ∧ posts (events_of (switch_config (JInt 20))
               (Sim.fresh (Sim.box (JStr "0") Sim.day_night))) =
      (if entry_active Sim.night20 then []
       else [EPost url_set (Some [("configId", JStr (pretty i))]) None])
    ∧ (entry_active Sim.night20 = true →
       events_of (switch_config (JInt 20))
         (Sim.fresh (Sim.box (JStr "0") Sim.day_night))
         = [EGet "https://pbx.example/configs_state"]
       ∧ (switch_config (JInt 20)
            (Sim.fresh (Sim.box (JStr "0") Sim.day_night))).1 = Ok (JBool true))
    ∧ ((switch_config (JInt 20)
          (Sim.fresh (Sim.box (JStr "0") Sim.day_night))).1 = Ok (JBool true)
       ∨ (switch_config (JInt 20)
            (Sim.fresh (Sim.box (JStr "0") Sim.day_night))).1 = Raise RequestException).
Proof.
  apply (switch_config_acts_on_first_match
           (Sim.fresh (Sim.box (JStr "0") Sim.day_night)) 20
           "https://pbx.example/configs_state"
           (JObj [("rows", JArr [Sim.day; Sim.night20])]) [Sim.day; Sim.night20]
           (Sim.box (JStr "0") Sim.day_night)).
  - reflexivity.
  - reflexivity.
  - reflexivity.
  - repeat constructor.
Defined.

(** C1 as stated fails on a list with a repeated number: Night/10
    carries the wanted number and is not active, yet selecting 10
    writes nothing, because Day/10 comes first and is active. *)
Lemma switch_config_writes_iff_some_match_fails :
  ¬ writes_iff_some_inactive_match 10 [Sim.day; Sim.night10]
      (Sim.fresh (Sim.box (JStr "0") Sim.twins)).
Proof.
  intros Hiff. destruct Hiff as [_ Hback].
  - exists "https://pbx.example/configs_state",
      (JObj [("rows", JArr [Sim.day; Sim.night10])]), (Sim.box (JStr "0") Sim.twins).
    repeat split.
  - destruct Hback as [e He].
    + exists Sim.night10. split; [right; left; reflexivity|]. split; reflexivity.
    + vm_compute in He. discriminate He.
Qed.

Lemma switch_config_stops_at_first_match_witness :
  ∃ url_set i,
    endpoint (self (Sim.fresh (Sim.box (JStr "0") Sim.twins))) "/configs_set"
      = Ok url_set
    ∧ entry_id Sim.day = Some (JInt i)
    ∧ switch_config (JInt 10) (Sim.fresh (Sim.box (JStr "0") Sim.twins)) =
      switch_config_loop (JInt 10) [Sim.day]
        {| self := self (Sim.fresh (Sim.box (JStr "0") Sim.twins));
           world := Sim.box (JStr "0") Sim.twins;
           trace := trace (Sim.fresh (Sim.box (JStr "0") Sim.twins))
                    ++ [EGet "https://pbx.example/configs_state"] |}
    ∧ posts (events_of (switch_config (JInt 10))
               (Sim.fresh (Sim.box (JStr "0") Sim.twins))) =
      (if entry_active Sim.day then []
       else [EPost url_set (Some [("configId", JStr (pretty i))]) None]).
Proof.
  apply (switch_config_stops_at_first_match
           (Sim.fresh (Sim.box (JStr "0") Sim.twins)) 10
           "https://pbx.example/configs_state"
           (JObj [("rows", JArr [Sim.day; Sim.night10])]) [] Sim.day [Sim.night10]
           (Sim.box (JStr "0") Sim.twins)).
  - reflexivity.
  - reflexivity.
  - reflexivity.
  - constructor.
  - reflexivity.
  - reflexivity.
Defined.

(** C2 as stated fails when autoswitch is already on: both calls
    are no-ops and nothing is written. *)
Lemma enable_twice_already_enabled_writes_nothing :
  (enable_twice (Sim.fresh (Sim.box (JStr "1") Sim.day_night))).1
    = Ok (JBool true, JBool true)
  ∧ length (posts (events_of enable_twice
                     (Sim.fresh (Sim.box (JStr "1") Sim.day_night)))) ≠ 1%nat.
Proof. split; [reflexivity|]. vm_compute. discriminate. Qed.

Lemma enable_twice_writes_once_unless_enabled_witness :
  ∃ url_save,
    endpoint (self (Sim.fresh (Sim.box (JStr "0") Sim.day_night)))
      "/config_autoswitch_save" = Ok url_save
    ∧ posts (events_of enable_autoswitch (Sim.fresh (Sim.box (JStr "0") Sim.day_night))) =
      (if Py.eq_str (JStr "0") "1" then []
       else [EPost url_save None (Some (enable_form (JStr "Relais 1")))])
    ∧ posts (events_of enable_twice (Sim.fresh (Sim.box (JStr "0") Sim.day_night)))
      = posts (events_of enable_autoswitch (Sim.fresh (Sim.box (JStr "0") Sim.day_night)))
    ∧ (∀ v1,
         (enable_autoswitch (Sim.fresh (Sim.box (JStr "0") Sim.day_night))).1 = Ok v1 →
         v1 = (if Py.eq_str (JStr "0") "1" then JBool true else JNull)
         ∧ (enable_twice (Sim.fresh (Sim.box (JStr "0") Sim.day_night))).1
           = Ok (v1, JBool true)
         ∧ events_of enable_autoswitch
             (enable_autoswitch (Sim.fresh (Sim.box (JStr "0") Sim.day_night))).2
           = [EGet "https://pbx.example/config_autoswitch_state"]).
Proof.
  apply (enable_twice_writes_once_unless_enabled
           (Sim.fresh (Sim.box (JStr "0") Sim.day_night))
           "https://pbx.example/config_autoswitch_state"
           (JObj [("switchCfgCb", JStr "0"); ("switchSysRelais", JStr "1");
                  ("switchSysRelaisName", JStr "Relais 1")])
           (Sim.box (JStr "0") Sim.day_night) (JStr "0") (JStr "Relais 1")
           (JObj [("switchCfgCb", JStr "1"); ("switchSysRelais", JStr "1");
                  ("switchSysRelaisName", JStr "Relais 1")])
           (Sim.box (JStr "1") Sim.day_night)).
  - reflexivity.
  - reflexivity.
  - reflexivity.
  - reflexivity.
  - reflexivity.
  - reflexivity.
Defined.

Lemma disable_posts_fetched_relay_name_witness :
  ∃ url_state doc w1 name,
    endpoint (self (Sim.fresh (Sim.box (JStr "1") Sim.day_night)))
      "/config_autoswitch_state" = Ok url_state
    ∧ session_get url_state (world (Sim.fresh (Sim.box (JStr "1") Sim.day_night)))
      = (Some {| body := Some doc |}, w1)
    ∧ Py.getitem_str doc "switchSysRelaisName" = Ok name
    ∧ events_of disable_autoswitch (Sim.fresh (Sim.box (JStr "1") Sim.day_night))
      = [EGet url_state;
         EPost "https://pbx.example/config_autoswitch_save" None
           (Some (disable_form (JStr "Relais 1")))]
    ∧ endpoint (self (Sim.fresh (Sim.box (JStr "1") Sim.day_night)))
        "/config_autoswitch_save" = Ok "https://pbx.example/config_autoswitch_save"
    ∧ (None : option form) = None
    ∧ Some (disable_form (JStr "Relais 1")) =
      Some [("switchSysRelais", JStr "switchSysRelais"); ("switchSysRelaisName", name)]
    ∧ (Some (disable_form (JStr "Relais 1")) ≫= Py.lookup_field "switchCfgCb") = None.
Proof.
  apply (disable_posts_fetched_relay_name
           (Sim.fresh (Sim.box (JStr "1") Sim.day_night))
           "https://pbx.example/config_autoswitch_save" None
           (Some (disable_form (JStr "Relais 1")))).
  vm_compute. right. left. reflexivity.
Defined.

(** The appliance reports [true], which is neither ["1"] nor ["0"]:
    enabling writes although autoswitch is on. *)
Lemma guards_compare_exact_strings_witness :
  ∃ url_save,
    endpoint (self (Sim.fresh (Sim.box (JBool true) Sim.day_night)))
      "/config_autoswitch_save" = Ok url_save
    ∧ events_of enable_autoswitch (Sim.fresh (Sim.box (JBool true) Sim.day_night)) =
      [EGet "https://pbx.example/config_autoswitch_state";
       EPost url_save None (Some (enable_form (JStr "Relais 1")))]
    ∧ events_of disable_autoswitch (Sim.fresh (Sim.box (JBool true) Sim.day_night)) =
      [EGet "https://pbx.example/config_autoswitch_state";
       EPost url_save None (Some (disable_form (JStr "Relais 1")))].
Proof.
  apply (guards_compare_exact_strings
           (Sim.fresh (Sim.box (JBool true) Sim.day_night))
           "https://pbx.example/config_autoswitch_state"
           (JObj [("switchCfgCb", JBool true); ("switchSysRelais", JStr "1");
                  ("switchSysRelaisName", JStr "Relais 1")])
           (Sim.box (JBool true) Sim.day_night) (JBool true) (JStr "Relais 1")).
  - reflexivity.
  - reflexivity.
  - reflexivity.
  - reflexivity.
  - discriminate.
  - discriminate.
Defined.

(** The raw version [" 7.4A "] comes back as ["7.4A"]. *)
Lemma firmware_is_stripped_witness :
  ∃ out,
    (Mgr._pbx_firmware (Sim.fresh (Sim.box (JStr "0") Sim.day_night))).1 = Ok (JStr out)
    ∧ stripped_of " 7.4A " out
    ∧ (∀ out', stripped_of " 7.4A " out' → out' = out).
Proof.
  apply (firmware_is_stripped (Sim.fresh (Sim.box (JStr "0") Sim.day_night))
           (JObj [("version", JStr " 7.4A "); ("date", JStr "01.02.2023");
                  ("serial", JStr "1234567890")])
           " 7.4A ").
  - right. split; [reflexivity|].
    exists "https://pbx.example/about_state", (Sim.box (JStr "0") Sim.day_night).
    split; reflexivity.
  - reflexivity.
Defined.

Example firmware_example :
  (Mgr._pbx_firmware (Sim.fresh (Sim.box (JStr "0") Sim.day_night))).1
  = Ok (JStr "7.4A").
Proof. reflexivity. Qed.

(** C5 as stated fails: the exit status of [select] without a
    number is not 1. *)
Lemma select_without_number_exit_status_not_1 :
  exit_status
    (Mgr.main {| command := "select"; number := JNull; debug := false |}
       (Sim.fresh_tunnelled (Sim.box (JStr "0") Sim.day_night))).1 ≠ 1.
Proof. vm_compute. discriminate. Qed.

(** C4. In [auer_cfg_mgr.py] the product accessor does not keep
    what it fetched: two calls in a row on a fresh client request
    [/tree] twice, where the specification allows one request. *)
Theorem mgr_product_fetched_on_every_call :
  gets (events_of (_ ← Mgr._pbx_product; Mgr._pbx_product)
          (Sim.fresh (Sim.box (JStr "0") Sim.day_night)))
  = [EGet "https://pbx.example/tree"; EGet "https://pbx.example/tree"].
Proof. reflexivity. Qed.

Example mgr_name_fetched_on_every_call :
  gets (events_of (_ ← Mgr._pbx_name; Mgr._pbx_name)
          (Sim.fresh (Sim.box (JStr "0") Sim.day_night)))
  = [EGet "https://pbx.example/tree"; EGet "https://pbx.example/tree"].
Proof. reflexivity. Qed.

(** Selecting 20 twice in a row: the second call finds Night/20
    active and writes nothing. *)
Example select_twice_writes_once :
  posts (events_of (_ ← switch_config (JInt 20); switch_config (JInt 20))
           (Sim.fresh (Sim.box (JStr "0") Sim.day_night)))
  = [EPost "https://pbx.example/configs_set" (Some [("configId", JStr "2")]) None].
Proof. reflexivity. Qed.

(** Selecting a number no entry carries. *)
Example select_unknown_number :
  (switch_config (JInt 99) (Sim.fresh (Sim.box (JStr "0") Sim.day_night))).1
    = Raise (SystemExit 1)
  ∧ events_of (switch_config (JInt 99)) (Sim.fresh (Sim.box (JStr "0") Sim.day_night))
    = [EGet "https://pbx.example/configs_state";
       EPrint "Identifikationsnummer 99 not found"].
Proof. split; reflexivity. Qed.

(** The sibling program, and the other accessors of this one, fetch once. *)
Example switch_product_fetched_once :
  gets (events_of (_ ← Switch._pbx_product; _ ← Switch._pbx_name; Switch._pbx_product)
          (Sim.fresh (Sim.box (JStr "0") Sim.day_night)))
  = [EGet "https://pbx.example/tree"].
Proof. reflexivity. Qed.

Example mgr_about_fetched_once :
  gets (events_of (_ ← Mgr._pbx_firmware; _ ← Mgr._pbx_date; _ ← Mgr._pbx_serial;
                   _ ← Mgr._pbx_firmware; _ ← Mgr._pbx_user; Mgr._pbx_user)
          (Sim.fresh (Sim.box (JStr "0") Sim.day_night)))
  = [EGet "https://pbx.example/about_state"; EGet "https://pbx.example/logstatus_state"].
Proof. reflexivity. Qed.

End OnTheSimulator.

(** ** Outcomes of the autoswitch actions *)

Section AutoswitchOutcomes.
Context `{Appliance}.

Lemma enable_outcome st :
  match endpoint (self st) "/config_autoswitch_state" with
  | Raise e => enable_autoswitch st = (Raise e, st)
  | Ok url =>
      match session_get url (world st) with
      | (None, w1) => enable_autoswitch st = (Raise RequestException, got st url w1)
      | (Some {| body := None |}, w1) =>
          enable_autoswitch st = (Raise JSONDecodeError, got st url w1)
      | (Some {| body := Some doc |}, w1) =>
          match Py.getitem_str doc "switchCfgCb" with
          | Raise e => enable_autoswitch st = (Raise e, got st url w1)
          | Ok cb =>
              if Py.eq_str cb "1"
              then enable_autoswitch st = (Ok (JBool true), got st url w1)
              else
                match Py.getitem_str doc "switchSysRelaisName" with
                | Raise e => enable_autoswitch st = (Raise e, got st url w1)
                | Ok name =>
                    ∃ url_save,
                      endpoint (self st) "/config_autoswitch_save" = Ok url_save
                      ∧ enable_autoswitch st =
                        (let '(p, w2) :=
                           session_post url_save None (Some (enable_form name)) w1 in
                         (match p with
                          | Some _ => Ok JNull
                          | None => Raise RequestException
                          end,
                          posted (got st url w1) url_save None
                            (Some (enable_form name)) w2))
                end
          end
      end
  end.
Proof.
  destruct (endpoint (self st) "/config_autoswitch_state") as [url|e] eqn:Hurl.
  2: { unfold enable_autoswitch, _fetch_autoswitch_state.
       by rewrite !bind_run, (_fetch_no_endpoint _ _ _ Hurl). }
  destruct (session_get url (world st)) as [[[[doc|]]|] w1] eqn:Hget.
  - destruct (Py.getitem_str doc "switchCfgCb") as [cb|e] eqn:Hcb.
    2: { unfold enable_autoswitch, _fetch_autoswitch_state.
         by rewrite bind_run, (fetch_json_run _ _ _ _ _ Hurl Hget), Hcb. }
    destruct (Py.eq_str cb "1") eqn:Hone.
    { apply eq_str_true in Hone. subst cb. exact (enable_noop _ _ _ _ Hurl Hget Hcb). }
    destruct (Py.getitem_str doc "switchSysRelaisName") as [name|e] eqn:Hname.
    2: { unfold enable_autoswitch, _fetch_autoswitch_state.
         rewrite bind_run, (fetch_json_run _ _ _ _ _ Hurl Hget), Hcb, bind_lift_ok.
         by rewrite Hone, Hname. }
    destruct (endpoint_other _ _ _ "/config_autoswitch_save" Hurl) as [url_save Hsave].
    exists url_save. split; [done|].
    unfold enable_autoswitch, _fetch_autoswitch_state.
    rewrite bind_run, (fetch_json_run _ _ _ _ _ Hurl Hget), Hcb, bind_lift_ok.
    rewrite Hone, Hname, bind_lift_ok.
    change (enable_form name) with
      [("switchCfgCb", JStr "switchCfgCb"); ("switchSysRelais", JStr "switchSysRelais");
       ("switchSysRelaisName", name)].
    rewrite bind_run, (_send_run _ _ _ _ url_save) by exact Hsave.
    unfold session_post_m. simpl.
    by destruct (session_post url_save _ _ w1) as [[p|] w2].
  - unfold enable_autoswitch, _fetch_autoswitch_state.
    rewrite !bind_run, (_fetch_run _ _ _ Hurl). unfold session_get_m.
    by rewrite Hget.
  - unfold enable_autoswitch, _fetch_autoswitch_state.
    rewrite !bind_run, (_fetch_run _ _ _ Hurl). unfold session_get_m.
    by rewrite Hget.
Qed.

Lemma disable_outcome st :
  match endpoint (self st) "/config_autoswitch_state" with
  | Raise e => disable_autoswitch st = (Raise e, st)
  | Ok url =>
      match session_get url (world st) with
      | (None, w1) => disable_autoswitch st = (Raise RequestException, got st url w1)
      | (Some {| body := None |}, w1) =>
          disable_autoswitch st = (Raise JSONDecodeError, got st url w1)
      | (Some {| body := Some doc |}, w1) =>
          match Py.getitem_str doc "switchCfgCb" with
          | Raise e => disable_autoswitch st = (Raise e, got st url w1)
          | Ok cb =>
              if Py.eq_str cb "0"
              then disable_autoswitch st = (Ok (JBool true), got st url w1)
              else
                match Py.getitem_str doc "switchSysRelaisName" with
                | Raise e => disable_autoswitch st = (Raise e, got st url w1)
                | Ok name =>
                    ∃ url_save,
                      endpoint (self st) "/config_autoswitch_save" = Ok url_save
                      ∧ disable_autoswitch st =
                        (let '(p, w2) :=
                           session_post url_save None (Some (disable_form name)) w1 in
                         (match p with
                          | Some _ => Ok JNull
                          | None => Raise RequestException
                          end,
                          posted (got st url w1) url_save None
                            (Some (disable_form name)) w2))
                end
          end
      end
  end.
Proof.
  destruct (endpoint (self st) "/config_autoswitch_state") as [url|e] eqn:Hurl.
  2: { unfold disable_autoswitch, _fetch_autoswitch_state.
       by rewrite !bind_run, (_fetch_no_endpoint _ _ _ Hurl). }
  destruct (session_get url (world st)) as [[[[doc|]]|] w1] eqn:Hget.
  - destruct (Py.getitem_str doc "switchCfgCb") as [cb|e] eqn:Hcb.
    2: { unfold disable_autoswitch, _fetch_autoswitch_state.
         by rewrite bind_run, (fetch_json_run _ _ _ _ _ Hurl Hget), Hcb. }
    destruct (Py.eq_str cb "0") eqn:Hone.
    { apply eq_str_true in Hone. subst cb. exact (disable_noop _ _ _ _ Hurl Hget Hcb). }
    destruct (Py.getitem_str doc "switchSysRelaisName") as [name|e] eqn:Hname.
    2: { unfold disable_autoswitch, _fetch_autoswitch_state.
         rewrite bind_run, (fetch_json_run _ _ _ _ _ Hurl Hget), Hcb, bind_lift_ok.
         by rewrite Hone, Hname. }
    destruct (endpoint_other _ _ _ "/config_autoswitch_save" Hurl) as [url_save Hsave].
    exists url_save. split; [done|].
    unfold disable_autoswitch, _fetch_autoswitch_state.
    rewrite bind_run, (fetch_json_run _ _ _ _ _ Hurl Hget), Hcb, bind_lift_ok.
    rewrite Hone, Hname, bind_lift_ok.
    change (disable_form name) with
      [("switchSysRelais", JStr "switchSysRelais"); ("switchSysRelaisName", name)].
    rewrite bind_run, (_send_run _ _ _ _ url_save) by exact Hsave.
    unfold session_post_m. simpl.
    by destruct (session_post url_save _ _ w1) as [[p|] w2].
  - unfold disable_autoswitch, _fetch_autoswitch_state.
    rewrite !bind_run, (_fetch_run _ _ _ Hurl). unfold session_get_m.
    by rewrite Hget.
  - unfold disable_autoswitch, _fetch_autoswitch_state.
    rewrite !bind_run, (_fetch_run _ _ _ Hurl). unfold session_get_m.
    by rewrite Hget.
Qed.


Lemma events_same {A} (m : M A) st r : m st = (r, st) → events_of m st = [].
Proof. intros Hrun. apply events_of_nil. by rewrite Hrun. Qed.

Lemma events_got {A} (m : M A) st r url w :
  m st = (r, got st url w) → events_of m st = [EGet url].
Proof. intros Hrun. apply events_of_app. by rewrite Hrun. Qed.

Lemma events_posted {A} (m : M A) st r url w1 url' params data w2 :
  m st = (r, posted (got st url w1) url' params data w2) →
  events_of m st = [EGet url; EPost url' params data].
Proof.
  intros Hrun. apply events_of_app. rewrite Hrun. simpl. by rewrite <- app_assoc.
Qed.

(** X1. Whenever [enable_autoswitch] performs a POST, the run is the
    fetch of [/config_autoswitch_state] followed by that POST to
    [/config_autoswitch_save], and the posted form is [switchCfgCb],
    [switchSysRelais] and, as [switchSysRelaisName], the value of the
    document just fetched: enabling keeps the relay binding. *)
Theorem enable_posts_fetched_relay_name st url params data :
  In (EPost url params data) (events_of enable_autoswitch st) →
  ∃ url_state doc w1 name,
    endpoint (self st) "/config_autoswitch_state" = Ok url_state
    ∧ session_get url_state (world st) = (Some {| body := Some doc |}, w1)
    ∧ Py.getitem_str doc "switchSysRelaisName" = Ok name
    ∧ events_of enable_autoswitch st = [EGet url_state; EPost url params data]
    ∧ endpoint (self st) "/config_autoswitch_save" = Ok url
    ∧ params = None
    ∧ data = Some [("switchCfgCb", JStr "switchCfgCb");
                   ("switchSysRelais", JStr "switchSysRelais");
                   ("switchSysRelaisName", name)].
Proof.
  intros Hin. pose proof (enable_outcome st) as Hout.
  destruct (endpoint (self st) "/config_autoswitch_state") as [url_state|e] eqn:Hurl.
  2: { rewrite (events_same _ _ _ Hout) in Hin. destruct Hin. }
  assert (∀ r w, enable_autoswitch st = (r, got st url_state w) → False) as Hno.
  { intros r w Hrun. rewrite (events_got _ _ _ _ _ Hrun) in Hin.
    destruct Hin as [?|[]]. discriminate. }
  destruct (session_get url_state (world st)) as [[[[doc|]]|] w1] eqn:Hget;
    try (exfalso; by eapply Hno).
  destruct (Py.getitem_str doc "switchCfgCb") as [cb|]; [|exfalso; by eapply Hno].
  destruct (Py.eq_str cb "1"); [exfalso; by eapply Hno|].
  destruct (Py.getitem_str doc "switchSysRelaisName") as [name|] eqn:Hname;
    [|exfalso; by eapply Hno].
  destruct Hout as (url_save & Hsave & Hrun).
  destruct (session_post url_save None (Some (enable_form name)) w1) as [p w2].
  rewrite (events_posted _ _ _ _ _ _ _ _ _ Hrun) in Hin |- *.
  destruct Hin as [?|[Heq|[]]]; [discriminate|].
  injection Heq as <- <- <-.
  by exists url_state, doc, w1, name.
Qed.

(** X2. The value an autoswitch action returns tells whether it
    wrote: [True] comes back exactly from the no-op path, after the
    fetch alone, and [None] exactly after the fetch and one POST. *)
Theorem autoswitch_return_value_tells_write st action v :
  In action [enable_autoswitch; disable_autoswitch] →
  (action st).1 = Ok v →
  (v = JBool true ∧ posts (events_of action st) = [])
  ∨ (v = JNull ∧ ∃ p, posts (events_of action st) = [p]).
Proof.
  intros [<-|[<-|[]]].
  - pose proof (enable_outcome st) as Hout.
    destruct (endpoint (self st) "/config_autoswitch_state") as [url|e];
      [|by rewrite Hout].
    destruct (session_get url (world st)) as [[[[doc|]]|] w1];
      try (by rewrite Hout).
    destruct (Py.getitem_str doc "switchCfgCb") as [cb|]; [|by rewrite Hout].
    destruct (Py.eq_str cb "1").
    { rewrite (events_got _ _ _ _ _ Hout), Hout. simpl. intros [= <-]. by left. }
    destruct (Py.getitem_str doc "switchSysRelaisName") as [name|]; [|by rewrite Hout].
    destruct Hout as (url_save & _ & Hrun).
    destruct (session_post url_save None (Some (enable_form name)) w1) as [[p|] w2];
      rewrite (events_posted _ _ _ _ _ _ _ _ _ Hrun), Hrun; simpl; [|done].
    intros [= <-]. right. eauto.
  - pose proof (disable_outcome st) as Hout.
    destruct (endpoint (self st) "/config_autoswitch_state") as [url|e];
      [|by rewrite Hout].
    destruct (session_get url (world st)) as [[[[doc|]]|] w1];
      try (by rewrite Hout).
    destruct (Py.getitem_str doc "switchCfgCb") as [cb|]; [|by rewrite Hout].
    destruct (Py.eq_str cb "0").
    { rewrite (events_got _ _ _ _ _ Hout), Hout. simpl. intros [= <-]. by left. }
    destruct (Py.getitem_str doc "switchSysRelaisName") as [name|]; [|by rewrite Hout].
    destruct Hout as (url_save & _ & Hrun).
    destruct (session_post url_save None (Some (disable_form name)) w1) as [[p|] w2];
      rewrite (events_posted _ _ _ _ _ _ _ _ _ Hrun), Hrun; simpl; [|done].
    intros [= <-]. right. eauto.
Qed.

(** X3. An autoswitch action that fails on the read side writes
    nothing: when the state cannot be fetched or decoded, or the
    document lacks [switchCfgCb] or [switchSysRelaisName], the
    exception comes before any POST.  The only exception that can
    follow a POST is the one of the POST itself. *)
Theorem autoswitch_read_failure_writes_nothing st action e :
  In action [enable_autoswitch; disable_autoswitch] →
  (action st).1 = Raise e →
  posts (events_of action st) = []
  ∨ (e = RequestException ∧ ∃ p, posts (events_of action st) = [p]).
Proof.
  intros [<-|[<-|[]]].
  - pose proof (enable_outcome st) as Hout.
    destruct (endpoint (self st) "/config_autoswitch_state") as [url|e'].
    2: { rewrite (events_same _ _ _ Hout). by left. }
    destruct (session_get url (world st)) as [[[[doc|]]|] w1];
      try (rewrite (events_got _ _ _ _ _ Hout); by left).
    destruct (Py.getitem_str doc "switchCfgCb") as [cb|];
      [|rewrite (events_got _ _ _ _ _ Hout); by left].
    destruct (Py.eq_str cb "1"); [rewrite (events_got _ _ _ _ _ Hout); by left|].
    destruct (Py.getitem_str doc "switchSysRelaisName") as [name|];
      [|rewrite (events_got _ _ _ _ _ Hout); by left].
    destruct Hout as (url_save & _ & Hrun).
    destruct (session_post url_save None (Some (enable_form name)) w1) as [[p|] w2];
      rewrite (events_posted _ _ _ _ _ _ _ _ _ Hrun), Hrun; simpl; [done|].
    intros [= <-]. right. eauto.
  - pose proof (disable_outcome st) as Hout.
    destruct (endpoint (self st) "/config_autoswitch_state") as [url|e'].
    2: { rewrite (events_same _ _ _ Hout). by left. }
    destruct (session_get url (world st)) as [[[[doc|]]|] w1];
      try (rewrite (events_got _ _ _ _ _ Hout); by left).
    destruct (Py.getitem_str doc "switchCfgCb") as [cb|];
      [|rewrite (events_got _ _ _ _ _ Hout); by left].
    destruct (Py.eq_str cb "0"); [rewrite (events_got _ _ _ _ _ Hout); by left|].
    destruct (Py.getitem_str doc "switchSysRelaisName") as [name|];
      [|rewrite (events_got _ _ _ _ _ Hout); by left].
    destruct Hout as (url_save & _ & Hrun).
    destruct (session_post url_save None (Some (disable_form name)) w1) as [[p|] w2];
      rewrite (events_posted _ _ _ _ _ _ _ _ _ Hrun), Hrun; simpl; [done|].
    intros [= <-]. right. eauto.
Qed.

End AutoswitchOutcomes.

(** ** Invariants of runs

    One set of rules for two invariants: [R := eq] for the methods
    that leave [self] alone, [R := same_settings] for those that only
    add cached documents. *)

Section RunInvariants.
Context `{Appliance}.
Variable R : self_t → self_t → Prop.
Variable P : self_t → event → Prop.
Hypothesis R_refl : ∀ s, R s s.
Hypothesis R_trans : ∀ s1 s2 s3, R s1 s2 → R s2 s3 → R s1 s3.
Hypothesis P_back : ∀ s s' e, R s s' → P s' e → P s e.
Hypothesis P_get : ∀ s path url, endpoint s path = Ok url → P s (EGet url).
Hypothesis P_post : ∀ s path url params data,
  endpoint s path = Ok url → P s (EPost url params data).
Hypothesis P_local : ∀ s e, is_local e = true → P s e.
Hypothesis R_setattr : ∀ s name v, R s (with_attr s name v).

Lemma run_inv_same {A} (m : M A) :
  (∀ st, ∃ r, m st = (r, st)) → run_inv R P m.
Proof.
  intros Hm st. unfold run_inv_at. destruct (Hm st) as [r ->]. split; [apply R_refl|].
  exists []. by rewrite app_nil_r.
Qed.

Lemma run_inv_ret {A} (a : A) : run_inv R P (mret a : M A).
Proof. apply run_inv_same. intros st. by eexists. Qed.

Lemma run_inv_raise {A} e : run_inv R P (raise e : M A).
Proof. apply run_inv_same. intros st. by eexists. Qed.

Lemma run_inv_lift {A} (r : result A) : run_inv R P (lift r).
Proof. apply run_inv_same. intros st. by eexists. Qed.

Lemma run_inv_get_self : run_inv R P get_self.
Proof. apply run_inv_same. intros st. by eexists. Qed.

Lemma run_inv_hasattr name : run_inv R P (hasattr name).
Proof. apply run_inv_same. intros st. by eexists. Qed.

Lemma run_inv_getattr name : run_inv R P (getattr name).
Proof.
  apply run_inv_same. intros st. unfold getattr.
  destruct (attrs (self st) !! name); by eexists.
Qed.

Lemma run_inv_emit e : is_local e = true → run_inv R P (emit e).
Proof.
  intros He st. unfold run_inv_at. split; [apply R_refl|]. exists [e]. split; [done|].
  constructor; [by apply P_local|constructor].
Qed.

Lemma run_inv_setattr name v : run_inv R P (setattr name v).
Proof.
  intros st. unfold run_inv_at. split; [apply R_setattr|]. exists []. by rewrite app_nil_r.
Qed.

Lemma run_inv_bind_at {A B} (m : M A) (f : A → M B) st :
  run_inv_at R P m st →
  (∀ a st1, m st = (Ok a, st1) → run_inv_at R P (f a) st1) →
  run_inv_at R P (m ≫= f) st.
Proof.
  intros (HR1 & evs1 & Htr1 & HP1) Hf. unfold run_inv_at. rewrite bind_run.
  destruct (m st) as [[a|e] st1] eqn:Hrun; simpl in *; [|eauto].
  destruct (Hf a st1 eq_refl) as (HR2 & evs2 & Htr2 & HP2).
  split; [by eapply R_trans|].
  exists (evs1 ++ evs2). rewrite Htr2, Htr1, app_assoc. split; [done|].
  apply Forall_app. split; [done|].
  eapply Forall_impl; [exact HP2|]. intros e. by apply P_back.
Qed.

Lemma run_inv_bind {A B} (m : M A) (f : A → M B) :
  run_inv R P m → (∀ a, run_inv R P (f a)) → run_inv R P (m ≫= f).
Proof.
  intros Hm Hf st. apply run_inv_bind_at; [apply Hm|]. intros a st1 _. apply Hf.
Qed.

Lemma run_inv_fetch path : run_inv R P (_fetch path).
Proof.
  intros st. unfold run_inv_at. destruct (endpoint (self st) path) as [url|e] eqn:Hurl.
  - rewrite (_fetch_run _ _ _ Hurl). unfold session_get_m.
    destruct (session_get url (world st)) as [r w]. simpl.
    split; [apply R_refl|]. exists [EGet url]. split; [done|].
    constructor; [by eapply P_get|constructor].
  - rewrite (_fetch_no_endpoint _ _ _ Hurl). split; [apply R_refl|].
    exists []. by rewrite app_nil_r.
Qed.

Lemma run_inv_send path params data : run_inv R P (_send path params data).
Proof.
  intros st. unfold run_inv_at. destruct (endpoint (self st) path) as [url|e] eqn:Hurl.
  - rewrite (_send_run _ _ _ _ _ Hurl). unfold session_post_m.
    destruct (session_post url params data (world st)) as [r w]. simpl.
    split; [apply R_refl|]. exists [EPost url params data]. split; [done|].
    constructor; [by eapply P_post|constructor].
  - rewrite (_send_no_endpoint _ _ _ _ _ Hurl). split; [apply R_refl|].
    exists []. by rewrite app_nil_r.
Qed.

Lemma run_inv_json_of r : run_inv R P (json_of r).
Proof. unfold json_of. destruct (body r); [apply run_inv_ret|apply run_inv_raise]. Qed.

Lemma run_inv_fetch_json path : run_inv R P (r ← _fetch path; json_of r).
Proof. apply run_inv_bind; [apply run_inv_fetch|apply run_inv_json_of]. Qed.

Ltac run_inv_step :=
  first
    [ apply run_inv_ret | apply run_inv_raise | apply run_inv_lift
    | apply run_inv_get_self | apply run_inv_hasattr | apply run_inv_getattr
    | apply run_inv_fetch_json | apply run_inv_send | apply run_inv_setattr
    | apply run_inv_emit; reflexivity
    | apply run_inv_bind; [|intros ?]
    | match goal with
      | |- run_inv _ _ (if ?b then _ else _) => destruct b
      end ].

Lemma run_inv_enable : run_inv R P enable_autoswitch.
Proof. unfold enable_autoswitch, _fetch_autoswitch_state. repeat run_inv_step. Qed.

Lemma run_inv_disable : run_inv R P disable_autoswitch.
Proof. unfold disable_autoswitch, _fetch_autoswitch_state. repeat run_inv_step. Qed.

Lemma run_inv_switch_loop cfg_number configs :
  run_inv R P (switch_config_loop cfg_number configs).
Proof.
  induction configs as [|config rest IH]; simpl.
  - repeat run_inv_step.
  - repeat first [exact IH | run_inv_step].
Qed.

Lemma run_inv_switch cfg_number : run_inv R P (switch_config cfg_number).
Proof.
  unfold switch_config, _fetch_cfg_state.
  repeat first [apply run_inv_switch_loop | run_inv_step].
Qed.

Lemma run_inv_autoswitch_rows : run_inv R P autoswitch_rows.
Proof. unfold autoswitch_rows, _fetch_autoswitch_state. repeat run_inv_step. Qed.

Lemma run_inv_config_rows configs : run_inv R P (config_rows configs).
Proof.
  induction configs as [|config rest IH]; simpl; [apply run_inv_ret|].
  repeat first [exact IH | run_inv_step].
Qed.

Lemma run_inv_mgr_show : run_inv R P Mgr.show_configurations.
Proof.
  unfold Mgr.show_configurations, Mgr._pbx_product, Mgr._pbx_firmware,
    Mgr._pbx_date, Mgr._pbx_serial, Mgr._pbx_user, Mgr._pbx_name,
    Mgr._fetch_pbx_menu_tree, Mgr._fetch_pbx_about, Mgr._fetch_pbx_logstatus,
    _fetch_cfg_state.
  repeat first [apply run_inv_autoswitch_rows | apply run_inv_config_rows | run_inv_step].
Qed.

Lemma run_inv_switch_show : run_inv R P Switch.show_configurations.
Proof.
  unfold Switch.show_configurations, Switch._pbx_product, Switch._pbx_name,
    Switch._fetch_pbx_info, _fetch_cfg_state.
  repeat first [apply run_inv_autoswitch_rows | apply run_inv_config_rows | run_inv_step].
Qed.

End RunInvariants.

(** ** Shapes of a selection *)

Section SelectShapes.
Context `{Appliance}.

Ltac lift_case :=
  match goal with
  | |- context [ (lift ?r ≫= _) _ ] =>
      destruct r eqn:?; [rewrite bind_lift_ok | rewrite bind_lift_raise]
  end.

Lemma loop_shape cfg_number configs st :
  ∃ evs,
    trace (switch_config_loop cfg_number configs st).2 = trace st ++ evs
    ∧ select_shape (self st) (switch_config_loop cfg_number configs st).1 evs.
Proof.
  induction configs as [|config rest IH]; simpl.
  - lift_case; [|exists []; rewrite app_nil_r; split; [done|constructor]].
    eexists. split; [done|]. simpl. constructor.
  - repeat (lift_case; [|exists []; rewrite app_nil_r; split; [done|constructor]]).
    destruct (Py.eq_str _ _); [|exact IH].
    repeat (lift_case; [|exists []; rewrite app_nil_r; split; [done|constructor]]).
    destruct (Py.truthy _); [exists []; rewrite app_nil_r; split; [done|constructor]|].
    repeat (lift_case; [|exists []; rewrite app_nil_r; split; [done|constructor]]).
    cbv zeta.
    destruct (endpoint (self st) "/configs_set") as [url|e] eqn:Hurl.
    + rewrite bind_run, (_send_run _ _ _ _ _ Hurl). unfold session_post_m.
      destruct (session_post url _ _ (world st)) as [[resp|] w2]; simpl.
      * eexists. rewrite <- app_assoc. split; [done|]. simpl. by constructor.
      * eexists. split; [done|]. by constructor.
    + rewrite bind_run, (_send_no_endpoint _ _ _ _ _ Hurl).
      exists []. rewrite app_nil_r. split; [done|constructor].
Qed.

(** The same for the whole method: the fetch comes first, unless the
    URL cannot be built. *)
Lemma switch_shape cfg_number st :
  (∃ e, endpoint (self st) "/configs_state" = Raise e
        ∧ switch_config cfg_number st = (Raise e, st))
  ∨ ∃ url evs,
      endpoint (self st) "/configs_state" = Ok url
      ∧ events_of (switch_config cfg_number) st = EGet url :: evs
      ∧ select_shape (self st) (switch_config cfg_number st).1 evs.
Proof.
  unfold switch_config, _fetch_cfg_state.
  destruct (endpoint (self st) "/configs_state") as [url|e] eqn:Hurl.
  2: { left. exists e. by rewrite !bind_run, (_fetch_no_endpoint _ _ _ Hurl). }
  right. exists url.
  destruct (session_get url (world st)) as [[[[doc|]]|] w1] eqn:Hget.
  - assert (∀ k : json → M json,
              ((r ← _fetch "/configs_state"; json_of r) ≫= k) st = k doc (got st url w1))
      as Hstep.
    { intros k. by rewrite bind_run, (fetch_json_run _ _ _ _ _ Hurl Hget). }
    rewrite Hstep. unfold events_of. rewrite Hstep.
    repeat (lift_case;
            [|exists []; simpl; rewrite drop_app_length; split; [done|]; split;
              [done|constructor]]).
    match goal with
    | |- context [switch_config_loop cfg_number ?l ?s] =>
        destruct (loop_shape cfg_number l s) as (evs & Htr & Hshape)
    end.
    exists evs. split; [done|]. split; [|done].
    rewrite Htr. simpl. by rewrite <- app_assoc, drop_app_length.
  - exists []. unfold events_of.
    rewrite !bind_run, (_fetch_run _ _ _ Hurl). unfold session_get_m. rewrite Hget.
    simpl. rewrite drop_app_length. split; [done|]. split; [done|constructor].
  - exists []. unfold events_of.
    rewrite !bind_run, (_fetch_run _ _ _ Hurl). unfold session_get_m. rewrite Hget.
    simpl. rewrite drop_app_length. split; [done|]. split; [done|constructor].
Qed.

(** X5. The one-second settle delay happens only as the last step of
    a selection that fetched the list, posted to [/configs_set] and got
    an answer; the call then returns [True]. *)
Theorem settle_delay_only_after_answered_write st cfg_number seconds :
  In (ESleep seconds) (events_of (switch_config cfg_number) st) →
  seconds = 1
  ∧ (switch_config cfg_number st).1 = Ok (JBool true)
  ∧ ∃ url url_set configId,
      endpoint (self st) "/configs_set" = Ok url_set
      ∧ events_of (switch_config cfg_number) st =
        [EGet url; EPost url_set (Some [("configId", JStr configId)]) None; ESleep 1].
Proof.
  intros Hin.
  destruct (switch_shape cfg_number st) as [(e & _ & Hrun)|(url & evs & _ & Hev & Hshape)].
  { rewrite (events_same _ _ _ Hrun) in Hin. destruct Hin. }
  rewrite Hev in Hin |- *. destruct Hin as [?|Hin]; [discriminate|].
  destruct Hshape; simpl in Hin; try (by destruct Hin);
    try (by destruct Hin as [?|[]]).
  destruct Hin as [?|[[= <-]|[]]]; [discriminate|]. eauto 10.
Qed.

(** X6. When [switch_config] returns, it returns [True], and either
    it wrote nothing or it fetched, posted once and waited out the
    settle delay: it never returns between the write and the delay. *)
Theorem switch_config_returns_true_after_settling st cfg_number v :
  (switch_config cfg_number st).1 = Ok v →
  v = JBool true
  ∧ ((∃ url, events_of (switch_config cfg_number) st = [EGet url])
     ∨ ∃ url url_set configId,
         events_of (switch_config cfg_number) st =
         [EGet url; EPost url_set (Some [("configId", JStr configId)]) None; ESleep 1]).
Proof.
  intros Hret.
  destruct (switch_shape cfg_number st) as [(e & _ & Hrun)|(url & evs & _ & Hev & Hshape)].
  { by rewrite Hrun in Hret. }
  rewrite Hev. rewrite Hret in Hshape.
  inversion Hshape; subst; (split; [done|]); eauto 10.
Qed.

(** X23. Whatever the appliance sends, the only thing a selection
    ever posts is one query parameter [configId], a str, to
    [/configs_set], with no form: it cannot write to another
    endpoint or send further fields. *)
Theorem selection_posts_only_config_id st cfg_number url params data :
  In (EPost url params data) (events_of (switch_config cfg_number) st) →
  endpoint (self st) "/configs_set" = Ok url
  ∧ data = None
  ∧ ∃ configId, params = Some [("configId", JStr configId)].
Proof.
  intros Hin.
  destruct (switch_shape cfg_number st) as [(e & _ & Hrun)|(u & evs & _ & Hev & Hshape)].
  { rewrite (events_same _ _ _ Hrun) in Hin. destruct Hin. }
  rewrite Hev in Hin. destruct Hin as [?|Hin]; [discriminate|].
  destruct Hshape; simpl in Hin; try (by destruct Hin);
    try (by destruct Hin as [?|[]]).
  - destruct Hin as [[= <- <- <-]|[]]. eauto.
  - destruct Hin as [[= <- <- <-]|[?|[]]]; [eauto|discriminate].
Qed.

End SelectShapes.

(** ** The session invariants, instantiated *)

Section Session.
Context `{Appliance}.

Lemma endpoint_same s s' path :
  same_settings s s' → endpoint s' path = endpoint s path.
Proof. intros (Ha & Hf & Ht). unfold endpoint. by rewrite Ha, Hf, Ht. Qed.

Lemma in_session_same s s' e : same_settings s s' → in_session s' e → in_session s e.
Proof.
  intros Hsame. destruct e; simpl; try done;
    intros [path Hp]; exists path; by rewrite <- (endpoint_same _ _ _ Hsame).
Qed.

Lemma in_session_get s path url : endpoint s path = Ok url → in_session s (EGet url).
Proof. simpl. eauto. Qed.

Lemma in_session_post s path url params data :
  endpoint s path = Ok url → in_session s (EPost url params data).
Proof. simpl. eauto. Qed.

Lemma in_session_local s e : is_local e = true → in_session s e.
Proof. by destruct e. Qed.

Lemma same_settings_refl s : same_settings s s.
Proof. by repeat split. Qed.

Lemma same_settings_trans s1 s2 s3 :
  same_settings s1 s2 → same_settings s2 s3 → same_settings s1 s3.
Proof. intros (? & ? & ?) (? & ? & ?). repeat split; congruence. Qed.

Lemma same_settings_with_attr s name v : same_settings s (with_attr s name v).
Proof. by repeat split. Qed.

Lemma in_session_eq (s s' : self_t) e : s = s' → in_session s' e → in_session s e.
Proof. by intros ->. Qed.

Lemma eq_trans_self (s1 s2 s3 : self_t) : s1 = s2 → s2 = s3 → s1 = s3.
Proof. congruence. Qed.

End Session.

Ltac session_rules :=
  first
    [ exact in_session_get | exact in_session_post | exact in_session_local
    | exact same_settings_refl | exact same_settings_trans
    | exact same_settings_with_attr | exact in_session_same
    | exact in_session_eq | exact eq_trans_self | by intros ].

Section SessionRuns.
Context `{Appliance}.

(** The three actions leave [self] alone and stay inside the session. *)
Lemma enable_in_session : run_inv eq in_session enable_autoswitch.
Proof.
  apply run_inv_enable; session_rules.
Qed.

Lemma disable_in_session : run_inv eq in_session disable_autoswitch.
Proof.
  apply run_inv_disable; session_rules.
Qed.

Lemma switch_in_session cfg_number : run_inv eq in_session (switch_config cfg_number).
Proof.
  apply run_inv_switch; session_rules.
Qed.

(** [show_configurations] only adds cached documents to [self]. *)
Lemma mgr_show_in_session : run_inv same_settings in_session Mgr.show_configurations.
Proof.
  apply run_inv_mgr_show; session_rules.
Qed.

Lemma switch_show_in_session :
  run_inv same_settings in_session Switch.show_configurations.
Proof.
  apply run_inv_switch_show; session_rules.
Qed.

(** X4. The actions keep no cache: each call first requests the
    current state from the appliance, whatever the object carries,
    and leaves the object as it was. *)
Theorem actions_fetch_afresh st url_state url_list cfg_number :
  endpoint (self st) "/config_autoswitch_state" = Ok url_state →
  endpoint (self st) "/configs_state" = Ok url_list →
  (self (enable_autoswitch st).2 = self st
   ∧ ∃ rest, events_of enable_autoswitch st = EGet url_state :: rest)
  ∧ (self (disable_autoswitch st).2 = self st
     ∧ ∃ rest, events_of disable_autoswitch st = EGet url_state :: rest)
  ∧ (self (switch_config cfg_number st).2 = self st
     ∧ ∃ rest, events_of (switch_config cfg_number) st = EGet url_list :: rest).
Proof.
  intros Hstate Hlist.
  split; [|split].
  - split; [symmetry; apply enable_in_session|].
    pose proof (enable_outcome st) as Hout. rewrite Hstate in Hout.
    destruct (session_get url_state (world st)) as [[[[doc|]]|] w1];
      try (rewrite (events_got _ _ _ _ _ Hout); by eauto).
    destruct (Py.getitem_str doc "switchCfgCb") as [cb|];
      [|rewrite (events_got _ _ _ _ _ Hout); by eauto].
    destruct (Py.eq_str cb "1"); [rewrite (events_got _ _ _ _ _ Hout); by eauto|].
    destruct (Py.getitem_str doc "switchSysRelaisName") as [name|];
      [|rewrite (events_got _ _ _ _ _ Hout); by eauto].
    destruct Hout as (url_save & _ & Hrun).
    destruct (session_post url_save None (Some (enable_form name)) w1) as [p w2].
    rewrite (events_posted _ _ _ _ _ _ _ _ _ Hrun). eauto.
  - split; [symmetry; apply disable_in_session|].
    pose proof (disable_outcome st) as Hout. rewrite Hstate in Hout.
    destruct (session_get url_state (world st)) as [[[[doc|]]|] w1];
      try (rewrite (events_got _ _ _ _ _ Hout); by eauto).
    destruct (Py.getitem_str doc "switchCfgCb") as [cb|];
      [|rewrite (events_got _ _ _ _ _ Hout); by eauto].
    destruct (Py.eq_str cb "0"); [rewrite (events_got _ _ _ _ _ Hout); by eauto|].
    destruct (Py.getitem_str doc "switchSysRelaisName") as [name|];
      [|rewrite (events_got _ _ _ _ _ Hout); by eauto].
    destruct Hout as (url_save & _ & Hrun).
    destruct (session_post url_save None (Some (disable_form name)) w1) as [p w2].
    rewrite (events_posted _ _ _ _ _ _ _ _ _ Hrun). eauto.
  - split; [symmetry; apply switch_in_session|].
    destruct (switch_shape cfg_number st) as [(e & He & _)|(url & evs & Hurl & Hev & _)];
      [congruence|].
    assert (url = url_list) as -> by congruence. eauto.
Qed.

End SessionRuns.

(** ** A whole invocation and the tunnel *)

Ltac session_step :=
  first
    [ apply run_inv_ret; session_rules
    | apply run_inv_raise; session_rules
    | apply run_inv_lift; session_rules
    | apply run_inv_get_self; session_rules
    | apply run_inv_emit; [session_rules..|reflexivity]
    | apply run_inv_enable; session_rules
    | apply run_inv_disable; session_rules
    | apply run_inv_switch; session_rules
    | apply run_inv_bind; [session_rules..| |intros ?]
    | match goal with
      | |- run_inv _ _ (if ?b then _ else _) => destruct b
      end ].

Section Lifecycle.
Context `{Appliance}.

Lemma dispatch_in_session show args :
  run_inv same_settings in_session show →
  run_inv same_settings in_session (dispatch show args).
Proof. intros Hshow. unfold dispatch. repeat first [exact Hshow | session_step]. Qed.

Lemma in_session_direct s e :
  ssh_tunnel s = false → in_session s e → direct_only (auer_address s) e.
Proof.
  intros Hoff. destruct e; simpl; try done;
    unfold endpoint; rewrite Hoff; intros [path [= <-]]; eauto.
Qed.

Lemma in_session_tunnelled s port e :
  ssh_tunnel s = true → tunnel s = Some port → in_session s e → tunnelled_only port e.
Proof.
  intros Hon Hport. destruct e; simpl; try done;
    unfold endpoint; rewrite Hon, Hport; intros [path [= <-]]; eauto.
Qed.

(** What [main] does once its arguments pass the check. *)
Lemma main_with_checked show args st :
  String.eqb (command args) "select" && Py.is_none (number args) = false →
  main_with show args st =
  (_ ← (if debug args then _enable_debug else mret ());
   s ← get_self;
   _ ← (if ssh_tunnel s then _ ← _connect_ssh_tunnel; mret () else mret ());
   _ ← dispatch show args;
   s ← get_self;
   if ssh_tunnel s then _disconnect_ssh_tunnel else mret ()) st.
Proof. intros Hok. unfold main_with. rewrite Hok. reflexivity. Qed.

Lemma debug_step {A} args (k : M A) st :
  (_ ← (if debug args then _enable_debug else mret ()); k) st =
  k {| self := self st; world := world st;
       trace := trace st ++ (if debug args then [EDebug] else []) |}.
Proof.
  rewrite bind_run. destruct (debug args); simpl; [done|].
  rewrite app_nil_r. by destruct st.
Qed.

Lemma main_with_direct show args st :
  run_inv same_settings in_session show →
  ssh_tunnel (self st) = false →
  ∃ evs, trace (main_with show args st).2 = trace st ++ evs
         ∧ Forall (direct_only (auer_address (self st))) evs.
Proof.
  intros Hshow Hoff.
  destruct (String.eqb (command args) "select" && Py.is_none (number args)) eqn:Hcheck.
  { unfold main_with. rewrite Hcheck. eexists. split; [reflexivity|].
    by repeat constructor. }
  rewrite (main_with_checked _ _ _ Hcheck), debug_step.
  set (st1 := {| self := self st; world := world st;
                 trace := trace st ++ (if debug args then [EDebug] else []) |}).
  rewrite bind_run. simpl. rewrite Hoff. rewrite bind_run. simpl.
  destruct (dispatch_in_session show args Hshow st1) as (Hsame & mid & Htr & Hmid).
  rewrite bind_run.
  destruct (dispatch show args st1) as [[[]|e] st2]; simpl in *.
  - rewrite bind_run. simpl.
    destruct Hsame as (_ & -> & _). rewrite Hoff. simpl.
    exists ((if debug args then [EDebug] else []) ++ mid).
    rewrite Htr, app_assoc. split; [done|].
    apply Forall_app. split; [by destruct (debug args); repeat constructor|].
    eapply Forall_impl; [exact Hmid|]. intros e. by apply in_session_direct.
  - exists ((if debug args then [EDebug] else []) ++ mid).
    rewrite Htr, app_assoc. split; [done|].
    apply Forall_app. split; [by destruct (debug args); repeat constructor|].
    eapply Forall_impl; [exact Hmid|]. intros e'. by apply in_session_direct.
Qed.

(** X7. With the tunnel flag off, an invocation of either program
    never starts or stops a tunnel, and every request it makes goes
    to [https://<auer_address>...], whatever the command and whatever
    the appliance answers. *)
Theorem direct_invocation_stays_direct st args :
  ssh_tunnel (self st) = false →
  Forall (direct_only (auer_address (self st))) (events_of (Mgr.main args) st)
  ∧ Forall (direct_only (auer_address (self st))) (events_of (Switch.main args) st).
Proof.
  intros Hoff. unfold Mgr.main, Switch.main. split.
  - destruct (main_with_direct _ args st mgr_show_in_session Hoff) as (evs & Htr & Hevs).
    by rewrite (events_of_app _ _ _ Htr).
  - destruct (main_with_direct _ args st switch_show_in_session Hoff) as (evs & Htr & Hevs).
    by rewrite (events_of_app _ _ _ Htr).
Qed.

Lemma main_with_tunnel show args st port w :
  run_inv same_settings in_session show →
  ssh_tunnel (self st) = true →
  String.eqb (command args) "select" && Py.is_none (number args) = false →
  tunnel_start (world st) = (Some port, w) →
  ∃ mid,
    Forall (tunnelled_only port) mid
    ∧ trace (main_with show args st).2 =
      trace st ++ (if debug args then [EDebug] else []) ++ ETunnelStart :: mid
      ++ (match (main_with show args st).1 with
          | Ok _ => [ETunnelStop]
          | Raise _ => []
          end).
Proof.
  intros Hshow Hon Hcheck Hstart.
  rewrite (main_with_checked _ _ _ Hcheck), debug_step.
  set (dbg := if debug args then [EDebug] else []).
  rewrite bind_run. simpl. rewrite Hon. rewrite !bind_run.
  unfold _connect_ssh_tunnel. simpl. rewrite Hstart. simpl.
  set (st2 := {| self := _; world := w; trace := (trace st ++ dbg) ++ [ETunnelStart] |}).
  destruct (dispatch_in_session show args Hshow st2) as (Hsame & mid & Htr & Hmid).
  exists mid. split.
  { eapply Forall_impl; [exact Hmid|]. intros e. by apply in_session_tunnelled. }
  rewrite bind_run.
  destruct (dispatch show args st2) as [[[]|e] st3]; simpl in *.
  - destruct Hsame as (_ & Hflag & Hport). simpl in Hflag, Hport.
    rewrite bind_run. simpl.
    rewrite Hflag, Hon. unfold _disconnect_ssh_tunnel. rewrite Hport. simpl.
    rewrite Htr. by rewrite <- !app_assoc.
  - rewrite Htr, app_nil_r. by rewrite <- !app_assoc.
Qed.

Lemma main_with_tunnel_refused show args st w :
  ssh_tunnel (self st) = true →
  String.eqb (command args) "select" && Py.is_none (number args) = false →
  tunnel_start (world st) = (None, w) →
  main_with show args st =
  (Raise TunnelError,
   {| self := self st; world := w;
      trace := (trace st ++ (if debug args then [EDebug] else [])) ++ [ETunnelStart] |}).
Proof.
  intros Hon Hcheck Hstart.
  rewrite (main_with_checked _ _ _ Hcheck), debug_step.
  rewrite bind_run. simpl. rewrite Hon. rewrite !bind_run.
  unfold _connect_ssh_tunnel. simpl. by rewrite Hstart.
Qed.

(** X8. With the tunnel flag on, an invocation whose arguments pass
    the check starts the tunnel before anything reaches the network,
    makes every request through [https://127.0.0.1:<port>...], and
    stops the tunnel as its last step when the command returns.  When
    the command raises, the tunnel is not stopped. *)
Theorem tunnelled_invocation_lifecycle st args port w :
  ssh_tunnel (self st) = true →
  String.eqb (command args) "select" && Py.is_none (number args) = false →
  tunnel_start (world st) = (Some port, w) →
  (∃ mid,
     Forall (tunnelled_only port) mid
     ∧ events_of (Mgr.main args) st =
       (if debug args then [EDebug] else []) ++ ETunnelStart :: mid
       ++ (match (Mgr.main args st).1 with
           | Ok _ => [ETunnelStop]
           | Raise _ => []
           end))
  ∧ (∃ mid,
       Forall (tunnelled_only port) mid
       ∧ events_of (Switch.main args) st =
         (if debug args then [EDebug] else []) ++ ETunnelStart :: mid
         ++ (match (Switch.main args st).1 with
             | Ok _ => [ETunnelStop]
             | Raise _ => []
             end)).
Proof.
  intros Hon Hcheck Hstart. unfold Mgr.main, Switch.main. split.
  - destruct (main_with_tunnel _ args st port w mgr_show_in_session Hon Hcheck Hstart)
      as (mid & Hmid & Htr).
    exists mid. split; [done|]. by apply events_of_app.
  - destruct (main_with_tunnel _ args st port w switch_show_in_session Hon Hcheck Hstart)
      as (mid & Hmid & Htr).
    exists mid. split; [done|]. by apply events_of_app.
Qed.

(** X9. When the tunnel cannot be started, the invocation ends with
    that error: nothing was requested from the appliance before, and
    nothing is afterwards. *)
Theorem tunnel_failure_is_fatal st args w :
  ssh_tunnel (self st) = true →
  String.eqb (command args) "select" && Py.is_none (number args) = false →
  tunnel_start (world st) = (None, w) →
  (Mgr.main args st).1 = Raise TunnelError
  ∧ (Switch.main args st).1 = Raise TunnelError
  ∧ events_of (Mgr.main args) st = (if debug args then [EDebug] else []) ++ [ETunnelStart]
  ∧ events_of (Switch.main args) st = (if debug args then [EDebug] else []) ++ [ETunnelStart].
Proof.
  intros Hon Hcheck Hstart. unfold Mgr.main, Switch.main.
  pose proof (main_with_tunnel_refused Mgr.show_configurations _ _ _ Hon Hcheck Hstart)
    as Hm.
  pose proof (main_with_tunnel_refused Switch.show_configurations _ _ _ Hon Hcheck Hstart)
    as Hs.
  repeat split; try (by rewrite ?Hm, ?Hs);
    apply events_of_app; rewrite ?Hm, ?Hs; simpl; by rewrite <- app_assoc.
Qed.

End Lifecycle.

(** ** Commands as a whole *)

Section Commands.
Context `{Appliance}.

Lemma writes_le_show_command show args :
  command args = "show" → writes_le 0 show → writes_le 0 (main_with show args).
Proof.
  intros Hcmd Hshow. unfold main_with, _enable_debug. rewrite Hcmd. simpl.
  apply writes_le_bind_l; [apply writes_le_ret|intros _].
  apply writes_le_bind_l;
    [destruct (debug args); [by apply writes_le_emit|apply writes_le_ret]|intros _].
  apply writes_le_bind_l; [apply writes_le_get_self|intros s].
  apply writes_le_bind_l.
  { destruct (ssh_tunnel s); [|apply writes_le_ret].
    apply writes_le_bind_l; [apply writes_le_connect|intros _; apply writes_le_ret]. }
  intros _. apply writes_le_bind_l; [exact Hshow|intros _].
  apply writes_le_bind_l; [apply writes_le_get_self|intros s'].
  destruct (ssh_tunnel s'); [apply writes_le_disconnect|apply writes_le_ret].
Qed.

(** X10. Showing never writes: [show_configurations] of either
    program adds no POST to the trace, and neither does a whole
    invocation with the command [show]. *)
Theorem show_only_reads args :
  command args = "show" →
  writes_le 0 Mgr.show_configurations
  ∧ writes_le 0 Switch.show_configurations
  ∧ writes_le 0 (Mgr.main args)
  ∧ writes_le 0 (Switch.main args).
Proof.
  intros Hcmd.
  split; [apply writes_le_mgr_show|]. split; [apply writes_le_switch_show|].
  split; apply writes_le_show_command; try done;
    [apply writes_le_mgr_show|apply writes_le_switch_show].
Qed.

Lemma main_with_not_found show st n dbg doc rows w1 :
  ssh_tunnel (self st) = false →
  session_get ("https://" +:+ auer_address (self st) +:+ "/configs_state") (world st)
    = (Some {| body := Some doc |}, w1) →
  Py.getitem_str doc "rows" = Ok (JArr rows) →
  Forall (λ c, entry_ok c = true) rows →
  List.find (ident_is n) rows = None →
  main_with show {| command := "select"; number := JInt n; debug := dbg |} st =
  (Raise (SystemExit 1),
   {| self := self st; world := w1;
      trace := trace st ++ (if dbg then [EDebug] else [])
               ++ [EGet ("https://" +:+ auer_address (self st) +:+ "/configs_state");
                   EPrint ("Identifikationsnummer " +:+ pretty n +:+ " not found")] |}).
Proof.
  intros Hoff Hget Hrows Hok Hfind.
  rewrite main_with_checked by done. rewrite debug_step. simpl.
  set (st1 := {| self := self st; world := world st;
                 trace := trace st ++ (if dbg then [EDebug] else []) |}).
  rewrite bind_run. simpl. rewrite Hoff. rewrite bind_run. simpl.
  unfold dispatch. simpl.
  assert (endpoint (self st1) "/configs_state"
          = Ok ("https://" +:+ auer_address (self st) +:+ "/configs_state")) as Hurl.
  { unfold endpoint. simpl. by rewrite Hoff. }
  assert (Forall (λ c', is_Some (entry_ident c') ∧ ident_is n c' = false) rows) as Hmiss.
  { apply find_none in Hfind. rewrite Forall_forall in *. intros c' Hin.
    split; [by apply entry_ok_ident, Hok|by apply Hfind]. }
  pose proof (switch_config_fetched st1 n _ _ _ _ Hurl Hget Hrows) as Hrun.
  rewrite <- (app_nil_r rows), loop_skip, loop_none in Hrun by done.
  rewrite !bind_run, Hrun. simpl. by rewrite <- !app_assoc.
Qed.

(** X11. Selecting a number that no entry of a well-formed list
    carries ends the invocation right after the message: the exit
    status is 1, nothing is rendered and nothing more is requested. *)
Theorem failed_lookup_ends_invocation st n dbg doc rows w1 :
  ssh_tunnel (self st) = false →
  session_get ("https://" +:+ auer_address (self st) +:+ "/configs_state") (world st)
    = (Some {| body := Some doc |}, w1) →
  Py.getitem_str doc "rows" = Ok (JArr rows) →
  Forall (λ c, entry_ok c = true) rows →
  List.find (ident_is n) rows = None →
  exit_status (Mgr.main {| command := "select"; number := JInt n; debug := dbg |} st).1 = 1
  ∧ exit_status
      (Switch.main {| command := "select"; number := JInt n; debug := dbg |} st).1 = 1
  ∧ events_of (Mgr.main {| command := "select"; number := JInt n; debug := dbg |}) st =
    (if dbg then [EDebug] else [])
    ++ [EGet ("https://" +:+ auer_address (self st) +:+ "/configs_state");
        EPrint ("Identifikationsnummer " +:+ pretty n +:+ " not found")]
  ∧ events_of (Switch.main {| command := "select"; number := JInt n; debug := dbg |}) st =
    events_of (Mgr.main {| command := "select"; number := JInt n; debug := dbg |}) st.
Proof.
  intros Hoff Hget Hrows Hok Hfind. unfold Mgr.main, Switch.main.
  pose proof (main_with_not_found Mgr.show_configurations _ _ dbg _ _ _
                Hoff Hget Hrows Hok Hfind) as Hm.
  pose proof (main_with_not_found Switch.show_configurations _ _ dbg _ _ _
                Hoff Hget Hrows Hok Hfind) as Hs.
  assert (∀ (m : M ()) r tr w,
            m st = (r, {| self := self st; world := w; trace := trace st ++ tr |}) →
            events_of m st = tr) as Hev.
  { intros m r tr w Hrun. apply events_of_app. by rewrite Hrun. }
  rewrite (Hev _ _ _ _ Hm), (Hev _ _ _ _ Hs). by rewrite Hm, Hs.
Qed.

(** X12. With the tunnel flag on but no tunnel started, nothing
    reaches the network: [_fetch], [_send] and the three actions
    raise [AttributeError] and leave the state as it was. *)
Theorem requests_need_started_tunnel st path params data cfg_number :
  ssh_tunnel (self st) = true →
  tunnel (self st) = None →
  _fetch path st = (Raise AttributeError, st)
  ∧ _send path params data st = (Raise AttributeError, st)
  ∧ enable_autoswitch st = (Raise AttributeError, st)
  ∧ disable_autoswitch st = (Raise AttributeError, st)
  ∧ switch_config cfg_number st = (Raise AttributeError, st).
Proof.
  intros Hon Hnone.
  assert (∀ p, endpoint (self st) p = Raise AttributeError) as Hend.
  { intros p. unfold endpoint. by rewrite Hon, Hnone. }
  split; [by apply _fetch_no_endpoint|]. split; [by apply _send_no_endpoint|].
  split; [|split].
  - pose proof (enable_outcome st) as Hout. by rewrite Hend in Hout.
  - pose proof (disable_outcome st) as Hout. by rewrite Hend in Hout.
  - destruct (switch_shape cfg_number st) as [(e & He & Hrun)|(url & evs & Hurl & _)].
    + rewrite Hend in He. by injection He as <-.
    + by rewrite Hend in Hurl.
Qed.

End Commands.

(** ** Lists the appliance should not send *)

Section OddLists.
Context `{Appliance}.

Lemma ident_failure c :
  entry_ident c = None →
  ∃ e, (Py.getitem_str c "data" ≫= λ d, Py.getitem_int d 1) = Raise e
       ∧ (e = KeyError ∨ e = TypeError ∨ e = IndexError).
Proof.
  unfold entry_ident.
  destruct c as [| | | | |fields]; simpl; try (intros _; eexists; split; [done|tauto]).
  destruct (Py.lookup_field "data" fields) as [d|]; simpl;
    [|intros _; eexists; split; [done|tauto]].
  destruct d as [| | |s|items|]; simpl; try (intros _; eexists; split; [done|tauto]).
  - destruct (Py.char_at s 1); [discriminate|]. intros _. eexists. split; [done|tauto].
  - destruct (items !! 1%nat); [discriminate|]. intros _. eexists. split; [done|tauto].
Qed.

(** X13. An entry without a readable identification number that
    comes before any entry with the wanted number stops the
    selection: the call raises [KeyError], [TypeError] or
    [IndexError] right after the fetch and writes nothing, even when
    a later entry carries the number. *)
Theorem malformed_entry_aborts_selection st n url doc pre bad post w1 :
  endpoint (self st) "/configs_state" = Ok url →
  session_get url (world st) = (Some {| body := Some doc |}, w1) →
  Py.getitem_str doc "rows" = Ok (JArr (pre ++ bad :: post)) →
  Forall (λ c', is_Some (entry_ident c') ∧ ident_is n c' = false) pre →
  entry_ident bad = None →
  events_of (switch_config (JInt n)) st = [EGet url]
  ∧ ∃ e, (switch_config (JInt n) st).1 = Raise e
         ∧ (e = KeyError ∨ e = TypeError ∨ e = IndexError).
Proof.
  intros Hurl Hget Hrows Hpre Hbad.
  pose proof (switch_config_fetched _ n _ _ _ _ Hurl Hget Hrows) as Hrun.
  rewrite loop_skip in Hrun by done.
  destruct (ident_failure _ Hbad) as (e & Hraise & He).
  assert (switch_config (JInt n) st = (Raise e, got st url w1)) as Hfull.
  { rewrite Hrun. simpl.
    destruct (Py.getitem_str bad "data") as [d|e']; simpl in Hraise.
    - rewrite bind_lift_ok, Hraise. by rewrite bind_lift_raise.
    - rewrite bind_lift_raise. by injection Hraise as ->. }
  split; [by apply (events_got _ _ _ _ _ Hfull)|].
  exists e. by rewrite Hfull.
Qed.

Lemma switch_config_iterated st cfg_number url doc rows w1 :
  endpoint (self st) "/configs_state" = Ok url →
  session_get url (world st) = (Some {| body := Some doc |}, w1) →
  Py.getitem_str doc "rows" = Ok rows →
  switch_config cfg_number st =
  match Py.iter rows with
  | Ok items => switch_config_loop cfg_number items (got st url w1)
  | Raise e => (Raise e, got st url w1)
  end.
Proof.
  intros Hurl Hget Hrows. unfold switch_config, _fetch_cfg_state.
  rewrite bind_run, (fetch_json_run _ _ _ _ _ Hurl Hget), Hrows, bind_lift_ok.
  by destruct (Py.iter rows).
Qed.

Lemma loop_on_strings cfg_number s rest st :
  switch_config_loop cfg_number (JStr s :: rest) st = (Raise TypeError, st).
Proof. reflexivity. Qed.

Lemma loop_on_nothing cfg_number st :
  ∃ e evs,
    switch_config_loop cfg_number [] st =
    (Raise e, {| self := self st; world := world st; trace := trace st ++ evs |})
    ∧ posts evs = [].
Proof.
  simpl. destruct (Py.str cfg_number) as [shown|e].
  - rewrite bind_lift_ok. by eexists _, [_].
  - rewrite bind_lift_raise. exists e, []. rewrite app_nil_r. by destruct st.
Qed.

(** X14. When [rows] of the fetched document is not a list, the
    selection writes nothing and does not return: iterating a dict or
    a str yields strs, which have no ["data"], and [None], a bool or
    a number cannot be iterated. *)
Theorem rows_not_a_list_never_writes st cfg_number url doc rows w1 :
  endpoint (self st) "/configs_state" = Ok url →
  session_get url (world st) = (Some {| body := Some doc |}, w1) →
  Py.getitem_str doc "rows" = Ok rows →
  (∀ items, rows ≠ JArr items) →
  posts (events_of (switch_config cfg_number) st) = []
  ∧ ∃ e, (switch_config cfg_number st).1 = Raise e.
Proof.
  intros Hurl Hget Hrows Hnot.
  pose proof (switch_config_iterated _ cfg_number _ _ _ _ Hurl Hget Hrows) as Hrun.
  assert (∀ e, switch_config cfg_number st = (Raise e, got st url w1) →
               posts (events_of (switch_config cfg_number) st) = []
               ∧ ∃ e', (switch_config cfg_number st).1 = Raise e') as Hquiet.
  { intros e Hfull. rewrite (events_got _ _ _ _ _ Hfull), Hfull. eauto. }
  assert (switch_config cfg_number st = switch_config_loop cfg_number [] (got st url w1) →
          posts (events_of (switch_config cfg_number) st) = []
          ∧ ∃ e', (switch_config cfg_number st).1 = Raise e') as Hempty.
  { intros Hfull.
    destruct (loop_on_nothing cfg_number (got st url w1)) as (e & evs & Hloop & Hp).
    rewrite Hloop in Hfull.
    rewrite (events_of_app _ st (EGet url :: evs)).
    - rewrite Hfull. split; [done|eauto].
    - rewrite Hfull. simpl. by rewrite <- app_assoc. }
  destruct rows as [| | |s|items|fields]; simpl in Hrun; try (by eapply Hquiet).
  - destruct s as [|c s]; [by apply Hempty|].
    change (JStr <$> Py.chars (String c s))
      with (JStr (String c EmptyString) :: (JStr <$> Py.chars s)) in Hrun.
    rewrite loop_on_strings in Hrun. by eapply Hquiet.
  - by destruct (Hnot items).
  - destruct fields as [|[k v] fields]; [by apply Hempty|].
    change (JStr <$> Py.keys ((k, v) :: fields))
      with (JStr k :: (JStr <$> filter (λ k', k' ≠ k) (Py.keys fields))) in Hrun.
    rewrite loop_on_strings in Hrun. by eapply Hquiet.
Qed.

(** X15. An identification number the appliance delivers as a JSON
    number is never matched, not even by the same number: the
    comparison is between a number and a str. *)
Theorem numeric_identification_never_matches st n url doc rows w1 :
  endpoint (self st) "/configs_state" = Ok url →
  session_get url (world st) = (Some {| body := Some doc |}, w1) →
  Py.getitem_str doc "rows" = Ok (JArr rows) →
  Forall (λ c, ∃ k, entry_ident c = Some (JInt k)) rows →
  (switch_config (JInt n) st).1 = Raise (SystemExit 1)
  ∧ events_of (switch_config (JInt n)) st =
    [EGet url; EPrint ("Identifikationsnummer " +:+ pretty n +:+ " not found")].
Proof.
  intros Hurl Hget Hrows Hnum.
  assert (Forall (λ c', is_Some (entry_ident c') ∧ ident_is n c' = false) rows) as Hmiss.
  { eapply Forall_impl; [exact Hnum|]. intros c [k Hk].
    unfold ident_is. rewrite Hk. by eauto. }
  pose proof (switch_config_fetched _ n _ _ _ _ Hurl Hget Hrows) as Hrun.
  rewrite <- (app_nil_r rows), loop_skip, loop_none in Hrun by done.
  split; [by rewrite Hrun|].
  apply events_of_app. rewrite Hrun. simpl. by rewrite <- app_assoc.
Qed.

End OddLists.

(** ** What is shown *)

Section Shown.
Context `{Appliance}.

(** X16. The panel and the guard read [switchCfgCb] differently: the
    panel marks autoswitch as on for any truthy value, the guard of
    [disable_autoswitch] takes the str ["0"] for off.  When the
    appliance reports ["0"], a non-empty str, disabling is a no-op
    and the panel still shows the check mark. *)
Theorem shown_on_while_treated_as_off st url doc w1 name shown relais :
  endpoint (self st) "/config_autoswitch_state" = Ok url →
  session_get url (world st) = (Some {| body := Some doc |}, w1) →
  Py.getitem_str doc "switchCfgCb" = Ok (JStr "0") →
  Py.getitem_str doc "switchSysRelaisName" = Ok name →
  Py.str name = Ok shown →
  Py.getitem_str doc "switchSysRelais" = Ok relais →
  disable_autoswitch st = (Ok (JBool true), got st url w1)
  ∧ autoswitch_rows st =
    (Ok [[JStr "Automatische Konfigurationsumschaltung"; JStr check_mark];
         [JStr ("Steuerbar mit Systemrelais: " +:+ shown);
          JStr (if Py.truthy relais then check_mark else cross_mark)]],
     got st url w1).
Proof.
  intros Hurl Hget Hcb Hname Hshown Hrelais.
  split; [exact (disable_noop _ _ _ _ Hurl Hget Hcb)|].
  unfold autoswitch_rows, _fetch_autoswitch_state.
  rewrite bind_run, (fetch_json_run _ _ _ _ _ Hurl Hget), Hcb, bind_lift_ok.
  simpl. by rewrite Hname, bind_lift_ok, Hshown, bind_lift_ok, Hrelais, bind_lift_ok.
Qed.

Lemma entry_ok_name c : entry_ok c = true → is_Some (entry_name c).
Proof.
  intros (fields & name & ident & more & i & -> & Hd & _)%entry_ok_inv.
  unfold entry_name. simpl. rewrite Hd. simpl. eauto.
Qed.



End Shown.

(** ** Documents kept by the accessors *)

Section Caches.
Context `{Appliance}.

Ltac on_cache Hdoc :=
  rewrite bind_run, (hasattr_cached _ _ _ Hdoc); simpl;
  rewrite bind_run; simpl; rewrite bind_run; unfold getattr; rewrite Hdoc.

Ltac on_miss Hnone Hurl Hget :=
  rewrite bind_run, (hasattr_missing _ _ Hnone); simpl;
  rewrite bind_run, bind_run, (fetch_json_run _ _ _ _ _ Hurl Hget); simpl;
  rewrite bind_run; unfold getattr; simpl; rewrite lookup_insert_eq.

Ltac lifts_done :=
  repeat match goal with
         | |- context [ (lift ?r ≫= _) _ ] =>
             destruct r; [rewrite bind_lift_ok | rewrite bind_lift_raise]
         end;
  try reflexivity.

Lemma about_cached st doc a :
  attrs (self st) !! "pbx_about" = Some doc →
  In a [Mgr._pbx_firmware; Mgr._pbx_date; Mgr._pbx_serial] →
  (a st).2 = st.
Proof.
  intros Hdoc [<-|[<-|[<-|[]]]].
  - unfold Mgr._pbx_firmware. on_cache Hdoc. lifts_done.
  - unfold Mgr._pbx_date. on_cache Hdoc. lifts_done.
  - unfold Mgr._pbx_serial. on_cache Hdoc. lifts_done.
Qed.

Lemma about_fetched st url doc w1 a :
  attrs (self st) !! "pbx_about" = None →
  endpoint (self st) "/about_state" = Ok url →
  session_get url (world st) = (Some {| body := Some doc |}, w1) →
  In a [Mgr._pbx_firmware; Mgr._pbx_date; Mgr._pbx_serial] →
  (a st).2 = kept st "pbx_about" doc url w1.
Proof.
  intros Hnone Hurl Hget [<-|[<-|[<-|[]]]].
  - unfold Mgr._pbx_firmware, Mgr._fetch_pbx_about. on_miss Hnone Hurl Hget. lifts_done.
  - unfold Mgr._pbx_date, Mgr._fetch_pbx_about. on_miss Hnone Hurl Hget. lifts_done.
  - unfold Mgr._pbx_serial, Mgr._fetch_pbx_about. on_miss Hnone Hurl Hget. lifts_done.
Qed.

(** X18. In [auer_cfg_mgr.py] the firmware, date and serial accessors
    share one document: the first of them to run on a fresh client
    fetches [/about_state] and stores what came back, also when the
    field it wants is missing, and whichever of them runs next leaves
    the state untouched, so it requests nothing. *)
Theorem about_document_fetched_once st url doc w1 a b :
  attrs (self st) !! "pbx_about" = None →
  endpoint (self st) "/about_state" = Ok url →
  session_get url (world st) = (Some {| body := Some doc |}, w1) →
  In a [Mgr._pbx_firmware; Mgr._pbx_date; Mgr._pbx_serial] →
  In b [Mgr._pbx_firmware; Mgr._pbx_date; Mgr._pbx_serial] →
  events_of a st = [EGet url]
  ∧ attrs (self (a st).2) !! "pbx_about" = Some doc
  ∧ (b (a st).2).2 = (a st).2
  ∧ events_of b (a st).2 = [].
Proof.
  intros Hnone Hurl Hget Ha Hb.
  pose proof (about_fetched _ _ _ _ _ Hnone Hurl Hget Ha) as Hst.
  assert (attrs (self (a st).2) !! "pbx_about" = Some doc) as Hkept.
  { rewrite Hst. simpl. apply lookup_insert_eq. }
  pose proof (about_cached _ _ _ Hkept Hb) as Hsame.
  split; [apply events_of_app; by rewrite Hst|].
  split; [done|]. split; [done|].
  apply events_of_nil. by rewrite Hsame.
Qed.

Lemma tree_cached st doc a :
  attrs (self st) !! "pbx_info" = Some doc →
  In a [Switch._pbx_product; Switch._pbx_name] →
  (a st).2 = st.
Proof.
  intros Hdoc [<-|[<-|[]]].
  - unfold Switch._pbx_product. on_cache Hdoc. lifts_done.
  - unfold Switch._pbx_name. on_cache Hdoc. lifts_done.
Qed.

Lemma tree_fetched st url doc w1 a :
  attrs (self st) !! "pbx_info" = None →
  endpoint (self st) "/tree" = Ok url →
  session_get url (world st) = (Some {| body := Some doc |}, w1) →
  In a [Switch._pbx_product; Switch._pbx_name] →
  (a st).2 = kept st "pbx_info" doc url w1.
Proof.
  intros Hnone Hurl Hget [<-|[<-|[]]].
  - unfold Switch._pbx_product, Switch._fetch_pbx_info. on_miss Hnone Hurl Hget. lifts_done.
  - unfold Switch._pbx_name, Switch._fetch_pbx_info. on_miss Hnone Hurl Hget. lifts_done.
Qed.

(** X19. In [auer_cfg_switch.py] the product and name accessors share
    the menu tree: the first to run on a fresh client fetches [/tree]
    and stores it as [pbx_info], and whichever runs next requests
    nothing. *)
Theorem tree_document_fetched_once st url doc w1 a b :
  attrs (self st) !! "pbx_info" = None →
  endpoint (self st) "/tree" = Ok url →
  session_get url (world st) = (Some {| body := Some doc |}, w1) →
  In a [Switch._pbx_product; Switch._pbx_name] →
  In b [Switch._pbx_product; Switch._pbx_name] →
  events_of a st = [EGet url]
  ∧ attrs (self (a st).2) !! "pbx_info" = Some doc
  ∧ (b (a st).2).2 = (a st).2
  ∧ events_of b (a st).2 = [].
Proof.
  intros Hnone Hurl Hget Ha Hb.
  pose proof (tree_fetched _ _ _ _ _ Hnone Hurl Hget Ha) as Hst.
  assert (attrs (self (a st).2) !! "pbx_info" = Some doc) as Hkept.
  { rewrite Hst. simpl. apply lookup_insert_eq. }
  pose proof (tree_cached _ _ _ Hkept Hb) as Hsame.
  split; [apply events_of_app; by rewrite Hst|].
  split; [done|]. split; [done|].
  apply events_of_nil. by rewrite Hsame.
Qed.

End Caches.

(** ** The constructor *)

Section Constructor.

Lemma keys_spec k fields : k ∈ Py.keys fields ↔ is_Some (Py.lookup_field k fields).
Proof.
  induction fields as [|[k0 v] fields IH]; simpl.
  - split; [by intros ?%elem_of_nil|by intros [? ?]].
  - rewrite elem_of_cons, list_elem_of_filter, IH.
    destruct (String.eqb k0 k) eqn:Hk.
    + apply String.eqb_eq in Hk. subst. split; [by eauto|by left].
    + apply String.eqb_neq in Hk. split; [by intros [?|[_ ?]]|].
      intros Hsome. right. split; [congruence|done].
Qed.

Lemma set_all_lookup (f : string → json) ks attrs k :
  Init.set_all ((λ k, (k, f k)) <$> ks) attrs !! k =
  if bool_decide (k ∈ ks) then Some (Init.Plain (f k)) else attrs !! k.
Proof.
  unfold Init.set_all. revert attrs.
  induction ks as [|x ks IH]; intros attrs.
  - rewrite bool_decide_eq_false_2; [done|apply not_elem_of_nil].
  - rewrite fmap_cons. cbn [foldl]. rewrite IH. cbn [fst snd].
    destruct (decide (k ∈ ks)) as [Hin|Hout].
    + rewrite !bool_decide_eq_true_2; [done|by right|done].
    + rewrite (bool_decide_eq_false_2 (k ∈ ks)) by done.
      destruct (decide (k = x)) as [->|Hne].
      * rewrite bool_decide_eq_true_2 by left. apply lookup_insert_eq.
      * rewrite bool_decide_eq_false_2; [by apply lookup_insert_ne|].
        by intros [?|?]%elem_of_cons.
Qed.

(** Every setting of the file becomes an attribute, over whatever was
    there; other attributes stay. *)
Lemma load_lookup fields attrs k :
  Init.set_all (Init.items fields) attrs !! k =
  match Py.lookup_field k fields with
  | Some v => Some (Init.Plain v)
  | None => attrs !! k
  end.
Proof.
  unfold Init.items. rewrite set_all_lookup.
  destruct (Py.lookup_field k fields) as [v|] eqn:Hk.
  - rewrite bool_decide_eq_true_2; [done|]. apply keys_spec. by rewrite Hk.
  - rewrite bool_decide_eq_false_2; [done|]. rewrite keys_spec, Hk. by intros [? ?].
Qed.

Lemma defaults_no_credentials dir :
  Init.defaults dir !! "auer_admin_user" = None
  ∧ Init.defaults dir !! "auer_admin_pass" = None.
Proof.
  unfold Init.defaults. by rewrite !lookup_insert_ne, lookup_empty by discriminate.
Qed.

Lemma defaults_ssl_verify dir :
  Init.defaults dir !! "ssl_verify" = Some (Init.Plain (JBool false)).
Proof.
  unfold Init.defaults. rewrite lookup_insert_ne by discriminate.
  apply lookup_insert_eq.
Qed.

(** The constructor on a file that holds a dict. *)
Lemma init_loaded dir fs fields :
  fs (dir +:+ "/auerswald.cfg.yaml") = Init.Loaded (JObj fields) →
  Init.__init__ dir fs =
  match Py.lookup_field "auer_admin_user" fields,
        Py.lookup_field "auer_admin_pass" fields with
  | Some user, Some pass =>
      inr {| Init.attributes :=
               <["session" := Init.Session (Init.Plain user) (Init.Plain pass) false]>
                 (Init.set_all (Init.items fields) (Init.defaults dir));
             Init.warnings_disabled :=
               negb (Py.truthy (default (JBool false)
                                  (Py.lookup_field "ssl_verify" fields))) |}
  | None, _ => inl (Init.NoSetting "auer_admin_user")
  | Some _, None => inl (Init.NoSetting "auer_admin_pass")
  end.
Proof.
  intros Hfile. unfold Init.__init__, Init._load_config, Init.getattr. rewrite Hfile.
  destruct (defaults_no_credentials dir) as [Hu Hp].
  rewrite !load_lookup, Hu, Hp.
  destruct (Py.lookup_field "auer_admin_user" fields) as [user|]; [|done].
  destruct (Py.lookup_field "auer_admin_pass" fields) as [pass|]; [|done].
  cbv zeta. rewrite lookup_insert_ne by discriminate.
  rewrite load_lookup, defaults_ssl_verify.
  by destruct (Py.lookup_field "ssl_verify" fields).
Qed.

(** X20. The constructor succeeds exactly when the configuration
    file next to the script can be read, parses to a mapping, and
    defines both [auer_admin_user] and [auer_admin_pass]. *)
Theorem constructor_succeeds_iff dir fs :
  (∃ o, Init.__init__ dir fs = inr o)
  ↔ ∃ fields,
      fs (dir +:+ "/auerswald.cfg.yaml") = Init.Loaded (JObj fields)
      ∧ is_Some (Py.lookup_field "auer_admin_user" fields)
      ∧ is_Some (Py.lookup_field "auer_admin_pass" fields).
Proof.
  split.
  - intros [o Ho].
    destruct (fs (dir +:+ "/auerswald.cfg.yaml")) as [| |data] eqn:Hfile;
      try (unfold Init.__init__, Init._load_config in Ho; by rewrite Hfile in Ho).
    destruct data as [| | | | |fields];
      try (unfold Init.__init__, Init._load_config in Ho; by rewrite Hfile in Ho).
    exists fields. split; [done|]. rewrite (init_loaded _ _ _ Hfile) in Ho.
    destruct (Py.lookup_field "auer_admin_user" fields); [|done].
    destruct (Py.lookup_field "auer_admin_pass" fields); [|done]. eauto.
  - intros (fields & Hfile & [user Hu] & [pass Hp]).
    rewrite (init_loaded _ _ _ Hfile), Hu, Hp. eauto.
Qed.

(** X21. However the configuration sets [ssl_verify], the session
    the constructor builds does not verify certificates: the flag
    only decides whether urllib3's warnings are switched off. *)
Theorem certificate_verification_stays_off dir fs o :
  Init.__init__ dir fs = inr o →
  ∃ user pass flag,
    Init.attributes o !! "session" = Some (Init.Session user pass false)
    ∧ Init.attributes o !! "ssl_verify" = Some (Init.Plain flag)
    ∧ Init.warnings_disabled o = negb (Py.truthy flag).
Proof.
  intros Ho.
  destruct (proj1 (constructor_succeeds_iff dir fs) (ex_intro _ o Ho))
    as (fields & Hfile & [user Hu] & [pass Hp]).
  rewrite (init_loaded _ _ _ Hfile), Hu, Hp in Ho. injection Ho as <-. simpl.
  exists (Init.Plain user), (Init.Plain pass),
    (default (JBool false) (Py.lookup_field "ssl_verify" fields)).
  split; [apply lookup_insert_eq|]. split; [|done].
  rewrite lookup_insert_ne by discriminate. rewrite load_lookup, defaults_ssl_verify.
  by destruct (Py.lookup_field "ssl_verify" fields).
Qed.


End Constructor.

(** ** The further theorems at work *)

Section FurtherOnTheSimulator.
#[local] Existing Instance Sim.appliance.

Lemma enable_posts_fetched_relay_name_witness :
  ∃ url_state doc w1 name,
    endpoint (self (Sim.fresh (Sim.box (JStr "0") Sim.day_night)))
      "/config_autoswitch_state" = Ok url_state
    ∧ session_get url_state (world (Sim.fresh (Sim.box (JStr "0") Sim.day_night)))
      = (Some {| body := Some doc |}, w1)
    ∧ Py.getitem_str doc "switchSysRelaisName" = Ok name
    ∧ events_of enable_autoswitch (Sim.fresh (Sim.box (JStr "0") Sim.day_night))
      = [EGet url_state;
         EPost "https://pbx.example/config_autoswitch_save" None
           (Some (enable_form (JStr "Relais 1")))]
    ∧ endpoint (self (Sim.fresh (Sim.box (JStr "0") Sim.day_night)))
        "/config_autoswitch_save" = Ok "https://pbx.example/config_autoswitch_save"
    ∧ (None : option form) = None
    ∧ Some (enable_form (JStr "Relais 1")) =
      Some [("switchCfgCb", JStr "switchCfgCb");
            ("switchSysRelais", JStr "switchSysRelais"); ("switchSysRelaisName", name)].
Proof.
  apply (enable_posts_fetched_relay_name
           (Sim.fresh (Sim.box (JStr "0") Sim.day_night))
           "https://pbx.example/config_autoswitch_save" None
           (Some (enable_form (JStr "Relais 1")))).
  vm_compute. right. left. reflexivity.
Defined.

Lemma autoswitch_return_value_tells_write_witness :
  (JBool true = JBool true
   ∧ posts (events_of enable_autoswitch (Sim.fresh (Sim.box (JStr "1") Sim.day_night))) = [])
  ∨ (JBool true = JNull
     ∧ ∃ p, posts (events_of enable_autoswitch
                     (Sim.fresh (Sim.box (JStr "1") Sim.day_night))) = [p]).
Proof.
  apply (autoswitch_return_value_tells_write
           (Sim.fresh (Sim.box (JStr "1") Sim.day_night)) enable_autoswitch (JBool true)).
  - left. reflexivity.
  - reflexivity.
Defined.

Lemma actions_fetch_afresh_witness :
  (self (enable_autoswitch (Sim.fresh (Sim.box (JStr "0") Sim.day_night))).2
     = self (Sim.fresh (Sim.box (JStr "0") Sim.day_night))
   ∧ ∃ rest, events_of enable_autoswitch (Sim.fresh (Sim.box (JStr "0") Sim.day_night))
             = EGet "https://pbx.example/config_autoswitch_state" :: rest)
  ∧ (self (disable_autoswitch (Sim.fresh (Sim.box (JStr "0") Sim.day_night))).2
       = self (Sim.fresh (Sim.box (JStr "0") Sim.day_night))
     ∧ ∃ rest, events_of disable_autoswitch (Sim.fresh (Sim.box (JStr "0") Sim.day_night))
               = EGet "https://pbx.example/config_autoswitch_state" :: rest)
  ∧ (self (switch_config (JInt 20) (Sim.fresh (Sim.box (JStr "0") Sim.day_night))).2
       = self (Sim.fresh (Sim.box (JStr "0") Sim.day_night))
     ∧ ∃ rest, events_of (switch_config (JInt 20))
                 (Sim.fresh (Sim.box (JStr "0") Sim.day_night))
               = EGet "https://pbx.example/configs_state" :: rest).
Proof.
  apply (actions_fetch_afresh (Sim.fresh (Sim.box (JStr "0") Sim.day_night))); reflexivity.
Defined.

Lemma settle_delay_only_after_answered_write_witness :
  1 = 1
  ∧ (switch_config (JInt 20) (Sim.fresh (Sim.box (JStr "0") Sim.day_night))).1
    = Ok (JBool true)
  ∧ ∃ url url_set configId,
      endpoint (self (Sim.fresh (Sim.box (JStr "0") Sim.day_night))) "/configs_set"
        = Ok url_set
      ∧ events_of (switch_config (JInt 20)) (Sim.fresh (Sim.box (JStr "0") Sim.day_night)) =
        [EGet url; EPost url_set (Some [("configId", JStr configId)]) None; ESleep 1].
Proof.
  apply (settle_delay_only_after_answered_write
           (Sim.fresh (Sim.box (JStr "0") Sim.day_night)) (JInt 20) 1).
  vm_compute. right. right. left. reflexivity.
Defined.

Lemma switch_config_returns_true_after_settling_witness :
  JBool true = JBool true
  ∧ ((∃ url, events_of (switch_config (JInt 10))
               (Sim.fresh (Sim.box (JStr "0") Sim.day_night)) = [EGet url])
     ∨ ∃ url url_set configId,
         events_of (switch_config (JInt 10)) (Sim.fresh (Sim.box (JStr "0") Sim.day_night)) =
         [EGet url; EPost url_set (Some [("configId", JStr configId)]) None; ESleep 1]).
Proof.
  apply (switch_config_returns_true_after_settling
           (Sim.fresh (Sim.box (JStr "0") Sim.day_night)) (JInt 10) (JBool true)).
  reflexivity.
Defined.

Lemma selection_posts_only_config_id_witness :
  endpoint (self (Sim.fresh (Sim.box (JStr "0") Sim.day_night))) "/configs_set"
    = Ok "https://pbx.example/configs_set"
  ∧ (None : option form) = None
  ∧ ∃ configId, Some [("configId", JStr "2")] = Some [("configId", JStr configId)].
Proof.
  apply (selection_posts_only_config_id
           (Sim.fresh (Sim.box (JStr "0") Sim.day_night)) (JInt 20)
           "https://pbx.example/configs_set" (Some [("configId", JStr "2")]) None).
  vm_compute. right. left. reflexivity.
Defined.

Lemma direct_invocation_stays_direct_witness :
  Forall (direct_only "pbx.example")
    (events_of (Mgr.main {| command := "enable"; number := JNull; debug := false |})
       (Sim.fresh (Sim.box (JStr "0") Sim.day_night)))
  ∧ Forall (direct_only "pbx.example")
      (events_of (Switch.main {| command := "enable"; number := JNull; debug := false |})
         (Sim.fresh (Sim.box (JStr "0") Sim.day_night))).
Proof.
  apply (direct_invocation_stays_direct (Sim.fresh (Sim.box (JStr "0") Sim.day_night))).
  reflexivity.
Defined.

Lemma tunnelled_invocation_lifecycle_witness :
  ∃ mid,
    Forall (tunnelled_only 40022) mid
    ∧ events_of (Mgr.main {| command := "select"; number := JInt 99; debug := false |})
        (Sim.fresh_tunnelled (Sim.box (JStr "0") Sim.day_night)) =
      [] ++ ETunnelStart :: mid
      ++ (match (Mgr.main {| command := "select"; number := JInt 99; debug := false |}
                   (Sim.fresh_tunnelled (Sim.box (JStr "0") Sim.day_night))).1 with
          | Ok _ => [ETunnelStop]
          | Raise _ => []
          end).
Proof.
  apply (tunnelled_invocation_lifecycle
           (Sim.fresh_tunnelled (Sim.box (JStr "0") Sim.day_night))
           {| command := "select"; number := JInt 99; debug := false |}
           40022 (Sim.box (JStr "0") Sim.day_night)); reflexivity.
Defined.

(** A failed lookup through the tunnel leaves the tunnel open. *)
Example tunnel_left_open_after_failed_lookup :
  events_of (Mgr.main {| command := "select"; number := JInt 99; debug := false |})
    (Sim.fresh_tunnelled (Sim.box (JStr "0") Sim.day_night))
  = [ETunnelStart; EGet "https://127.0.0.1:40022/configs_state";
     EPrint "Identifikationsnummer 99 not found"].
Proof. reflexivity. Qed.

Lemma show_only_reads_witness :
  writes_le 0 Mgr.show_configurations
  ∧ writes_le 0 Switch.show_configurations
  ∧ writes_le 0 (Mgr.main {| command := "show"; number := JNull; debug := true |})
  ∧ writes_le 0 (Switch.main {| command := "show"; number := JNull; debug := true |}).
Proof.
  apply (show_only_reads {| command := "show"; number := JNull; debug := true |}).
  reflexivity.
Defined.

Lemma failed_lookup_ends_invocation_witness :
  exit_status (Mgr.main {| command := "select"; number := JInt 99; debug := true |}
                 (Sim.fresh (Sim.box (JStr "0") Sim.day_night))).1 = 1
  ∧ exit_status (Switch.main {| command := "select"; number := JInt 99; debug := true |}
                   (Sim.fresh (Sim.box (JStr "0") Sim.day_night))).1 = 1
  ∧ events_of (Mgr.main {| command := "select"; number := JInt 99; debug := true |})
      (Sim.fresh (Sim.box (JStr "0") Sim.day_night)) =
    [EDebug]
    ++ [EGet ("https://" +:+ "pbx.example" +:+ "/configs_state");
        EPrint ("Identifikationsnummer " +:+ pretty 99 +:+ " not found")]
  ∧ events_of (Switch.main {| command := "select"; number := JInt 99; debug := true |})
      (Sim.fresh (Sim.box (JStr "0") Sim.day_night)) =
    events_of (Mgr.main {| command := "select"; number := JInt 99; debug := true |})
      (Sim.fresh (Sim.box (JStr "0") Sim.day_night)).
Proof.
  apply (failed_lookup_ends_invocation
           (Sim.fresh (Sim.box (JStr "0") Sim.day_night)) 99 true
           (JObj [("rows", JArr [Sim.day; Sim.night20])]) [Sim.day; Sim.night20]
           (Sim.box (JStr "0") Sim.day_night)).
  - reflexivity.
  - reflexivity.
  - reflexivity.
  - repeat constructor.
  - reflexivity.
Defined.

Lemma requests_need_started_tunnel_witness :
  _fetch "/tree" (Sim.fresh_tunnelled (Sim.box (JStr "0") Sim.day_night))
    = (Raise AttributeError, Sim.fresh_tunnelled (Sim.box (JStr "0") Sim.day_night))
  ∧ _send "/tree" None None (Sim.fresh_tunnelled (Sim.box (JStr "0") Sim.day_night))
    = (Raise AttributeError, Sim.fresh_tunnelled (Sim.box (JStr "0") Sim.day_night))
  ∧ enable_autoswitch (Sim.fresh_tunnelled (Sim.box (JStr "0") Sim.day_night))
    = (Raise AttributeError, Sim.fresh_tunnelled (Sim.box (JStr "0") Sim.day_night))
  ∧ disable_autoswitch (Sim.fresh_tunnelled (Sim.box (JStr "0") Sim.day_night))
    = (Raise AttributeError, Sim.fresh_tunnelled (Sim.box (JStr "0") Sim.day_night))
  ∧ switch_config (JInt 20) (Sim.fresh_tunnelled (Sim.box (JStr "0") Sim.day_night))
    = (Raise AttributeError, Sim.fresh_tunnelled (Sim.box (JStr "0") Sim.day_night)).
Proof.
  apply (requests_need_started_tunnel
           (Sim.fresh_tunnelled (Sim.box (JStr "0") Sim.day_night))); reflexivity.
Defined.

Lemma shown_on_while_treated_as_off_witness :
  disable_autoswitch (Sim.fresh (Sim.box (JStr "0") Sim.day_night)) =
    (Ok (JBool true),
     got (Sim.fresh (Sim.box (JStr "0") Sim.day_night))
       "https://pbx.example/config_autoswitch_state" (Sim.box (JStr "0") Sim.day_night))
  ∧ autoswitch_rows (Sim.fresh (Sim.box (JStr "0") Sim.day_night)) =
    (Ok [[JStr "Automatische Konfigurationsumschaltung"; JStr check_mark];
         [JStr ("Steuerbar mit Systemrelais: " +:+ "Relais 1");
          JStr (if Py.truthy (JStr "1") then check_mark else cross_mark)]],
     got (Sim.fresh (Sim.box (JStr "0") Sim.day_night))
       "https://pbx.example/config_autoswitch_state" (Sim.box (JStr "0") Sim.day_night)).
Proof.
  apply (shown_on_while_treated_as_off
           (Sim.fresh (Sim.box (JStr "0") Sim.day_night))
           "https://pbx.example/config_autoswitch_state"
           (JObj [("switchCfgCb", JStr "0"); ("switchSysRelais", JStr "1");
                  ("switchSysRelaisName", JStr "Relais 1")])
           (Sim.box (JStr "0") Sim.day_night) (JStr "Relais 1") "Relais 1" (JStr "1"));
    reflexivity.
Defined.


Lemma about_document_fetched_once_witness :
  events_of Mgr._pbx_date (Sim.fresh (Sim.box (JStr "0") Sim.day_night))
    = [EGet "https://pbx.example/about_state"]
  ∧ attrs (self (Mgr._pbx_date (Sim.fresh (Sim.box (JStr "0") Sim.day_night))).2)
      !! "pbx_about"
    = Some (JObj [("version", JStr " 7.4A "); ("date", JStr "01.02.2023");
                  ("serial", JStr "1234567890")])
  ∧ (Mgr._pbx_firmware
       (Mgr._pbx_date (Sim.fresh (Sim.box (JStr "0") Sim.day_night))).2).2
    = (Mgr._pbx_date (Sim.fresh (Sim.box (JStr "0") Sim.day_night))).2
  ∧ events_of Mgr._pbx_firmware
      (Mgr._pbx_date (Sim.fresh (Sim.box (JStr "0") Sim.day_night))).2 = [].
Proof.
  apply (about_document_fetched_once
           (Sim.fresh (Sim.box (JStr "0") Sim.day_night))
           "https://pbx.example/about_state"
           (JObj [("version", JStr " 7.4A "); ("date", JStr "01.02.2023");
                  ("serial", JStr "1234567890")])
           (Sim.box (JStr "0") Sim.day_night) Mgr._pbx_date Mgr._pbx_firmware).
  - reflexivity.
  - reflexivity.
  - reflexivity.
  - right. left. reflexivity.
  - left. reflexivity.
Defined.

Lemma tree_document_fetched_once_witness :
  events_of Switch._pbx_product (Sim.fresh (Sim.box (JStr "0") Sim.day_night))
    = [EGet "https://pbx.example/tree"]
  ∧ attrs (self (Switch._pbx_product (Sim.fresh (Sim.box (JStr "0") Sim.day_night))).2)
      !! "pbx_info"
    = Some (JArr [JObj [("pbx", JStr "COMpact 5200"); ("pbxEdit", JStr "Zentrale")]])
  ∧ (Switch._pbx_name
       (Switch._pbx_product (Sim.fresh (Sim.box (JStr "0") Sim.day_night))).2).2
    = (Switch._pbx_product (Sim.fresh (Sim.box (JStr "0") Sim.day_night))).2
  ∧ events_of Switch._pbx_name
      (Switch._pbx_product (Sim.fresh (Sim.box (JStr "0") Sim.day_night))).2 = [].
Proof.
  apply (tree_document_fetched_once
           (Sim.fresh (Sim.box (JStr "0") Sim.day_night))
           "https://pbx.example/tree"
           (JArr [JObj [("pbx", JStr "COMpact 5200"); ("pbxEdit", JStr "Zentrale")]])
           (Sim.box (JStr "0") Sim.day_night) Switch._pbx_product Switch._pbx_name).
  - reflexivity.
  - reflexivity.
  - reflexivity.
  - left. reflexivity.
  - right. left. reflexivity.
Defined.

End FurtherOnTheSimulator.

Section FurtherOnCannedAnswers.

(** The state document is an empty dict: enabling raises [KeyError]
    after the fetch and writes nothing. *)
Lemma autoswitch_read_failure_writes_nothing_witness :
  posts (events_of enable_autoswitch (Canned.fresh (JObj []))) = []
  ∨ (KeyError = RequestException
     ∧ ∃ p, posts (events_of enable_autoswitch (Canned.fresh (JObj []))) = [p]).
Proof.
  apply (autoswitch_read_failure_writes_nothing
           (Canned.fresh (JObj [])) enable_autoswitch KeyError).
  - left. reflexivity.
  - reflexivity.
Defined.

Lemma tunnel_failure_is_fatal_witness :
  (Mgr.main {| command := "show"; number := JNull; debug := false |}
     (Canned.fresh_tunnelled (JObj []))).1 = Raise TunnelError
  ∧ (Switch.main {| command := "show"; number := JNull; debug := false |}
       (Canned.fresh_tunnelled (JObj []))).1 = Raise TunnelError
  ∧ events_of (Mgr.main {| command := "show"; number := JNull; debug := false |})
      (Canned.fresh_tunnelled (JObj [])) = [] ++ [ETunnelStart]
  ∧ events_of (Switch.main {| command := "show"; number := JNull; debug := false |})
      (Canned.fresh_tunnelled (JObj [])) = [] ++ [ETunnelStart].
Proof.
  apply (tunnel_failure_is_fatal (Canned.fresh_tunnelled (JObj []))
           {| command := "show"; number := JNull; debug := false |} tt); reflexivity.
Defined.

(** The first entry has no [data]; Night/20 after it is never reached. *)
Lemma malformed_entry_aborts_selection_witness :
  events_of (switch_config (JInt 20)) (Canned.fresh Canned.broken_first)
    = [EGet "https://pbx.example/configs_state"]
  ∧ ∃ e, (switch_config (JInt 20) (Canned.fresh Canned.broken_first)).1 = Raise e
         ∧ (e = KeyError ∨ e = TypeError ∨ e = IndexError).
Proof.
  apply (malformed_entry_aborts_selection
           (Canned.fresh Canned.broken_first) 20 "https://pbx.example/configs_state"
           Canned.broken_first [] (JObj [("id", JInt 1)]) [Sim.night20] tt).
  - reflexivity.
  - reflexivity.
  - reflexivity.
  - constructor.
  - reflexivity.
Defined.

Lemma rows_not_a_list_never_writes_witness :
  posts (events_of (switch_config (JInt 20)) (Canned.fresh Canned.rows_as_text)) = []
  ∧ ∃ e, (switch_config (JInt 20) (Canned.fresh Canned.rows_as_text)).1 = Raise e.
Proof.
  apply (rows_not_a_list_never_writes
           (Canned.fresh Canned.rows_as_text) (JInt 20)
           "https://pbx.example/configs_state" Canned.rows_as_text (JStr "none") tt).
  - reflexivity.
  - reflexivity.
  - reflexivity.
  - discriminate.
Defined.

(** The list holds the number 10 as a JSON number; selecting 10 does
    not find it. *)
Lemma numeric_identification_never_matches_witness :
  (switch_config (JInt 10) (Canned.fresh Canned.numeric_ident)).1 = Raise (SystemExit 1)
  ∧ events_of (switch_config (JInt 10)) (Canned.fresh Canned.numeric_ident) =
    [EGet "https://pbx.example/configs_state";
     EPrint ("Identifikationsnummer " +:+ pretty 10 +:+ " not found")].
Proof.
  apply (numeric_identification_never_matches
           (Canned.fresh Canned.numeric_ident) 10 "https://pbx.example/configs_state"
           Canned.numeric_ident
           [JObj [("id", JInt 1); ("data", JArr [JStr "Day"; JInt 10])]] tt).
  - reflexivity.
  - reflexivity.
  - reflexivity.
  - constructor; [by exists 10|constructor].
Defined.

Lemma constructor_succeeds_iff_witness :
  ∃ o, Init.__init__ "/opt/auer" (Init.only_config "/opt/auer" Init.strict) = inr o.
Proof.
  apply (proj2 (constructor_succeeds_iff "/opt/auer"
                  (Init.only_config "/opt/auer" Init.strict))).
  eexists. split; [reflexivity|]. split; by eexists.
Defined.

(** The file asks for verification; the session still does not
    verify, and only the warnings stay on. *)
Lemma certificate_verification_stays_off_witness :
  ∃ o user pass flag,
    Init.__init__ "/opt/auer" (Init.only_config "/opt/auer" Init.strict) = inr o
    ∧ Init.attributes o !! "session" = Some (Init.Session user pass false)
    ∧ Init.attributes o !! "ssl_verify" = Some (Init.Plain flag)
    ∧ Init.warnings_disabled o = negb (Py.truthy flag).
Proof.
  destruct (Init.__init__ "/opt/auer" (Init.only_config "/opt/auer" Init.strict))
    as [e|o] eqn:Ho; [vm_compute in Ho; discriminate Ho|].
  destruct (certificate_verification_stays_off _ _ _ Ho) as (user & pass & flag & Hs).
  by exists o, user, pass, flag.
Defined.


End FurtherOnCannedAnswers.
